(* ===== verification/_CoqProject ===== *)
-Q . S2P
Prelude.v
JsString.v
SourceText.v
JsValue.v
Json.v
Url.v
Regex.v
Utilities.v
Constants.v
Runtime.v
Console.v
UtilitiesLog.v
Api.v
ApiLog.v
Modules.v
