(* ===== verification/Prelude.v ===== *)
(** * AWS portal modules: a verification development

    The repository is three browser-loaded JavaScript modules around one
    identity-portal address, [https://internal.awsapps.com/start]:

    - [src/aws-utilities.js]: the address resolver.  Validation
      ([isValidAWSPortalURL]), lookup by portal type ([getAWSPortalURL]),
      normalisation ([normalizeAWSPortalURL]), exact comparison
      ([isMainAWSPortal]), host extraction ([getAWSPortalDomain]),
      construction ([buildAWSPortalURL]), a configuration self-check
      ([validateAWSPortalConfig]) and navigation ([navigateToAWSPortal]).
    - [src/aws-portal-constants.js]: constant objects and the three
      [PORTAL_VALIDATORS], one of which searches a string with a regular
      expression.
    - [src/aws-portal-api.js]: the fetch client [AWSPortalAPIClient], the
      chaining [PortalRequestBuilder] and the functions around them.

    The modules do not call each other; they meet in the addresses they
    produce and accept, in the console they all write to, and in the
    [window] of the page that loads them.  The development relates them
    there.

    ** Files

    Platform (modelled from ECMAScript, the URL standard and the Fetch
    standard, as far as the sources use them):

    - [Prelude] (this file): list lemmas the components share (contiguous
      sublists, stripping both ends of a list, heads and lasts), the [result]
      type of computations that may throw with its bind notation, the
      tactics and the hint databases.
    - [JsString]: JavaScript strings as lists of UTF-16 code units and the
      [String.prototype] methods the sources call.
    - [SourceText]: a string literal of the sources as the code units of
      its UTF-8 text ([text]), with the decoder, the encoder and their
      round trip on well-formed strings.
    - [JsValue]: the values of object literals ([jsval]), property lookup
      with the fallback to [Object.prototype], ToBoolean, [||], object
      spread and the definition of a property; decidable equality and the
      typing [value_ok] of values whose strings are code units.
    - [Json]: the text [JSON.stringify] produces, with the quoting of
      strings.
    - [Url]: the interface [UrlParser] (the host name of a string, with two
      laws of the URL standard) and a reference parser that satisfies it.
      The resolver is verified against the interface.
    - [Regex]: regular expressions over code units, matched by derivatives;
      the matcher is proved to decide the denotational semantics, and
      [searchb] is the unanchored search of [String.prototype.match].
    - [Runtime]: what [src/aws-portal-api.js] calls and does not define:
      [fetch] and [JSON.stringify] as the interface [Runtime], the
      computations [io] over the history of [fetch] calls with
      [try]/[catch], and the heap of shared arrays and objects.
    - [Console]: the console as the list of the calls of [console.log],
      [console.warn] and [console.error]; the monads [logged] (a value
      with its output) and [lio] (an [io] computation with its output);
      [erase], which forgets the output.

    The program:

    - [Utilities]: [src/aws-utilities.js], one definition per function and
      constant object, without the console.  The window is a record with
      [location_href] and the list of opened addresses.
    - [UtilitiesLog]: the same functions with every call of the console,
      [logAWSPortalInfo], [showAWSPortalHelp] and the lines of the load
      included ([Module LoggedUtilities]).
    - [Constants]: [src/aws-portal-constants.js], every constant object as
      a literal, and the validators; the pattern of [isValidPortalURL] is a
      [regex].
    - [Api]: [src/aws-portal-api.js] without the console.
      [Module AWSPortalAPIClient] holds the client (a record of the
      properties the constructor sets, the methods as [io] computations);
      [Module PortalRequestBuilder] holds the builder (a record whose
      [requests] and [headers] are locations of the heap), its reachable
      states, and its contract.
    - [ApiLog]: the same classes and functions with every call of the
      console ([Module LoggedClient], [Module LoggedBuilder],
      [Module LoggedApi]).
    - [Modules]: a load of each file, on a host with or without [window]
      and [module], as a classic script or as a CommonJS module: the
      instantiation of the declarations ([declare]: function declarations
      become properties of [window], a name bound twice by [const] or
      [class] is a [SyntaxError]), then the assignments to [window] and to
      [module.exports] and the lines on the console ([load_utilities],
      [load_constants], [load_api]); [load_all] is a page with the three
      script elements.

    ** What the theorems show

    - Resolver: normalisation is idempotent on every argument, its results
      are exactly the strings in normal form ([is_normal]), and it leaves
      built addresses alone; validation is characterised by the host name,
      for every parser that satisfies [UrlParser]; building, normalising,
      validating and extracting the host agree on the addresses of plain
      labels; lookup by type returns the main portal except for the names
      [Object.prototype] defines; navigation changes the window as its
      arguments say; the self-check accepts exactly the objects that hold
      the three expected strings.
    - Where the resolver leaves the portal, for every parser:
      normalisation appends [/start] to the end of the whole string and
      does not look at the host ([normalize_appends_after_path],
      [normalize_foreign_host]); a subdomain or an endpoint that holds a
      host makes navigation and the client address that host
      ([navigate_foreign_host], [buildEndpointURL_foreign_host]).
    - Constants: [isValidPortalURL] accepts exactly the strings that
      contain a portal address with a label of [[a-z0-9-]*];
      [isValidPortalDomain] is a test of a suffix; the two validators of
      addresses disagree in both directions, on families of addresses
      ([validators_disagree]).
    - Client: [makeRequest] calls [fetch] once, at the fixed base followed
      by the endpoint, with the merged request configuration, and passes on
      what [fetch] returns or throws; [null] options throw before any call;
      the three requests for JSON and the accessibility check are
      characterised on every branch, errors included;
      [testPortalConnectivity] never throws.
    - Builder: every reachable state is well formed and holds only requests
      under the fixed base (rule induction on [reachable]); each method
      simulates the step of the contract ([abstraction],
      [contract_step]), so a chain of calls yields the contract of the
      chain; [build] shares the array of requests with the builder, and
      shares the headers only if [header] was called before.
    - Console: with their console erased the logged functions are the
      functions of [Utilities] and [Api] ([logged_resolver_values],
      [logged_client_values]); [makeRequest] writes an error exactly when
      [fetch] rejects; the requests for JSON write an error exactly when
      they throw; the handler of [testPortalConnectivity] never runs.
    - Loading: in a page the three files load without an error, every
      function they declare and every name they assign is a property of
      [window] afterwards and the other properties are as before
      ([load_all_browser]); a file cannot be loaded twice in a page
      ([load_once]); [aws-utilities.js] does not load where there is no
      [window].
    - Platform: the matcher decides the semantics of regular expressions;
      the reference parser satisfies [UrlParser]; decoding and encoding
      UTF-8 are inverse on well-formed strings; the text of
      [JSON.stringify] is well formed, so that it crosses the wire
      unchanged.

    ** Conventions

    A JavaScript string is a [list N] of code units; a literal of the source
    is written [lit "..."] when it is ASCII and [text "..."] otherwise.  An
    argument that the source tests with [!x] or that has a default value is
    an [option]: [None] is the absent ([undefined]) argument.  Functions
    that catch their exceptions return the sentinel of the source ([false],
    [null] as [None]); functions that let them escape return a [result] or
    are [io] computations.  The objects a function only reads are values;
    the array and the object the request builder mutates and hands out are
    cells of a heap.  A function that writes to the console is modelled
    twice: without the console, where the theorems about its value are
    proved, and with it; the erasure theorems connect the two.

    ** Bounds

    No definition takes fuel: every recursion is structural, on the string,
    the list of properties, the regular expression or the list of calls.
    The matcher takes one derivative per code unit.  Numbers are integers
    ([Z]), which covers every number the sources write; a code unit is an
    [N], and [units_ok] says that it is below 65536.

    ** Not modelled

    - How the console renders its arguments: a [%c] directive and its
      style are arguments like the others.  The text of a function of the
      sources, which the console would show for
      [getAWSPortalURL('constructor')], is written in the form of a
      built-in.
    - Inside a file a name is what the definition of that name in the file
      is; the global scope is modelled where files meet, at load time:
      the names each script binds and the properties of [window].  That a
      declared function is a property of [window] that cannot be deleted
      is not modelled.
    - Arguments of another type than the JSDoc gives (a number for a URL, an
      object for a header value): the functions are modelled on strings,
      absent arguments and, for [options], arbitrary values.
    - [toLowerCase] maps [A]-[Z] only, which is what the method does on the
      ASCII strings the theorems about host names concern; the reference
      URL parser answers [Unsupported] on IP literals, [file:] addresses,
      percent-encoded and internationalised hosts, and the theorems that
      hold for every parser do not depend on it.
    - Time: the [timeout] of a request is a value in the request
      configuration; no computation waits or is aborted.  The order of the
      integer-like keys of an object is that of insertion. *)

From Corelib Require Import ssreflect_rw.
From stdpp Require Export base numbers option list.

(** ** Computations that may throw *)

Inductive result (E A : Type) : Type :=
| Ok (a : A)
| Throw (e : E).
Arguments Ok {E A} a.
Arguments Throw {E A} e.

Definition result_bind {E A B} (r : result E A) (k : A → result E B)
  : result E B :=
  match r with
  | Ok a => k a
  | Throw e => Throw e
  end.

Definition result_catch {E A} (r : result E A) (h : E → result E A)
  : result E A :=
  match r with
  | Ok a => Ok a
  | Throw e => h e
  end.

Definition is_ok {E A} (r : result E A) : bool :=
  match r with
  | Ok _ => true
  | Throw _ => false
  end.

Declare Scope js_scope.
Delimit Scope js_scope with js.

Notation "x ←r c ; k" := (result_bind c (λ x, k))
  (at level 100, c at next level, right associativity) : js_scope.

(** ** Contiguous sublists, and stripping the ends of a list *)

Section lists.
Context {A : Type}.
Implicit Types (s k l : list A) (P : A → bool).

(** [k] occurs in [s] as a block of consecutive elements. *)
Definition infix_of k s : Prop := ∃ l1 l2, s = l1 ++ k ++ l2.

(** The longest suffix of [s] whose first element does not satisfy [P]. *)
Fixpoint drop_while P s : list A :=
  match s with
  | [] => []
  | c :: s' => if P c then drop_while P s' else s
  end.

(** The longest prefix of [s] whose elements all satisfy [P]. *)
Fixpoint take_while P s : list A :=
  match s with
  | [] => []
  | c :: s' => if P c then c :: take_while P s' else []
  end.

(** The longest prefix of [s] whose last element does not satisfy [P]. *)
Definition drop_while_end P s : list A :=
  reverse (drop_while P (reverse s)).

Definition strip P s : list A := drop_while_end P (drop_while P s).

(** Neither end of [s] satisfies [P]; the empty list qualifies. *)
Definition ends_clear P s : Prop :=
  (∀ c, list.head s = Some c → P c = false)
  ∧ (∀ c, list.last s = Some c → P c = false).

Context `{EqDecision A}.

(** The pieces of [s] between the occurrences of [d]: never empty, and
    [[[]]] for the empty list. *)
Fixpoint split_on (d : A) s : list (list A) :=
  match s with
  | [] => [[]]
  | c :: s' =>
      if decide (c = d) then [] :: split_on d s'
      else match split_on d s' with
           | l :: ls => (c :: l) :: ls
           | [] => [[c]]
           end
  end.

Fixpoint is_infix k s : bool :=
  bool_decide (k `prefix_of` s)
  || match s with
     | [] => false
     | _ :: s' => is_infix k s'
     end.

End lists.

(** ** Automation *)

Create HintDb js discriminated.
Create Rewrite HintDb js_rw.

(** Case analysis on the first [if] or [match] scrutinee of the goal. *)
Ltac case_branch :=
  match goal with
  | |- context [if ?b then _ else _] => destruct b eqn:?
  | |- context [match ?x with _ => _ end] => destruct x eqn:?
  end.

(** Turn boolean hypotheses and goals built from [&&], [||], [negb] and
    [bool_decide] into propositions. *)
Ltac bool_to_prop :=
  repeat match goal with
  | H : _ && _ = true |- _ => apply andb_true_iff in H; destruct H
  | H : _ || _ = false |- _ => apply orb_false_iff in H; destruct H
  | H : negb _ = true |- _ => apply negb_true_iff in H
  | H : negb _ = false |- _ => apply negb_false_iff in H
  | H : bool_decide _ = true |- _ => apply bool_decide_eq_true_1 in H
  | H : bool_decide _ = false |- _ => apply bool_decide_eq_false_1 in H
  end.

(** ** Lemmas on [result] *)

Section result_lemmas.
Context {E A B : Type}.
Implicit Types (r : result E A) (k : A → result E B).

Lemma result_bind_ok r k a : r = Ok a → result_bind r k = k a.
Proof. by intros ->. Qed.

Lemma result_bind_throw r k e : r = Throw e → result_bind r k = Throw e.
Proof. by intros ->. Qed.

Lemma result_bind_inv_ok r k b :
  result_bind r k = Ok b → ∃ a, r = Ok a ∧ k a = Ok b.
Proof. destruct r; naive_solver. Qed.

Lemma result_catch_total r (h : E → result E A) :
  (∀ e, is_ok (h e) = true) → is_ok (result_catch r h) = true.
Proof. destruct r; simpl; auto. Qed.

End result_lemmas.

(** ** Lemmas on heads, lasts and contiguous sublists *)

Section list_lemmas.
Context {A : Type}.
Implicit Types (s k l : list A) (P : A → bool).

Lemma head_app_nonempty s l : s ≠ [] → list.head (s ++ l) = list.head s.
Proof. by destruct s. Qed.

Lemma last_app_nonempty s l : l ≠ [] → list.last (s ++ l) = list.last l.
Proof.
  intros Hl. destruct l as [|c l _] using rev_ind; [done|].
  by rw app_assoc !last_snoc.
Qed.

Lemma head_prefix k s c :
  k `prefix_of` s → list.head k = Some c → list.head s = Some c.
Proof. intros [l ->]. by destruct k. Qed.

Lemma last_suffix k s c :
  k `suffix_of` s → list.last k = Some c → list.last s = Some c.
Proof.
  intros [l ->] Hk. rw last_app_nonempty //. by intros ->.
Qed.

Lemma infix_of_refl s : infix_of s s.
Proof. exists [], []. by rw app_nil_r. Qed.

Lemma infix_of_nil s : infix_of [] s.
Proof. by exists [], s. Qed.

Lemma prefix_infix k s : k `prefix_of` s → infix_of k s.
Proof. intros [l ->]. by exists [], l. Qed.

Lemma suffix_infix k s : k `suffix_of` s → infix_of k s.
Proof. intros [l ->]. exists l, []. by rw app_nil_r. Qed.

Lemma infix_of_app_l k s l : infix_of k s → infix_of k (l ++ s).
Proof. intros (l1 & l2 & ->). exists (l ++ l1), l2. by rw -app_assoc. Qed.

Lemma infix_of_app_r k s l : infix_of k s → infix_of k (s ++ l).
Proof.
  intros (l1 & l2 & ->). exists l1, (l2 ++ l). by rw -!app_assoc.
Qed.

Lemma infix_of_cons k s c : infix_of k s → infix_of k (c :: s).
Proof. apply (infix_of_app_l k s [c]). Qed.

Lemma infix_of_length k s : infix_of k s → length k ≤ length s.
Proof. intros (l1 & l2 & ->). rw !length_app. lia. Qed.

Lemma infix_of_nil_inv k : infix_of k [] → k = [].
Proof. intros H%infix_of_length. by destruct k; simpl in *; [|lia]. Qed.

Lemma infix_of_cons_inv k s c :
  infix_of k (c :: s) → k `prefix_of` c :: s ∨ infix_of k s.
Proof.
  intros ([|c' l1] & l2 & Heq); simpl in *.
  - left. exists l2. done.
  - right. exists l1, l2. congruence.
Qed.

Lemma infix_of_elem_of k s x : infix_of k s → x ∈ k → x ∈ s.
Proof. intros (l1 & l2 & ->) ?. rw !elem_of_app. auto. Qed.

Lemma existsb_false_Forall (Q : A → bool) s :
  existsb Q s = false ↔ Forall (λ c, Q c = false) s.
Proof.
  induction s as [|c s IH]; simpl; [by split|].
  rw orb_false_iff IH Forall_cons. done.
Qed.

Lemma forallb_true_Forall (Q : A → bool) s :
  forallb Q s = true ↔ Forall (λ c, Q c = true) s.
Proof.
  induction s as [|c s IH]; simpl; [by split|].
  rw andb_true_iff IH Forall_cons. done.
Qed.

Lemma filter_all (Q : A → Prop) `{!∀ c, Decision (Q c)} s :
  Forall Q s → filter Q s = s.
Proof.
  induction 1 as [|c s Hc Hs IH]; [done|]. by rw filter_cons_True // IH.
Qed.

Lemma fmap_fixed (f : A → A) s : Forall (λ c, f c = c) s → f <$> s = s.
Proof. induction 1 as [|c s Hc Hs IH]; [done|]. by rw fmap_cons Hc IH. Qed.

Lemma not_elem_of_Forall (Q : A → Prop) s x : Forall Q s → ¬ Q x → x ∉ s.
Proof. rw Forall_forall. naive_solver. Qed.

Lemma suffix_app_short k s l :
  k `suffix_of` s ++ l → length k ≤ length l → k `suffix_of` l.
Proof.
  intros Hk Hlen.
  destruct (suffix_weak_total k l (s ++ l) Hk) as [?|Hl]; [by apply suffix_app_r|done|].
  by rw (suffix_length_eq _ _ Hl Hlen).
Qed.

Lemma Forall_head (Q : A → Prop) s c : Forall Q s → list.head s = Some c → Q c.
Proof. intros Hs Hc%head_Some_elem_of. by eapply Forall_forall in Hs. Qed.

Lemma Forall_last (Q : A → Prop) s c : Forall Q s → list.last s = Some c → Q c.
Proof. intros Hs Hc%last_Some_elem_of. by eapply Forall_forall in Hs. Qed.

Lemma infix_of_trans k s l : infix_of k s → infix_of s l → infix_of k l.
Proof.
  intros (a & b & ->) (a' & b' & ->). exists (a' ++ a), (b ++ b').
  by rw -!app_assoc.
Qed.

Context `{EqDecision A}.

Lemma is_infix_spec k s : is_infix k s = true ↔ infix_of k s.
Proof.
  induction s as [|c s IH]; simpl.
  - rw orb_false_r bool_decide_eq_true. split.
    + apply prefix_infix.
    + intros ->%infix_of_nil_inv. done.
  - rw orb_true_iff bool_decide_eq_true IH. split.
    + intros [?|?]; [by apply prefix_infix | by apply infix_of_cons].
    + apply infix_of_cons_inv.
Qed.

Lemma is_infix_false k s : is_infix k s = false ↔ ¬ infix_of k s.
Proof. rw -is_infix_spec. by destruct (is_infix k s). Qed.

Lemma split_on_nonempty d s : split_on d s ≠ [].
Proof.
  destruct s as [|c s]; simpl; [done|].
  destruct (decide (c = d)); [done|]. by destruct (split_on d s).
Qed.

Lemma split_on_no_sep d s : d ∉ s → split_on d s = [s].
Proof.
  induction s as [|c s IH]; simpl; [done|].
  intros [Hc Hs]%not_elem_of_cons. rw decide_False; [done|]. by rw IH.
Qed.

Lemma split_on_app_sep d s l :
  d ∉ s → split_on d (s ++ d :: l) = s :: split_on d l.
Proof.
  induction s as [|c s IH]; simpl.
  - intros _. by rw decide_True.
  - intros [Hc Hs]%not_elem_of_cons. rw decide_False; [done|]. by rw IH.
Qed.

#[global] Instance infix_of_dec : RelDecision (@infix_of A).
Proof.
  refine (λ k s, cast_if (decide (is_infix k s = true)));
    by rw -is_infix_spec.
Defined.

End list_lemmas.

(** ** Lemmas on stripping *)

Section strip_lemmas.
Context {A : Type} (P : A → bool).
Implicit Types (s k l : list A).

Lemma drop_while_suffix s : drop_while P s `suffix_of` s.
Proof.
  induction s as [|c s IH]; simpl; [done|].
  destruct (P c); [by apply suffix_cons_r | done].
Qed.

Lemma drop_while_head s c : list.head (drop_while P s) = Some c → P c = false.
Proof.
  induction s as [|c' s IH]; simpl; [done|].
  destruct (P c') eqn:Hc; [done|]. simpl. congruence.
Qed.

Lemma drop_while_fixed s :
  (∀ c, list.head s = Some c → P c = false) → drop_while P s = s.
Proof. destruct s as [|c s]; simpl; [done|]. intros ->; done. Qed.

Lemma drop_while_end_prefix s : drop_while_end P s `prefix_of` s.
Proof.
  apply prefix_suffix_reverse. rw /drop_while_end reverse_involutive.
  apply drop_while_suffix.
Qed.

Lemma drop_while_end_last s c :
  list.last (drop_while_end P s) = Some c → P c = false.
Proof.
  rw /drop_while_end last_reverse. apply drop_while_head.
Qed.

Lemma drop_while_end_fixed s :
  (∀ c, list.last s = Some c → P c = false) → drop_while_end P s = s.
Proof.
  intros H. rw /drop_while_end drop_while_fixed ?reverse_involutive //.
  intros c. rw head_reverse. apply H.
Qed.

Lemma take_drop_while s : take_while P s ++ drop_while P s = s.
Proof.
  induction s as [|c s IH]; simpl; [done|].
  destruct (P c); simpl; [by rw IH | done].
Qed.

Lemma take_while_all s : Forall (λ c, P c = true) (take_while P s).
Proof.
  induction s as [|c s IH]; simpl; [done|].
  destruct (P c) eqn:Hc; by constructor.
Qed.

(** A block of elements that satisfy [P], followed by nothing or by an
    element that does not, is what [take_while] returns. *)
Lemma take_while_app_stop s l :
  Forall (λ c, P c = true) s →
  (∀ c, list.head l = Some c → P c = false) →
  take_while P (s ++ l) = s ∧ drop_while P (s ++ l) = l.
Proof.
  intros Hs Hl. induction Hs as [|c s Hc Hs IH]; simpl.
  - destruct l as [|c l]; simpl; [done|]. by rw (Hl c).
  - rw Hc. destruct IH as [-> ->]. done.
Qed.

Lemma drop_while_app_clear s l :
  l ≠ [] → (∀ c, list.head l = Some c → P c = false) →
  drop_while P (s ++ l) = drop_while P s ++ l.
Proof.
  intros Hl Hh. induction s as [|c s IH]; simpl.
  - by apply drop_while_fixed.
  - by destruct (P c).
Qed.

Lemma drop_while_end_app s l :
  s ≠ [] → (∀ c, list.last s = Some c → P c = false) →
  drop_while_end P (s ++ l) = s ++ drop_while_end P l.
Proof.
  intros Hs Hl. rw /drop_while_end reverse_app drop_while_app_clear.
  - by intros ?%(f_equal reverse); rw reverse_involutive in H.
  - intros c. rw head_reverse. apply Hl.
  - by rw reverse_app reverse_involutive.
Qed.

Lemma strip_ends_clear s : ends_clear P (strip P s).
Proof.
  split; intros c Hc.
  - apply (drop_while_head s). eapply head_prefix; [|done].
    apply drop_while_end_prefix.
  - by apply drop_while_end_last in Hc.
Qed.

Lemma strip_fixed s : ends_clear P s → strip P s = s.
Proof.
  intros [Hh Hl]. rw /strip drop_while_fixed //.
  by apply drop_while_end_fixed.
Qed.

Lemma strip_fixed_iff s : strip P s = s ↔ ends_clear P s.
Proof.
  split; [|apply strip_fixed]. intros <-. apply strip_ends_clear.
Qed.

Lemma strip_idemp s : strip P (strip P s) = strip P s.
Proof. apply strip_fixed, strip_ends_clear. Qed.

Lemma strip_infix s : infix_of (strip P s) s.
Proof.
  eapply infix_of_trans.
  - apply prefix_infix, drop_while_end_prefix.
  - apply suffix_infix, drop_while_suffix.
Qed.

(** Stripping stops at a block whose two ends are clear. *)
Lemma strip_app_clear s l :
  s ≠ [] → ends_clear P s → strip P (s ++ l) = s ++ drop_while_end P l.
Proof.
  intros Hs [Hh Hl]. rw /strip drop_while_fixed.
  - intros c. rw head_app_nonempty //. apply Hh.
  - by apply drop_while_end_app.
Qed.

Lemma ends_clear_nil : ends_clear P [].
Proof. by split. Qed.

Lemma ends_clear_app s l :
  s ≠ [] → ends_clear P s → ends_clear P l → ends_clear P (s ++ l).
Proof.
  intros Hs [Hsh Hsl] [Hlh Hll]. split; intros c.
  - rw head_app_nonempty //. apply Hsh.
  - destruct (decide (l = [])) as [->|Hl].
    + rw app_nil_r. apply Hsl.
    + rw last_app_nonempty //. apply Hll.
Qed.

Lemma ends_clear_surround s k l :
  s ≠ [] → l ≠ [] → ends_clear P s → ends_clear P l →
  ends_clear P (s ++ k ++ l).
Proof.
  intros Hs Hl [Hsh _] [_ Hll]. split; intros c.
  - rw head_app_nonempty //. apply Hsh.
  - rw app_assoc last_app_nonempty //. apply Hll.
Qed.

End strip_lemmas.

#[export] Hint Resolve infix_of_refl infix_of_nil prefix_infix suffix_infix
  infix_of_app_l infix_of_app_r strip_ends_clear ends_clear_nil : js.
#[export] Hint Rewrite @strip_idemp : js_rw.
