(* ===== verification/JsString.v ===== *)
(** * JavaScript strings

    A string of the sources is a sequence of UTF-16 code units, here a
    [list N].  This file gives the [String.prototype] methods that
    [src/aws-utilities.js] and [src/aws-portal-constants.js] call
    ([startsWith], [endsWith], [includes], [trim], [toLowerCase]), the
    strict equality and the truthiness of strings, and their lemmas.  The
    methods belong to the JavaScript runtime, not to the repository: they are
    modelled from ECMAScript's description of them.

    [toLowerCase] maps the letters [A]-[Z] only.  The sources apply it to a
    URL host name, which is ASCII, and to a key that is compared with ASCII
    property names none of which contains [k] (the one ASCII letter that a
    non-ASCII character, the Kelvin sign, lowers to), so the restriction
    does not change any result. *)

From Corelib Require Import ssreflect_rw.
From stdpp Require Import strings.
From S2P Require Import Prelude.

Abbreviation code_unit := N.
Abbreviation jsstring := (list N).

(** The code units of an ASCII literal of the source. *)
Definition lit (s : string) : jsstring :=
  Ascii.N_of_ascii <$> String.list_ascii_of_string s.

(** ECMAScript's WhiteSpace and LineTerminator code points, the ones
    [trim] removes. *)
Definition isWhiteSpace (c : code_unit) : bool :=
  bool_decide (c ∈ [9; 10; 11; 12; 13; 32; 160; 5760; 8232; 8233; 8239;
                    8287; 12288; 65279]%N)
  || ((8192 <=? c)%N && (c <=? 8202)%N).

(** [s.startsWith(p)] *)
Definition startsWith (s p : jsstring) : bool := bool_decide (p `prefix_of` s).

(** [s.endsWith(p)] *)
Definition endsWith (s p : jsstring) : bool := bool_decide (p `suffix_of` s).

(** [s.includes(p)] *)
Definition includes (s p : jsstring) : bool := is_infix p s.

(** [s.trim()] *)
Definition trim (s : jsstring) : jsstring := strip isWhiteSpace s.

Definition lower_unit (c : code_unit) : code_unit :=
  if ((65 <=? c)%N && (c <=? 90)%N) then (c + 32)%N else c.

(** [s.toLowerCase()], on the letters [A]-[Z]. *)
Definition toLowerCase (s : jsstring) : jsstring := lower_unit <$> s.

(** [a === b] on two strings. *)
Definition str_eq (a b : jsstring) : bool := bool_decide (a = b).

(** ToBoolean of a string: every string but the empty one is truthy. *)
Definition truthy_str (s : jsstring) : bool := negb (bool_decide (s = [])).

(** ToBoolean of an argument that may be absent. *)
Definition truthy_arg (a : option jsstring) : bool :=
  match a with
  | None => false
  | Some s => truthy_str s
  end.

(** A code unit of the ASCII range. *)
Definition is_ascii (c : code_unit) : bool := (c <? 128)%N.

Arguments lit : simpl never.

(** ** Lemmas *)

Section string_lemmas.
Implicit Types (s p t : jsstring) (c : code_unit).

Lemma lit_app a b : lit (a +:+ b) = lit a ++ lit b.
Proof.
  induction a as [|c a IH]; [done|].
  change (lit (String c (a +:+ b)) = lit (String c a) ++ lit b).
  rw /lit /=. f_equal. exact IH.
Qed.

Lemma lit_inj a b : lit a = lit b → a = b.
Proof.
  rw /lit. revert b. induction a as [|c a IH]; intros [|c' b]; simpl; try done.
  intros [= Hc Hab]. f_equal; [|by apply IH].
  by rw -(Ascii.ascii_N_embedding c) -(Ascii.ascii_N_embedding c') Hc.
Qed.

Lemma startsWith_spec s p : startsWith s p = true ↔ p `prefix_of` s.
Proof. apply bool_decide_eq_true. Qed.

Lemma endsWith_spec s p : endsWith s p = true ↔ p `suffix_of` s.
Proof. apply bool_decide_eq_true. Qed.

Lemma includes_spec s p : includes s p = true ↔ infix_of p s.
Proof. apply is_infix_spec. Qed.

Lemma startsWith_app p s : startsWith (p ++ s) p = true.
Proof. apply startsWith_spec. by exists s. Qed.

Lemma startsWith_app_r s p t :
  startsWith s p = true → startsWith (s ++ t) p = true.
Proof. rw !startsWith_spec. apply prefix_app_r. Qed.

Lemma endsWith_app s p : endsWith (s ++ p) p = true.
Proof. apply endsWith_spec. by exists s. Qed.

Lemma endsWith_refl s : endsWith s s = true.
Proof. by apply endsWith_spec. Qed.

Lemma includes_app_r s p t : includes s p = true → includes (s ++ t) p = true.
Proof. rw !includes_spec. apply infix_of_app_r. Qed.

Lemma includes_app_l s p t : includes s p = true → includes (t ++ s) p = true.
Proof. rw !includes_spec. apply infix_of_app_l. Qed.

Lemma startsWith_includes s p : startsWith s p = true → includes s p = true.
Proof. rw startsWith_spec includes_spec. apply prefix_infix. Qed.

Lemma endsWith_includes s p : endsWith s p = true → includes s p = true.
Proof. rw endsWith_spec includes_spec. apply suffix_infix. Qed.

Lemma str_eq_spec a b : str_eq a b = true ↔ a = b.
Proof. apply bool_decide_eq_true. Qed.

Lemma str_eq_refl a : str_eq a a = true.
Proof. by apply str_eq_spec. Qed.

Lemma truthy_str_spec s : truthy_str s = true ↔ s ≠ [].
Proof. rw /truthy_str negb_true_iff. apply bool_decide_eq_false. Qed.

Lemma truthy_str_app p s : truthy_str p = true → truthy_str (p ++ s) = true.
Proof. rw !truthy_str_spec. by destruct p. Qed.

Lemma trim_idemp s : trim (trim s) = trim s.
Proof. apply strip_idemp. Qed.

Lemma trim_ends_clear s : ends_clear isWhiteSpace (trim s).
Proof. apply strip_ends_clear. Qed.

Lemma trim_fixed s : ends_clear isWhiteSpace s → trim s = s.
Proof. apply strip_fixed. Qed.

Lemma trim_infix s : infix_of (trim s) s.
Proof. apply strip_infix. Qed.

Lemma lower_unit_idemp c : lower_unit (lower_unit c) = lower_unit c.
Proof.
  rw /lower_unit. destruct ((65 <=? c)%N && (c <=? 90)%N) eqn:H1; [|by rw H1].
  destruct ((65 <=? c + 32)%N && (c + 32 <=? 90)%N) eqn:H2; [|done].
  bool_to_prop. rewrite ?N.leb_le in *. lia.
Qed.

Lemma toLowerCase_idemp s : toLowerCase (toLowerCase s) = toLowerCase s.
Proof.
  rw /toLowerCase -list_fmap_compose. apply list_fmap_ext.
  intros _ c _. apply lower_unit_idemp.
Qed.

Lemma toLowerCase_app s t :
  toLowerCase (s ++ t) = toLowerCase s ++ toLowerCase t.
Proof. apply fmap_app. Qed.

Lemma toLowerCase_length s : length (toLowerCase s) = length s.
Proof. apply length_fmap. Qed.

End string_lemmas.

#[export] Hint Resolve startsWith_app startsWith_app_r endsWith_app
  endsWith_refl includes_app_r includes_app_l startsWith_includes
  endsWith_includes str_eq_refl truthy_str_app trim_ends_clear : js.
#[export] Hint Rewrite trim_idemp toLowerCase_idemp toLowerCase_app
  toLowerCase_length : js_rw.
