(* ===== verification/SourceText.v ===== *)
(** * The text of string literals, and strings on the wire

    The source files are UTF-8 text, and a string literal of JavaScript
    denotes the UTF-16 code units of its characters.  The literals of the
    sources that are not ASCII (the check mark, the ballot cross, the
    bullet and the arrow of the console messages) are written here as in
    the sources, and [text] decodes them.  [encode_utf8] is the converse
    direction, which [fetch] applies to the body of a request.

    - [decode_utf8], [text]: UTF-8 bytes to code units; a code point above
      the basic plane becomes a surrogate pair.
    - [encode_utf8]: code units to UTF-8 bytes; a surrogate without its
      partner becomes U+FFFD, as the encoder of the Encoding standard does.
    - [units_ok]: every element of a string is a 16-bit code unit;
      [well_formed]: moreover no surrogate is without its partner.

    The decoder does not validate continuation bytes: it is applied to the
    literals of the source files, which are valid UTF-8. *)

From Corelib Require Import ssreflect_rw.
From stdpp Require Import strings.
From S2P Require Import Prelude JsString.

(** ** Code units *)

Definition is_high_surrogate (c : code_unit) : bool :=
  (55296 <=? c)%N && (c <=? 56319)%N.

Definition is_low_surrogate (c : code_unit) : bool :=
  (56320 <=? c)%N && (c <=? 57343)%N.

(** Every element is a code unit of sixteen bits. *)
Definition units_ok (s : jsstring) : Prop := Forall (λ c, (c < 65536)%N) s.

(** Every element is a byte. *)
Definition bytes_ok (bs : list N) : Prop := Forall (λ b, (b < 256)%N) bs.

(** A string of code units in which every surrogate has its partner. *)
Fixpoint well_formed (s : jsstring) : bool :=
  match s with
  | [] => true
  | c :: rest =>
      if is_high_surrogate c
      then match rest with
           | d :: rest' => is_low_surrogate d && well_formed rest'
           | [] => false
           end
      else negb (is_low_surrogate c) && (c <? 65536)%N && well_formed rest
  end.

(** ** Decoding *)

(** The code units of a code point. *)
Definition point_units (cp : N) : jsstring :=
  if (cp <? 65536)%N then [cp]
  else [55296 + (cp - 65536) / 1024; 56320 + (cp - 65536) `mod` 1024]%N.

Fixpoint decode_utf8 (bytes : list N) : jsstring :=
  match bytes with
  | [] => []
  | b0 :: rest =>
      if (b0 <? 128)%N then b0 :: decode_utf8 rest
      else if (b0 <? 224)%N then
        match rest with
        | b1 :: rest' =>
            ((b0 `mod` 32) * 64 + b1 `mod` 64)%N :: decode_utf8 rest'
        | _ => [65533%N]
        end
      else if (b0 <? 240)%N then
        match rest with
        | b1 :: b2 :: rest' =>
            ((b0 `mod` 16) * 4096 + (b1 `mod` 64) * 64 + b2 `mod` 64)%N
            :: decode_utf8 rest'
        | _ => [65533%N]
        end
      else
        match rest with
        | b1 :: b2 :: b3 :: rest' =>
            point_units ((b0 `mod` 8) * 262144 + (b1 `mod` 64) * 4096
                         + (b2 `mod` 64) * 64 + b3 `mod` 64)%N
            ++ decode_utf8 rest'
        | _ => [65533%N]
        end
  end.

(** The bytes of a literal as the file holds them. *)
Definition bytes_of (s : string) : list N :=
  Ascii.N_of_ascii <$> String.list_ascii_of_string s.

(** The code units of a literal of the source. *)
Definition text (s : string) : jsstring := decode_utf8 (bytes_of s).

(** ** Encoding *)

Definition encode_point (cp : N) : list N :=
  if (cp <? 128)%N then [cp]
  else if (cp <? 2048)%N then [192 + cp / 64; 128 + cp `mod` 64]%N
  else if (cp <? 65536)%N
  then [224 + cp / 4096; 128 + (cp / 64) `mod` 64; 128 + cp `mod` 64]%N
  else [240 + cp / 262144; 128 + (cp / 4096) `mod` 64;
        128 + (cp / 64) `mod` 64; 128 + cp `mod` 64]%N.

(** The code point of a surrogate pair. *)
Definition pair_point (c d : code_unit) : N :=
  (65536 + (c - 55296) * 1024 + (d - 56320))%N.

Fixpoint encode_utf8 (s : jsstring) : list N :=
  match s with
  | [] => []
  | c :: rest =>
      if is_high_surrogate c
      then match rest with
           | d :: rest' =>
               if is_low_surrogate d
               then encode_point (pair_point c d) ++ encode_utf8 rest'
               else encode_point 65533 ++ encode_utf8 rest
           | [] => encode_point 65533
           end
      else if is_low_surrogate c then encode_point 65533 ++ encode_utf8 rest
      else encode_point c ++ encode_utf8 rest
  end.

Arguments text : simpl never.

(** ** Lemmas *)

#[local] Ltac Zify.zify_post_hook ::= Z.to_euclidean_division_equations.

(** Turns the comparisons of the context and the goal into propositions. *)
Ltac unfold_tests :=
  rewrite ?andb_true_iff, ?andb_false_iff, ?negb_true_iff, ?negb_false_iff,
    ?N.leb_le, ?N.leb_gt, ?N.ltb_lt, ?N.ltb_ge in *.

Section text_lemmas.
Implicit Types (s t : jsstring) (bs : list N) (c d cp : N).

Lemma units_ok_app s t : units_ok (s ++ t) ↔ units_ok s ∧ units_ok t.
Proof. rw /units_ok. apply Forall_app. Qed.

Lemma units_ok_cons c s : units_ok (c :: s) ↔ (c < 65536)%N ∧ units_ok s.
Proof. split; [by inversion 1 | intros []; by constructor]. Qed.

Lemma units_ok_one c : (c < 65536)%N → units_ok [c].
Proof. intros Hc. by repeat constructor. Qed.

Lemma units_ok_nil : units_ok [].
Proof. constructor. Qed.

Lemma units_ok_lit (a : string) : units_ok (lit a).
Proof.
  apply Forall_fmap, Forall_forall. intros x _. simpl.
  pose proof (Ascii.N_ascii_bounded x). lia.
Qed.

Lemma bytes_ok_bytes_of (a : string) : bytes_ok (bytes_of a).
Proof.
  apply Forall_fmap, Forall_forall. intros x _. simpl.
  apply Ascii.N_ascii_bounded.
Qed.

(** Induction on lists two elements at a time. *)
Lemma list_pair_ind {A} (P : list A → Prop) :
  P [] → (∀ x, P [x]) → (∀ x y l, P l → P (y :: l) → P (x :: y :: l)) →
  ∀ l, P l.
Proof.
  intros Hnil Hone Hstep l. cut (P l ∧ ∀ x, P (x :: l)); [by intros []|].
  induction l as [|y l [IH1 IH2]]; [by split|].
  split; [apply IH2|]. intros x. by apply Hstep.
Qed.

Lemma well_formed_units s : well_formed s = true → units_ok s.
Proof.
  induction s as [|c|c d s IH1 IH2] using list_pair_ind; [constructor|..].
  - simpl. destruct (is_high_surrogate c); [done|]. unfold_tests.
    intros [[_ ?] _]. by repeat constructor.
  - cbn [well_formed]. destruct (is_high_surrogate c) eqn:Hc.
    + rw /is_high_surrogate /is_low_surrogate in Hc |- *. unfold_tests.
      intros [[_ ?] ?]. repeat constructor; [lia..|]. by apply IH1.
    + unfold_tests. intros [[_ ?] ?]. constructor; [done|]. by apply IH2.
Qed.

Lemma point_units_ok cp : (cp < 2097152)%N → units_ok (point_units cp).
Proof.
  intros Hcp. rw /point_units. destruct (N.ltb_spec cp 65536).
  - by repeat constructor.
  - repeat constructor; lia.
Qed.

(** A byte string of the ASCII range is its own decoding. *)
Lemma decode_utf8_ascii bs :
  Forall (λ b, is_ascii b = true) bs → decode_utf8 bs = bs.
Proof.
  induction 1 as [|b bs Hb _ IH]; [done|]. simpl.
  rw /is_ascii in Hb. by rw Hb IH.
Qed.

Lemma text_lit (a : string) :
  Forall (λ b, is_ascii b = true) (lit a) → text a = lit a.
Proof. apply decode_utf8_ascii. Qed.

Lemma encode_point_bytes cp : (cp < 2097152)%N → bytes_ok (encode_point cp).
Proof.
  intros Hcp. rw /encode_point.
  repeat case_match; unfold_tests; repeat constructor; lia.
Qed.

Lemma decode_encode_point cp bs :
  (cp < 1114112)%N →
  decode_utf8 (encode_point cp ++ bs) = point_units cp ++ decode_utf8 bs.
Proof.
  intros Hcp. rw /encode_point /point_units.
  destruct (N.ltb_spec cp 128) as [H1|H1]; simpl.
  { rw (proj2 (N.ltb_lt _ _) H1). case_match; unfold_tests; [done|lia]. }
  destruct (N.ltb_spec cp 2048) as [H2|H2]; simpl.
  { rw (proj2 (N.ltb_ge _ _)); [lia|]. rw (proj2 (N.ltb_lt _ 224)); [lia|].
    rw (proj2 (N.ltb_lt cp 65536)); [lia|]. simpl. f_equal. lia. }
  destruct (N.ltb_spec cp 65536) as [H3|H3]; simpl.
  { rw (proj2 (N.ltb_ge _ _)); [lia|]. rw (proj2 (N.ltb_ge _ 224)); [lia|].
    rw (proj2 (N.ltb_lt _ 240)); [lia|]. f_equal. lia. }
  rw (proj2 (N.ltb_ge _ _)); [lia|]. rw (proj2 (N.ltb_ge _ 224)); [lia|].
  rw (proj2 (N.ltb_ge _ 240)); [lia|].
  replace (_ + _ + _ + _)%N with cp by lia.
  by rw /point_units (proj2 (N.ltb_ge cp 65536)).
Qed.

Lemma point_units_pair c d :
  is_high_surrogate c = true → is_low_surrogate d = true →
  (pair_point c d < 1114112)%N ∧ point_units (pair_point c d) = [c; d].
Proof.
  rw /is_high_surrogate /is_low_surrogate /pair_point /point_units.
  intros Hc Hd. unfold_tests. split; [lia|].
  rw (proj2 (N.ltb_ge _ 65536)); [lia|]. f_equal; [lia|]. f_equal. lia.
Qed.

(** One step of the decoder: the units of the first character, then the
    decoding of what follows it, or U+FFFD where the input ends early. *)
Lemma decode_utf8_step b0 bs :
  bytes_ok (b0 :: bs) →
  ∃ units k,
    units_ok units ∧
    (decode_utf8 (b0 :: bs) = units ++ decode_utf8 (drop k bs)
     ∨ decode_utf8 (b0 :: bs) = units).
Proof.
  intros [Hb0 Hbs]%Forall_cons. cbn [decode_utf8].
  destruct (N.ltb_spec b0 128); [|destruct (N.ltb_spec b0 224);
    [|destruct (N.ltb_spec b0 240)]].
  - exists [b0], 0. split; [apply units_ok_one; lia | by left].
  - destruct Hbs as [|b1 bs ? Hbs];
      [exists [65533%N], 0; split; [by apply units_ok_one | by right]|].
    eexists [_], 1. split; [|by left]. apply units_ok_one; lia.
  - destruct Hbs as [|b1 ? ? [|b2 bs ? Hbs]];
      [exists [65533%N], 0; split; [by apply units_ok_one | by right]..|].
    eexists [_], 2. split; [|by left]. apply units_ok_one; lia.
  - destruct Hbs as [|b1 ? ? [|b2 ? ? [|b3 bs ? Hbs]]];
      [exists [65533%N], 0; split; [by apply units_ok_one | by right]..|].
    eexists _, 3. split; [|by left]. apply point_units_ok; lia.
Qed.

Lemma decode_utf8_units_upto (n : nat) bs :
  length bs ≤ n → bytes_ok bs → units_ok (decode_utf8 bs).
Proof.
  revert bs. induction n as [|n IH]; intros [|b0 bs] Hn Hbs;
    [constructor | simpl in Hn; lia | constructor |].
  destruct (decode_utf8_step b0 bs Hbs) as (units & k & Hu & [-> | ->]);
    [|done].
  apply units_ok_app. split; [done|]. apply IH.
  - rw length_drop. simpl in Hn. lia.
  - apply Forall_cons in Hbs as [_ Hbs]. by apply Forall_drop.
Qed.

End text_lemmas.

(** ** Theorems *)

Section text_theorems.
Implicit Types (s t : jsstring) (bs : list N) (c d cp : N).

(** Decoding bytes yields code units of sixteen bits: every element of
    the decoded string is below 65536, whatever the bytes. *)
Theorem decode_utf8_units bs : bytes_ok bs → units_ok (decode_utf8 bs).
Proof.
  intros Hbs. apply (decode_utf8_units_upto (length bs)); [lia|done].
Qed.

End text_theorems.

Section wire_lemmas.
Implicit Types (s t : jsstring) (bs : list N) (c d cp : N).

Lemma well_formed_app s t :
  well_formed s = true → well_formed t = true → well_formed (s ++ t) = true.
Proof.
  intros Hs Ht. revert Hs.
  induction s as [|c|c d s IH1 IH2] using list_pair_ind; [done|..].
  - simpl. destruct (is_high_surrogate c); [done|].
    rw andb_true_r. by intros ->.
  - change ((c :: d :: s) ++ t) with (c :: d :: (s ++ t)). cbn [well_formed].
    destruct (is_high_surrogate c).
    + intros [-> ?]%andb_true_iff. by apply IH1.
    + intros [-> ?]%andb_true_iff. by apply IH2.
Qed.

(** A unit that is no surrogate is a character of its own. *)
Lemma well_formed_cons c s :
  is_high_surrogate c = false → is_low_surrogate c = false →
  (c < 65536)%N → well_formed s = true → well_formed (c :: s) = true.
Proof.
  intros Hh Hl Hc Hs. cbn [well_formed].
  by rw Hh Hl Hs (proj2 (N.ltb_lt _ _) Hc).
Qed.

Lemma well_formed_ascii s :
  Forall (λ c, is_ascii c = true) s → well_formed s = true.
Proof.
  induction 1 as [|c s Hc _ IH]; [done|]. rw /is_ascii in Hc.
  apply well_formed_cons; [..|done];
    rw ?/is_high_surrogate ?/is_low_surrogate; unfold_tests; lia.
Qed.

Lemma encode_utf8_cons c s :
  is_high_surrogate c = false → is_low_surrogate c = false →
  encode_utf8 (c :: s) = encode_point c ++ encode_utf8 s.
Proof. intros Hh Hl. cbn [encode_utf8]. by rw Hh Hl. Qed.

Lemma encode_utf8_pair c d s :
  is_high_surrogate c = true → is_low_surrogate d = true →
  encode_utf8 (c :: d :: s) = encode_point (pair_point c d) ++ encode_utf8 s.
Proof. intros Hh Hl. cbn [encode_utf8]. by rw Hh Hl. Qed.

Lemma encode_utf8_lone_low c s :
  is_high_surrogate c = false → is_low_surrogate c = true →
  encode_utf8 (c :: s) = encode_point 65533 ++ encode_utf8 s.
Proof. intros Hh Hl. cbn [encode_utf8]. by rw Hh Hl. Qed.

Lemma encode_utf8_lone_high c s :
  is_high_surrogate c = true →
  from_option is_low_surrogate false (list.head s) = false →
  encode_utf8 (c :: s) = encode_point 65533 ++ encode_utf8 s.
Proof.
  intros Hh Hl. destruct s as [|d s]; cbn [encode_utf8]; rw Hh; [done|].
  simpl in Hl. by rw Hl.
Qed.

(** One step of the encoder: the bytes of the first character, then the
    encoding of what follows it. *)
Lemma encode_utf8_step c s :
  units_ok (c :: s) →
  ∃ bs k, bytes_ok bs ∧ encode_utf8 (c :: s) = bs ++ encode_utf8 (drop k s).
Proof.
  intros [Hc Hs]%units_ok_cons.
  destruct (is_high_surrogate c) eqn:Hh;
    [destruct (from_option is_low_surrogate false (list.head s)) eqn:Hl
    |destruct (is_low_surrogate c) eqn:Hl].
  - destruct s as [|d s]; [done|]. simpl in Hl.
    exists (encode_point (pair_point c d)), 1. split; [|by apply encode_utf8_pair].
    apply encode_point_bytes. apply units_ok_cons in Hs as [Hd _].
    rw /pair_point. rw /is_high_surrogate in Hh. unfold_tests. lia.
  - exists (encode_point 65533), 0.
    split; [by apply encode_point_bytes | by apply encode_utf8_lone_high].
  - exists (encode_point 65533), 0.
    split; [by apply encode_point_bytes | by apply encode_utf8_lone_low].
  - exists (encode_point c), 0.
    split; [apply encode_point_bytes; lia | by apply encode_utf8_cons].
Qed.

Lemma encode_utf8_bytes_upto (n : nat) s :
  length s ≤ n → units_ok s → bytes_ok (encode_utf8 s).
Proof.
  revert s. induction n as [|n IH]; intros [|c s] Hn Hs;
    [constructor | simpl in Hn; lia | constructor |].
  destruct (encode_utf8_step c s Hs) as (bs & k & Hbs & ->).
  apply Forall_app. split; [done|]. apply IH.
  - rw length_drop. simpl in Hn. lia.
  - apply units_ok_cons in Hs as [_ Hs]. by apply Forall_drop.
Qed.

Lemma point_units_unit c : (c < 65536)%N → point_units c = [c].
Proof. intros Hc. by rw /point_units (proj2 (N.ltb_lt _ _) Hc). Qed.

End wire_lemmas.

Section wire_theorems.
Implicit Types (s t : jsstring) (bs : list N) (c d cp : N).

(** A well-formed string survives the wire: decoding the UTF-8 bytes
    that [fetch] sends for it gives the string back. *)
Theorem decode_encode_utf8 s :
  well_formed s = true → decode_utf8 (encode_utf8 s) = s.
Proof.
  induction s as [|c|c d s IH1 IH2] using list_pair_ind; [done|..];
    cbn [well_formed]; destruct (is_high_surrogate c) eqn:Hh; try done.
  - intros [[Hl%negb_true_iff Hc%N.ltb_lt]%andb_true_iff _]%andb_true_iff.
    rw encode_utf8_cons // decode_encode_point; [lia|].
    by rw point_units_unit.
  - intros [Hl Hs]%andb_true_iff.
    destruct (point_units_pair c d Hh Hl) as [Hp Hu].
    by rw encode_utf8_pair // decode_encode_point // Hu IH1.
  - intros [[Hl%negb_true_iff Hc%N.ltb_lt]%andb_true_iff Hs]%andb_true_iff.
    rw encode_utf8_cons // decode_encode_point; [lia|].
    by rw point_units_unit // IH2.
Qed.

Lemma decode_encode_utf8_witness :
  decode_utf8 (encode_utf8 (text "✓ portal → 𝒜")) = text "✓ portal → 𝒜".
Proof. by apply decode_encode_utf8. Defined.

(** The bytes of a string of code units are bytes: every element of
    the encoding is below 256. *)
Theorem encode_utf8_bytes s : units_ok s → bytes_ok (encode_utf8 s).
Proof. apply (encode_utf8_bytes_upto (length s)). lia. Qed.

Lemma encode_utf8_bytes_witness : bytes_ok (encode_utf8 (text "✓ ok")).
Proof. apply encode_utf8_bytes. by apply (bool_decide_unpack _). Defined.

End wire_theorems.

Section small_units.
Implicit Types (s t : jsstring) (c : code_unit).

(** A string of units below 256, such as a literal of ASCII text, has no
    surrogate at all. *)
Lemma well_formed_small s :
  Forall (λ c, (c < 256)%N) s → well_formed s = true.
Proof.
  induction 1 as [|c s Hc _ IH]; [done|].
  apply well_formed_cons; rw ?/is_high_surrogate ?/is_low_surrogate;
    unfold_tests; lia || done.
Qed.

Lemma well_formed_lit (a : string) : well_formed (lit a) = true.
Proof.
  apply well_formed_small, Forall_fmap, Forall_forall. intros x _. simpl.
  apply Ascii.N_ascii_bounded.
Qed.

Lemma well_formed_pair c d s :
  is_high_surrogate c = true → is_low_surrogate d = true →
  well_formed (c :: d :: s) = well_formed s.
Proof. intros Hc Hd. cbn [well_formed]. by rw Hc Hd. Qed.

End small_units.
