(* ===== verification/JsValue.v ===== *)
(** * JavaScript values and plain objects

    The constant objects of the three modules are object literals whose
    properties are strings, numbers, booleans, arrays and nested objects.
    [jsval] carries them with their property names, in source order; a
    function of the sources held by an object is [VFun] with its name, a
    function or object of the runtime is [VBuiltin].  This
    file also gives property lookup on an object literal, which falls back
    to [Object.prototype] for a name the literal does not define, ToBoolean
    and the operator [||].  Lookup, ToBoolean and [||] belong to the
    language: they are modelled from ECMAScript.

    Numbers are the integers the sources write (status codes, ports,
    milliseconds), as [Z]. *)

From Corelib Require Import ssreflect_rw.
From stdpp Require Import strings pretty.
From S2P Require Import Prelude JsString SourceText.

#[warning="-register-all"]
Inductive jsval : Type :=
| VUndefined
| VNull
| VBool (b : bool)
| VNum (n : Z)
| VStr (s : jsstring)
| VArr (items : list jsval)
| VObj (props : list (jsstring * jsval))
| VBuiltin (name : jsstring)
| VFun (name : jsstring).

(** A property [name: value] of an object literal. *)
Definition prop (name : string) (v : jsval) : jsstring * jsval := (lit name, v).

(** The string value of an ASCII literal. *)
Definition str (s : string) : jsval := VStr (lit s).

(** The names [Object.prototype] defines; each is bound to a function,
    except [__proto__], whose getter returns [Object.prototype] itself. *)
Definition object_prototype_names : list jsstring :=
  lit <$> ["constructor"; "__defineGetter__"; "__defineSetter__";
           "hasOwnProperty"; "__lookupGetter__"; "__lookupSetter__";
           "isPrototypeOf"; "propertyIsEnumerable"; "toString"; "valueOf";
           "__proto__"; "toLocaleString"].

(** The own property [k] of a literal with properties [props]. *)
Fixpoint get_own (props : list (jsstring * jsval)) (k : jsstring)
  : option jsval :=
  match props with
  | [] => None
  | (k', v) :: rest => if str_eq k' k then Some v else get_own rest k
  end.

(** [o[k]] for an object literal [o]: the own property, else the inherited
    one, else [undefined].  On a value that is no object the model answers
    [undefined]. *)
Definition js_get (o : jsval) (k : jsstring) : jsval :=
  match o with
  | VObj props =>
      match get_own props k with
      | Some v => v
      | None =>
          if bool_decide (k ∈ object_prototype_names) then VBuiltin k
          else VUndefined
      end
  | _ => VUndefined
  end.

(** [o.a.b]: a path of property names. *)
Definition js_path (o : jsval) (path : list string) : jsval :=
  foldl (λ v k, js_get v (lit k)) o path.

(** ToBoolean *)
Definition truthy (v : jsval) : bool :=
  match v with
  | VUndefined | VNull => false
  | VBool b => b
  | VNum n => negb (n =? 0)%Z
  | VStr s => truthy_str s
  | VArr _ | VObj _ | VBuiltin _ | VFun _ => true
  end.

(** [a || b] *)
Definition js_or (a b : jsval) : jsval := if truthy a then a else b.

(** [v === s] for a string [s]. *)
Definition strict_eq_str (v : jsval) (s : jsstring) : bool :=
  match v with
  | VStr t => str_eq t s
  | _ => false
  end.

(** The own properties of an object literal. *)
Definition own_props (v : jsval) : list (jsstring * jsval) :=
  match v with
  | VObj props => props
  | _ => []
  end.

(** The names of the own properties, in source order. *)
Definition own_names (v : jsval) : list jsstring :=
  match v with
  | VObj props => props.*1
  | _ => []
  end.

(** The values of the own properties, in source order. *)
Definition own_values (v : jsval) : list jsval :=
  match v with
  | VObj props => props.*2
  | _ => []
  end.

(** An object literal that names no property twice. *)
Definition wf_literal (v : jsval) : Prop := NoDup (own_names v).

Definition is_string (v : jsval) : bool :=
  match v with
  | VStr _ => true
  | _ => false
  end.

(** [CreateDataProperty]: the value of [k] is replaced where the object
    defines it, and [k] is added after the others where it does not. *)
Fixpoint set_own (props : list (jsstring * jsval)) (k : jsstring) (v : jsval)
  : list (jsstring * jsval) :=
  match props with
  | [] => [(k, v)]
  | (k', v') :: rest =>
      if str_eq k' k then (k', v) :: rest else (k', v') :: set_own rest k v
  end.

(** The own enumerable properties that [{...v}] copies: those of an
    object, the elements of an array and the code units of a string under
    their indices, nothing for the other values. *)
Definition spread (v : jsval) : list (jsstring * jsval) :=
  match v with
  | VObj props => props
  | VArr items => imap (λ i x, (lit (pretty i), x)) items
  | VStr s => imap (λ i c, (lit (pretty i), VStr [c])) s
  | _ => []
  end.

(** The properties of [{...target, ...source}], given those of
    [{...target}]. *)
Definition assign (target source : list (jsstring * jsval))
  : list (jsstring * jsval) :=
  foldl (λ acc kv, set_own acc kv.1 kv.2) target source.

(** [o[k] !== undefined] for the own properties of a literal. *)
Definition has_own (props : list (jsstring * jsval)) (k : jsstring) : bool :=
  bool_decide (is_Some (get_own props k)).

(** The string value of a property, or the empty string. *)
Definition str_at (o : jsval) (name : string) : jsstring :=
  match js_get o (lit name) with
  | VStr s => s
  | _ => []
  end.

(** The values of an object's own properties that are strings. *)
Definition string_values (o : jsval) : list jsstring :=
  omap (λ v, match v with VStr s => Some s | _ => None end) (own_values o).

(** ** The type of a value

    A string of the language is a sequence of sixteen-bit code units.  The
    model writes a code unit as a number, so the strings of a value are of
    the language when each of their units is below 2^16: the strings that
    are values, the names of properties and the names of functions. *)
Definition units_okb (s : jsstring) : bool := forallb (λ c, c <? 65536)%N s.

Fixpoint value_ok (v : jsval) : bool :=
  match v with
  | VUndefined | VNull | VBool _ | VNum _ => true
  | VStr s | VBuiltin s | VFun s => units_okb s
  | VArr items => forallb value_ok items
  | VObj props => forallb (λ kv, units_okb kv.1 && value_ok kv.2) props
  end.

(** ** Equality of values

    Two values are equal when they are written alike.  This is the equality
    of the model, for its proofs; the operator [===] of the language
    compares two objects by their identity, and the model gives it on
    strings only ([strict_eq_str]). *)
Fixpoint jsval_eqb (v w : jsval) : bool :=
  match v, w with
  | VUndefined, VUndefined | VNull, VNull => true
  | VBool a, VBool b => bool_decide (a = b)
  | VNum a, VNum b => bool_decide (a = b)
  | VStr a, VStr b | VBuiltin a, VBuiltin b | VFun a, VFun b =>
      bool_decide (a = b)
  | VArr xs, VArr ys =>
      (fix all xs ys :=
         match xs, ys with
         | [], [] => true
         | x :: xs, y :: ys => jsval_eqb x y && all xs ys
         | _, _ => false
         end) xs ys
  | VObj ps, VObj qs =>
      (fix all ps qs :=
         match ps, qs with
         | [], [] => true
         | p :: ps, q :: qs =>
             bool_decide (p.1 = q.1) && jsval_eqb p.2 q.2 && all ps qs
         | _, _ => false
         end) ps qs
  | _, _ => false
  end.

(** The properties of an object are well typed. *)
Definition props_ok (props : list (jsstring * jsval)) : bool :=
  forallb (λ kv, units_okb kv.1 && value_ok kv.2) props.

Arguments prop : simpl never.
Arguments str : simpl never.

(** ** Lemmas *)

Section value_lemmas.
Implicit Types (props : list (jsstring * jsval)) (k : jsstring) (v o : jsval).

Lemma get_own_Some props k v : get_own props k = Some v → (k, v) ∈ props.
Proof.
  induction props as [|[k' v'] props IH]; simpl; [done|].
  destruct (str_eq k' k) eqn:Hk.
  - apply str_eq_spec in Hk as ->. intros [= ->]. by left.
  - intros ?. right. by apply IH.
Qed.

Lemma get_own_None props k : get_own props k = None ↔ k ∉ props.*1.
Proof.
  induction props as [|[k' v'] props IH]; simpl.
  - split; [|done]. intros _. apply not_elem_of_nil.
  - rw not_elem_of_cons -IH. destruct (str_eq k' k) eqn:Hk.
    + apply str_eq_spec in Hk. split; [done | by intros []].
    + apply not_true_iff_false in Hk. rw str_eq_spec in Hk.
      split; [by split; [congruence|] | by intros []].
Qed.

Lemma get_own_elem_of props k v :
  NoDup props.*1 → (k, v) ∈ props → get_own props k = Some v.
Proof.
  induction props as [|[k' v'] props IH]; simpl; [by intros _ ?%elem_of_nil|].
  intros [Hk' Hnd]%NoDup_cons [[= -> ->]|Hin]%elem_of_cons.
  - by rw str_eq_refl.
  - destruct (str_eq k' k) eqn:Hk; [|by apply IH].
    apply str_eq_spec in Hk as ->. destruct Hk'.
    apply list_elem_of_fmap. by exists (k, v).
Qed.

Lemma js_get_own props k v :
  get_own props k = Some v → js_get (VObj props) k = v.
Proof. by intros H; rw /js_get H. Qed.

Lemma js_get_inherited props k :
  get_own props k = None → k ∈ object_prototype_names →
  js_get (VObj props) k = VBuiltin k.
Proof. intros H ?. by rw /js_get H bool_decide_eq_true_2. Qed.

Lemma js_get_undefined props k :
  get_own props k = None → k ∉ object_prototype_names →
  js_get (VObj props) k = VUndefined.
Proof. intros H ?. by rw /js_get H bool_decide_eq_false_2. Qed.

Lemma js_path_nil o : js_path o [] = o.
Proof. done. Qed.

Lemma js_path_cons o (name : string) names :
  js_path o (name :: names) = js_path (js_get o (lit name)) names.
Proof. done. Qed.

Lemma js_or_truthy a b : truthy a = true → js_or a b = a.
Proof. by intros H; rw /js_or H. Qed.

Lemma js_or_falsy a b : truthy a = false → js_or a b = b.
Proof. by intros H; rw /js_or H. Qed.

Lemma strict_eq_str_spec v s : strict_eq_str v s = true ↔ v = VStr s.
Proof.
  destruct v; simpl; try (split; [done | by intros [=]]).
  rw str_eq_spec. naive_solver.
Qed.

Lemma get_own_set_own props k k' v :
  get_own (set_own props k v) k' = if str_eq k k' then Some v
                                   else get_own props k'.
Proof.
  induction props as [|[k0 v0] props IH]; simpl; [done|].
  destruct (str_eq k0 k) eqn:Hk; simpl.
  - apply str_eq_spec in Hk as ->. by destruct (str_eq k k').
  - rw IH. destruct (str_eq k0 k') eqn:Hk'; [|done].
    apply str_eq_spec in Hk' as ->. destruct (str_eq k k') eqn:E; [|done].
    apply str_eq_spec in E as ->. by rw str_eq_refl in Hk.
Qed.

Lemma get_own_set_own_eq props k v : get_own (set_own props k v) k = Some v.
Proof. by rw get_own_set_own str_eq_refl. Qed.

Lemma get_own_set_own_ne props k k' v :
  k ≠ k' → get_own (set_own props k v) k' = get_own props k'.
Proof.
  intros Hk. rw get_own_set_own. destruct (str_eq k k') eqn:E; [|done].
  by apply str_eq_spec in E.
Qed.

Lemma set_own_names props k v :
  (set_own props k v).*1 = if bool_decide (k ∈ props.*1) then props.*1
                           else props.*1 ++ [k].
Proof.
  induction props as [|[k0 v0] props IH]; csimpl; [done|].
  destruct (str_eq k0 k) eqn:Hk; csimpl.
  - apply str_eq_spec in Hk as ->. rw bool_decide_eq_true_2 //. by left.
  - rw IH. apply not_true_iff_false in Hk. rw str_eq_spec in Hk.
    case_bool_decide as H1.
    + rw bool_decide_eq_true_2 //. by right.
    + rw bool_decide_eq_false_2 //. by intros [->|?]%elem_of_cons.
Qed.

Lemma set_own_NoDup props k v : NoDup props.*1 → NoDup (set_own props k v).*1.
Proof.
  intros Hnd. rw set_own_names. case_bool_decide as Hk; [done|].
  apply NoDup_app. split_and!; [done | | apply NoDup_singleton].
  by intros k' ? ->%list_elem_of_singleton.
Qed.

Lemma get_own_assign target source k :
  get_own (assign target source) k
  = match get_own (reverse source) k with
    | Some v => Some v
    | None => get_own target k
    end.
Proof.
  rw /assign. revert target.
  induction source as [|[k0 v0] source IH]; intros target; simpl; [done|].
  rw IH reverse_cons get_own_set_own. clear IH.
  induction (reverse source) as [|[k1 v1] l IHl]; simpl.
  - by destruct (str_eq k0 k).
  - by destruct (str_eq k1 k).
Qed.

Lemma get_own_reverse props k :
  NoDup props.*1 → get_own (reverse props) k = get_own props k.
Proof.
  intros Hnd. destruct (get_own props k) as [v|] eqn:Hk.
  - apply get_own_elem_of; [by rewrite fmap_reverse, reverse_Permutation|].
    by apply elem_of_reverse, get_own_Some.
  - apply get_own_None. rw fmap_reverse elem_of_reverse.
    by apply get_own_None.
Qed.

Lemma assign_NoDup target source :
  NoDup target.*1 → NoDup (assign target source).*1.
Proof.
  rw /assign. revert target.
  induction source as [|[k v] source IH]; intros target Hnd; [done|].
  by apply IH, set_own_NoDup.
Qed.

End value_lemmas.

#[export] Hint Resolve js_or_truthy js_or_falsy js_get_own : js.

(** ** Induction on values and the type of a value *)

Section type_lemmas.
Implicit Types (props : list (jsstring * jsval)) (k s : jsstring) (v o : jsval).

(** Induction on a value, with the hypothesis for every element of an
    array and every property of an object. *)
Lemma jsval_nested_ind (P : jsval → Prop) :
  P VUndefined → P VNull → (∀ b, P (VBool b)) → (∀ n, P (VNum n)) →
  (∀ s, P (VStr s)) →
  (∀ items, Forall P items → P (VArr items)) →
  (∀ props, Forall (λ kv, P kv.2) props → P (VObj props)) →
  (∀ name, P (VBuiltin name)) → (∀ name, P (VFun name)) →
  ∀ v, P v.
Proof.
  intros Hu Hn Hb Hz Hs Ha Ho Hbi Hf.
  exact (fix IH v : P v :=
    match v with
    | VUndefined => Hu
    | VNull => Hn
    | VBool b => Hb b
    | VNum n => Hz n
    | VStr s => Hs s
    | VArr items =>
        Ha items ((fix all l : Forall P l :=
                     match l with
                     | [] => Forall_nil_2 P
                     | x :: l => Forall_cons_2 P x l (IH x) (all l)
                     end) items)
    | VObj props =>
        Ho props ((fix all l : Forall (λ kv, P kv.2) l :=
                     match l with
                     | [] => Forall_nil_2 _
                     | kv :: l => Forall_cons_2 _ kv l (IH kv.2) (all l)
                     end) props)
    | VBuiltin name => Hbi name
    | VFun name => Hf name
    end).
Qed.

Lemma units_okb_spec s : units_okb s = true ↔ units_ok s.
Proof.
  induction s as [|c s IH]; [by split; [constructor|]|].
  by rw units_ok_cons -IH -N.ltb_lt /= andb_true_iff.
Qed.

Lemma units_okb_app s t : units_okb (s ++ t) = units_okb s && units_okb t.
Proof. apply forallb_app. Qed.

Lemma units_okb_lit (a : string) : units_okb (lit a) = true.
Proof. apply units_okb_spec, units_ok_lit. Qed.

Lemma props_ok_cons props k v :
  props_ok ((k, v) :: props) = units_okb k && value_ok v && props_ok props.
Proof. done. Qed.

Lemma props_ok_lookup props k v :
  props_ok props = true → get_own props k = Some v → value_ok v = true.
Proof.
  intros Hok Hget%get_own_Some. rw /props_ok forallb_forall in Hok.
  apply list_elem_of_In, Hok in Hget. by apply andb_true_iff in Hget as [_ ?].
Qed.

Lemma set_own_ok props k v :
  props_ok props = true → units_okb k = true → value_ok v = true →
  props_ok (set_own props k v) = true.
Proof.
  intros Hok Hk Hv. induction props as [|[k' v'] props IH]; simpl.
  - by rw /props_ok /= Hk Hv.
  - rw props_ok_cons in Hok. apply andb_true_iff in Hok as [[Hk' Hv']%andb_true_iff Hok].
    destruct (str_eq k' k); rw props_ok_cons ?Hk' ?Hv ?Hv' //=. by apply IH.
Qed.

Lemma assign_ok target source :
  props_ok target = true → props_ok source = true →
  props_ok (assign target source) = true.
Proof.
  rw /assign. revert target.
  induction source as [|[k v] source IH]; intros target Ht Hs; [done|].
  rw props_ok_cons in Hs. apply andb_true_iff in Hs as [[Hk Hv]%andb_true_iff Hs].
  by apply IH; [apply set_own_ok|].
Qed.

Lemma imap_ok {A} (f : A → jsval) (l : list A) (n : nat) :
  (∀ x, x ∈ l → value_ok (f x) = true) →
  props_ok (imap (λ i x, (lit (pretty (n + i)), f x)) l) = true.
Proof.
  revert n. induction l as [|x l IH]; intros n Hf; [done|].
  rw imap_cons props_ok_cons units_okb_lit Hf /=; [by left|].
  rw (imap_ext _ (λ i x, (lit (pretty (S n + i)), f x))).
  { intros i y _. simpl. by rw Nat.add_succ_r. }
  apply IH. intros y Hy. apply Hf. by right.
Qed.

Lemma value_ok_elements items x :
  value_ok (VArr items) = true → x ∈ items → value_ok x = true.
Proof.
  simpl. rw forallb_forall. intros Hok Hx. by apply Hok, list_elem_of_In.
Qed.

End type_lemmas.

Section type_theorems.
Implicit Types (props : list (jsstring * jsval)) (k s : jsstring) (v o : jsval).

(** What a property access returns is well typed: a value read from a
    well-typed object under a well-typed name, own or inherited or
    [undefined], has strings of sixteen-bit code units only. *)
Theorem js_get_ok o k :
  value_ok o = true → units_okb k = true → value_ok (js_get o k) = true.
Proof.
  intros Ho Hk. destruct o as [| | | | | |props| |]; try done. simpl.
  destruct (get_own props k) as [v|] eqn:Hget.
  - by apply (props_ok_lookup props k).
  - by case_bool_decide.
Qed.

(** The properties [{...v}] copies from a well-typed value are well
    typed, whether the value is an object, an array or a string. *)
Theorem spread_ok v : value_ok v = true → props_ok (spread v) = true.
Proof.
  intros Hv. destruct v as [| | | |s|items|props| |]; try done.
  - apply (imap_ok (λ c, VStr [c]) s 0). intros c Hc. simpl.
    apply units_okb_spec in Hv. rw /units_ok Forall_forall in Hv.
    rw andb_true_r. by apply N.ltb_lt, Hv.
  - apply (imap_ok id items 0). intros x. by apply value_ok_elements.
Qed.

End type_theorems.

(** ** Decidable equality *)

Section equality.
Implicit Types (v w : jsval).

Lemma jsval_eqb_refl v : jsval_eqb v v = true.
Proof.
  induction v as [| |b|n|s|items IH|props IH|s|s] using jsval_nested_ind;
    simpl; try done; try by case_bool_decide.
  - induction IH as [|x items Hx _ IH]; [done|]. by rw Hx.
  - induction IH as [|[k x] props Hx _ IH]; [done|].
    simpl in *. rw Hx IH. by case_bool_decide.
Qed.

Lemma jsval_eqb_eq v w : jsval_eqb v w = true → v = w.
Proof.
  revert w.
  induction v as [| |b|n|s|items IH|props IH|s|s] using jsval_nested_ind;
    intros [| |b'|n'|s'|items'|props'|s'|s'] Heq; simplify_eq/=;
    try done; try (by case_bool_decide; simplify_eq).
  - f_equal. revert items' Heq.
    induction IH as [|x items Hx _ IH]; intros [|y items'] Heq; try done.
    apply andb_true_iff in Heq as [Hxy Hrest]. f_equal; auto.
  - f_equal. revert props' Heq.
    induction IH as [|[k x] props Hx _ IH]; intros [|[l y] props'] Heq;
      try done.
    apply andb_true_iff in Heq as [[Hk Hxy]%andb_true_iff Hrest].
    case_bool_decide; [|done]. simplify_eq/=. f_equal; auto. f_equal; auto.
Qed.

Lemma jsval_eqb_spec v w : jsval_eqb v w = true ↔ v = w.
Proof. split; [apply jsval_eqb_eq|intros ->; apply jsval_eqb_refl]. Qed.

#[export] Instance jsval_eq_dec : EqDecision jsval.
Proof.
  refine (λ v w, cast_if (decide (jsval_eqb v w = true)));
    by rw -jsval_eqb_spec.
Defined.

End equality.
