(* ===== verification/Json.v ===== *)
(** * JSON.stringify

    [src/aws-portal-api.js] serialises the body of a request, and its
    options for the console, with [JSON.stringify].  This file gives the
    function on the values of the model, from ECMAScript's description:

    - [quote]: QuoteJSONString.  The escapes of the control characters, of
      the quotation mark and of the backslash; a surrogate without its
      partner is written as a [\u] escape, so that the text is always
      well formed;
    - [json_text]: SerializeJSONProperty without [toJSON], replacer and
      indentation, none of which the sources use.  An element of an array
      without a text is [null], a property without a text is left out;
    - [JSON_stringify]: the string, or [undefined].

    Numbers are the integers of the model. *)

From Corelib Require Import ssreflect_rw.
From stdpp Require Import strings pretty.
From S2P Require Import Prelude JsString SourceText JsValue.

Definition hex_digit (n : N) : code_unit :=
  (if n <? 10 then 48 + n else 87 + n)%N.

Definition unicode_escape (c : code_unit) : jsstring :=
  [92; 117; hex_digit (c / 4096); hex_digit ((c / 256) `mod` 16);
   hex_digit ((c / 16) `mod` 16); hex_digit (c `mod` 16)]%N.

Definition quote_unit (c : code_unit) : jsstring :=
  if (c =? 8)%N then [92; 98]%N
  else if (c =? 9)%N then [92; 116]%N
  else if (c =? 10)%N then [92; 110]%N
  else if (c =? 12)%N then [92; 102]%N
  else if (c =? 13)%N then [92; 114]%N
  else if (c =? 34)%N then [92; 34]%N
  else if (c =? 92)%N then [92; 92]%N
  else if (c <? 32)%N || is_high_surrogate c || is_low_surrogate c
       then unicode_escape c
  else [c].

Fixpoint quote_units (s : jsstring) : jsstring :=
  match s with
  | [] => []
  | c :: rest =>
      match rest with
      | d :: rest' =>
          if is_high_surrogate c && is_low_surrogate d
          then c :: d :: quote_units rest'
          else quote_unit c ++ quote_units rest
      | [] => quote_unit c
      end
  end.

Definition quote (s : jsstring) : jsstring := [34%N] ++ quote_units s ++ [34%N].

Fixpoint join (sep : jsstring) (parts : list jsstring) : jsstring :=
  match parts with
  | [] => []
  | [p] => p
  | p :: rest => p ++ sep ++ join sep rest
  end.

Fixpoint json_text (v : jsval) : option jsstring :=
  match v with
  | VUndefined | VBuiltin _ | VFun _ => None
  | VNull => Some (lit "null")
  | VBool b => Some (lit (if b then "true" else "false"))
  | VNum n => Some (lit (pretty n))
  | VStr s => Some (quote s)
  | VArr items =>
      Some (lit "[" ++ join (lit ",")
              (map (λ x, default (lit "null") (json_text x)) items) ++ lit "]")
  | VObj props =>
      Some (lit "{" ++ join (lit ",")
              (concat (map (λ kv, match json_text kv.2 with
                                  | Some t => [quote kv.1 ++ lit ":" ++ t]
                                  | None => []
                                  end) props)) ++ lit "}")
  end.

Definition JSON_stringify (v : jsval) : jsval :=
  match json_text v with
  | Some t => VStr t
  | None => VUndefined
  end.

(** ** Lemmas *)

#[local] Ltac Zify.zify_post_hook ::= Z.to_euclidean_division_equations.

Section json_lemmas.
Implicit Types (s t sep : jsstring) (c : code_unit) (v : jsval).

Lemma hex_digit_small n : (n < 16)%N → (hex_digit n < 256)%N.
Proof. intros Hn. rw /hex_digit. case_match; lia. Qed.

Lemma unicode_escape_small c :
  (c < 65536)%N → Forall (λ d, (d < 256)%N) (unicode_escape c).
Proof.
  intros Hc. rw /unicode_escape.
  repeat apply Forall_cons_2; try apply Forall_nil_2;
    try apply hex_digit_small; lia.
Qed.

Lemma unicode_escape_length c : length (unicode_escape c) = 6.
Proof. done. Qed.

(** The text of one unit: at most six units, none of them a surrogate
    unless it is the unit itself, which then is none. *)
Lemma quote_unit_well_formed c :
  (c < 65536)%N → well_formed (quote_unit c) = true.
Proof.
  intros Hc. rw /quote_unit. repeat case_match; try done.
  - by apply well_formed_small, unicode_escape_small.
  - apply orb_false_iff in H6 as [[_ Hh]%orb_false_iff Hl].
    by apply well_formed_cons.
Qed.

Lemma quote_unit_length c : 1 ≤ length (quote_unit c) ≤ 6.
Proof. rw /quote_unit. repeat case_match; simpl; lia. Qed.

Lemma quote_units_well_formed s :
  units_ok s → well_formed (quote_units s) = true.
Proof.
  induction s as [|c|c d s IH1 IH2] using list_pair_ind; [done|..].
  - intros [Hc _]%units_ok_cons. by apply quote_unit_well_formed.
  - intros [Hc [Hd Hs]%units_ok_cons]%units_ok_cons. cbn [quote_units].
    destruct (is_high_surrogate c && is_low_surrogate d) eqn:Hpair.
    + apply andb_true_iff in Hpair as [Hh Hl]. rw well_formed_pair //. auto.
    + apply well_formed_app; [by apply quote_unit_well_formed|].
      by apply IH2, units_ok_cons.
Qed.

Lemma quote_units_length s :
  length s ≤ length (quote_units s) ≤ 6 * length s.
Proof.
  induction s as [|c|c d s IH1 IH2] using list_pair_ind; [simpl; lia|..].
  - pose proof (quote_unit_length c). simpl. lia.
  - cbn [quote_units]. pose proof (quote_unit_length c).
    case_match; rw ?length_app; simpl in *; lia.
Qed.

Lemma well_formed_join sep parts :
  well_formed sep = true → Forall (λ p, well_formed p = true) parts →
  well_formed (join sep parts) = true.
Proof.
  intros Hsep. induction 1 as [|p parts Hp Hparts IH]; [done|].
  destruct parts as [|q parts]; [done|]. cbn [join].
  by repeat apply well_formed_app.
Qed.

Lemma quote_well_formed_units s : units_ok s → well_formed (quote s) = true.
Proof.
  intros Hs. rw /quote.
  by repeat apply well_formed_app; [|apply quote_units_well_formed|].
Qed.

Lemma json_text_arr items :
  json_text (VArr items)
  = Some (lit "[" ++ join (lit ",")
            (map (λ x, default (lit "null") (json_text x)) items) ++ lit "]").
Proof. done. Qed.

Lemma json_text_obj props :
  json_text (VObj props)
  = Some (lit "{" ++ join (lit ",")
            (concat (map (λ kv, match json_text kv.2 with
                                | Some t => [quote kv.1 ++ lit ":" ++ t]
                                | None => []
                                end) props)) ++ lit "}").
Proof. done. Qed.

(** The texts of the elements of an array. *)
Lemma element_texts_well_formed items :
  Forall (λ x, ∀ t, value_ok x = true → json_text x = Some t →
               well_formed t = true) items →
  forallb value_ok items = true →
  Forall (λ p, well_formed p = true)
    (map (λ x, default (lit "null") (json_text x)) items).
Proof.
  induction 1 as [|x items Hx _ IH]; [constructor|].
  intros [Hok Hrest]%andb_true_iff. apply Forall_cons_2; [|by apply IH].
  destruct (json_text x) as [t|]; [by apply Hx|apply well_formed_lit].
Qed.

(** The texts of the properties of an object. *)
Lemma member_texts_well_formed props :
  Forall (λ kv, ∀ t, value_ok kv.2 = true → json_text kv.2 = Some t →
                well_formed t = true) props →
  props_ok props = true →
  Forall (λ p, well_formed p = true)
    (concat (map (λ kv, match json_text kv.2 with
                        | Some t => [quote kv.1 ++ lit ":" ++ t]
                        | None => []
                        end) props)).
Proof.
  induction 1 as [|[k x] props Hx _ IH]; [constructor|].
  rw props_ok_cons. intros [[Hk Hok]%andb_true_iff Hrest]%andb_true_iff.
  cbn [map concat]. apply Forall_app. split; [|by apply IH].
  cbn [fst snd] in *. destruct (json_text x) as [t|]; [|constructor].
  apply Forall_cons_2; [|constructor].
  apply well_formed_app; [by apply quote_well_formed_units, units_okb_spec|].
  apply well_formed_app; [done|by apply Hx].
Qed.

End json_lemmas.

(** ** Theorems *)

Section json_theorems.
Implicit Types (s t : jsstring) (v : jsval).

(** The text JSON.stringify gives for a well-typed value is well formed,
    whatever the strings of the value hold. *)
Lemma json_text_wf v t :
  value_ok v = true → json_text v = Some t → well_formed t = true.
Proof.
  revert t. induction v as [| |b|n|s|items IH|props IH| |]
    using jsval_nested_ind; intros t Hv Ht; try done.
  1-3: injection Ht as <-; apply well_formed_lit.
  - injection Ht as <-. by apply quote_well_formed_units, units_okb_spec.
  - rw json_text_arr in Ht. injection Ht as <-.
    repeat apply well_formed_app; try done.
    by apply well_formed_join, element_texts_well_formed.
  - rw json_text_obj in Ht. injection Ht as <-.
    repeat apply well_formed_app; try done.
    by apply well_formed_join, member_texts_well_formed.
Qed.

(** The text JSON.stringify gives for a well-typed value is well
    formed: no surrogate stands in it without its partner, whatever the
    strings of the value hold. *)
Theorem json_text_well_formed v t :
  value_ok v = true → json_text v = Some t → well_formed t = true.
Proof. apply json_text_wf. Qed.

Lemma json_text_well_formed_witness :
  well_formed (lit "{" ++ quote (lit "a") ++ lit ":" ++ quote [55357%N] ++ lit "}")
  = true.
Proof.
  by apply (json_text_well_formed (VObj [prop "a" (VStr [55357%N])])).
Defined.

(** A text of JSON crosses the wire unchanged: encoded as UTF-8 and
    decoded again, the text of a well-typed value is the text itself. *)
Theorem json_text_wire v t :
  value_ok v = true → json_text v = Some t →
  decode_utf8 (encode_utf8 t) = t.
Proof. intros Hv Ht. by apply decode_encode_utf8, (json_text_wf v). Qed.

Lemma json_text_wire_witness :
  let t := lit "[" ++ quote (text "✓ → 𝒜") ++ lit ",null]" in
  decode_utf8 (encode_utf8 t) = t.
Proof.
  by apply (json_text_wire (VArr [VStr (text "✓ → 𝒜"); VUndefined])).
Defined.

(** JSON.stringify keeps values well typed: its result is [undefined]
    or a string of sixteen-bit code units. *)
Theorem JSON_stringify_ok v :
  value_ok v = true → value_ok (JSON_stringify v) = true.
Proof.
  intros Hv. rw /JSON_stringify. destruct (json_text v) as [t|] eqn:Ht; [|done].
  by apply units_okb_spec, well_formed_units, (json_text_wf v).
Qed.

Lemma JSON_stringify_ok_witness :
  value_ok (JSON_stringify (VObj [prop "n" (VNum 1)])) = true.
Proof. by apply JSON_stringify_ok. Defined.

(** The text of a string is at most six times as long as the string,
    and two more for the quotation marks; it is never shorter. *)
Theorem quote_length s :
  length s + 2 ≤ length (quote s) ≤ 6 * length s + 2.
Proof.
  pose proof (quote_units_length s). rw /quote !length_app /=. lia.
Qed.

End json_theorems.
