(* ===== verification/Url.v ===== *)
(** * The URL parser the resolver calls

    [src/aws-utilities.js] builds [new URL(url)] and reads its [hostname];
    the constructor throws on a string that is not an absolute URL.  The
    parser is the platform's (the WHATWG URL Standard), not the
    repository's, so the resolver is verified against an interface:

    - [UrlParser] is what the resolver needs from a parser: the map from a
      string to the host name of its URL, or to nothing when the constructor
      throws, and two laws of the standard that the resolver's theorems use.
    - [reference_parser] is an instance: the standard's state machine for
      absolute URLs, restricted to the host names it can treat without
      tables: ASCII domains with no Punycode label and no numeric last label
      for the special schemes, printable ASCII opaque hosts for the others.
      Outside this range ([file:] URLs, IPv4 and IPv6 literals,
      percent-encoded, internationalised or Punycode hosts) it answers
      [Unsupported], which the instance turns into [None]: the instance is
      exact on the strings it accepts and on the strings it fails on, and
      silent on the rest.  It makes the laws non-vacuous and lets the
      resolver's functions run on concrete addresses. *)

From Corelib Require Import ssreflect_rw.
From stdpp Require Import strings.
From S2P Require Import Prelude JsString.

(** ** Character classes of the standard *)

Definition is_c0_or_space (c : code_unit) : bool := (c <=? 32)%N.

Definition is_tab_or_newline (c : code_unit) : bool :=
  bool_decide (c ∈ [9; 10; 13]%N).

Definition is_upper (c : code_unit) : bool := (65 <=? c)%N && (c <=? 90)%N.
Definition is_lower (c : code_unit) : bool := (97 <=? c)%N && (c <=? 122)%N.
Definition is_alpha (c : code_unit) : bool := is_upper c || is_lower c.
Definition is_digit (c : code_unit) : bool := (48 <=? c)%N && (c <=? 57)%N.

Definition is_hex_digit (c : code_unit) : bool :=
  is_digit c || ((65 <=? c)%N && (c <=? 70)%N)
  || ((97 <=? c)%N && (c <=? 102)%N).

Definition is_scheme_char (c : code_unit) : bool :=
  is_alpha c || is_digit c || bool_decide (c ∈ lit "+-.").

(** The forbidden host code points, and the further ones a domain may not
    hold. *)
Definition is_forbidden_host (c : code_unit) : bool :=
  bool_decide (c ∈ 0%N :: lit " #/:<>?@[\]^|") || is_tab_or_newline c.

Definition is_forbidden_domain (c : code_unit) : bool :=
  is_forbidden_host c || (c <=? 31)%N || bool_decide (c ∈ 127%N :: lit "%").

(** The characters of a plain host name: lower-case letters, digits, the
    hyphen and the dot. *)
Definition is_host_char (c : code_unit) : bool :=
  is_lower c || is_digit c || bool_decide (c ∈ lit "-.").

(** The code units [is_host_char] accepts, for proofs by enumeration. *)
Definition host_chars : list code_unit :=
  Z.to_N <$> (seqZ 97 26 ++ seqZ 48 10 ++ [45; 46]%Z).

(** ** Host names *)

Definition labels (h : jsstring) : list jsstring := split_on 46%N h.

Definition has_punycode_label (h : jsstring) : bool :=
  existsb (λ l, startsWith (toLowerCase l) (lit "xn--")) (labels h).

(** The label the standard's ends-in-a-number checker looks at: the last
    one, or the one before it when the last is empty. *)
Definition last_label (h : jsstring) : jsstring :=
  match reverse (labels h) with
  | [] :: l :: _ => l
  | l :: _ => l
  | [] => []
  end.

Definition is_ipv4_number (l : jsstring) : bool :=
  negb (bool_decide (l = []))
  && (forallb is_digit l
      || ((startsWith l (lit "0x") || startsWith l (lit "0X"))
          && forallb is_hex_digit (drop 2 l))).

Definition ends_in_number (h : jsstring) : bool :=
  is_ipv4_number (last_label h).

(** A host name that the parser of a special scheme returns as it is. *)
Definition plain_host (h : jsstring) : bool :=
  negb (bool_decide (h = [])) && forallb is_host_char h
  && negb (has_punycode_label h) && negb (ends_in_number h).

(** What may follow the host in an address: nothing, a path, a query or a
    fragment. *)
Definition after_host (rest : jsstring) : bool :=
  match rest with
  | [] => true
  | c :: _ => bool_decide (c ∈ lit "/?#")
  end.

(** ** The interface *)

Class UrlParser := {
  (** [new URL(s).hostname], or [None] when the constructor throws *)
  url_hostname : jsstring → option jsstring;
  (** a string without a colon has no scheme, and there is no base URL *)
  url_hostname_no_colon s : 58%N ∉ s → url_hostname s = None;
  (** an [https] address with a plain host parses to that host *)
  url_hostname_https h rest :
    plain_host h = true → after_host rest = true →
    url_hostname (lit "https://" ++ h ++ rest) = Some h;
}.

(** ** The reference parser *)

Inductive parse_outcome : Type :=
| Parsed (hostname : jsstring)
| Failure
| Unsupported.

Definition special_schemes : list jsstring :=
  lit <$> ["ftp"; "http"; "https"; "ws"; "wss"].

(** Scheme start state and scheme state: the lower-cased scheme and what
    follows its colon. *)
Definition parse_scheme (s : jsstring) : option (jsstring * jsstring) :=
  match s with
  | c :: _ =>
      if is_alpha c then
        match drop_while is_scheme_char s with
        | c' :: rest =>
            if (c' =? 58)%N
            then Some (toLowerCase (take_while is_scheme_char s), rest)
            else None
        | [] => None
        end
      else None
  | [] => None
  end.

(** The code points that end the authority. *)
Definition ends_authority (special : bool) (c : code_unit) : bool :=
  bool_decide (c ∈ lit "/?#") || (special && (c =? 92)%N).

(** Authority state: what follows the last [@], and a failure when an [@]
    is followed by nothing. *)
Definition strip_credentials (auth : jsstring) : option jsstring :=
  if bool_decide (64%N ∈ auth) then
    match reverse (take_while (λ c, negb (c =? 64)%N) (reverse auth)) with
    | [] => None
    | hostport => Some hostport
    end
  else Some auth.

(** The host parser, on a host that is not an IPv6 literal. *)
Definition parse_host (special : bool) (host : jsstring) : parse_outcome :=
  if special then
    if bool_decide (host = []) then Failure
    else if existsb (λ c, negb (is_ascii c) || (c =? 37)%N) host
    then Unsupported
    else
      let domain := toLowerCase host in
      if has_punycode_label domain then Unsupported
      else if existsb is_forbidden_domain domain then Failure
      else if ends_in_number domain then Unsupported
      else Parsed domain
  else
    if existsb is_forbidden_host host then Failure
    else if existsb (λ c, (c <=? 31)%N || (127 <=? c)%N) host
    then Unsupported
    else Parsed host.

Definition digits_value (ds : jsstring) : N :=
  foldl (λ acc d, acc * 10 + (d - 48))%N 0%N ds.

(** Port state: digits only, and a value of 16 bits. *)
Definition valid_port (port : jsstring) : bool :=
  forallb is_digit port && (digits_value port <=? 65535)%N.

(** Authority, host and port states. *)
Definition parse_authority (special : bool) (s : jsstring) : parse_outcome :=
  let auth := take_while (λ c, negb (ends_authority special c)) s in
  match strip_credentials auth with
  | None => Failure
  | Some hostport =>
      if startsWith hostport (lit "[") then Unsupported
      else if bool_decide (91%N ∈ hostport) || bool_decide (93%N ∈ hostport)
      then Failure
      else
        let host := take_while (λ c, negb (c =? 58)%N) hostport in
        match drop_while (λ c, negb (c =? 58)%N) hostport with
        | [] => parse_host special host
        | _ :: port =>
            if bool_decide (host = []) then Failure
            else match parse_host special host with
                 | Parsed h => if valid_port port then Parsed h else Failure
                 | o => o
                 end
        end
  end.

Definition is_slash (c : code_unit) : bool := bool_decide (c ∈ lit "/\").

(** The basic URL parser without a base URL, as far as the host name. *)
Definition parse_url (input : jsstring) : parse_outcome :=
  let s := filter (λ c, is_tab_or_newline c = false)
             (strip is_c0_or_space input) in
  match parse_scheme s with
  | None => Failure
  | Some (scheme, rest) =>
      if str_eq scheme (lit "file") then Unsupported
      else if bool_decide (scheme ∈ special_schemes)
      then parse_authority true (drop_while is_slash rest)
      else match rest with
           | 47%N :: 47%N :: rest' => parse_authority false rest'
           | _ => Parsed []
           end
  end.

Definition reference_hostname (s : jsstring) : option jsstring :=
  match parse_url s with
  | Parsed h => Some h
  | Failure | Unsupported => None
  end.

(** ** Lemmas on characters and host names *)

Section host_lemmas.
Implicit Types (h s rest : jsstring) (c : code_unit).

Lemma is_host_char_elem c : is_host_char c = true → c ∈ host_chars.
Proof.
  rw /is_host_char /is_lower /is_digit !orb_true_iff !andb_true_iff.
  rw bool_decide_eq_true !N.leb_le. change (lit "-.") with [45; 46]%N.
  intros Hc. rewrite !elem_of_cons, elem_of_nil in Hc.
  apply list_elem_of_fmap. exists (Z.of_N c). split; [lia|].
  rw !elem_of_app !elem_of_seqZ !elem_of_cons. lia.
Qed.

(** A decidable property of code units holds of every host character as
    soon as it holds of the thirty-eight of them. *)
Lemma host_char_ind (Q : code_unit → Prop) `{!∀ c, Decision (Q c)} :
  bool_decide (Forall Q host_chars) = true →
  ∀ c, is_host_char c = true → Q c.
Proof.
  intros HQ%bool_decide_eq_true_1 c Hc%is_host_char_elem.
  exact (proj1 (Forall_forall _ _) HQ c Hc).
Qed.

Lemma host_chars_Forall (Q : code_unit → Prop) `{!∀ c, Decision (Q c)} h :
  bool_decide (Forall Q host_chars) = true →
  forallb is_host_char h = true → Forall Q h.
Proof.
  intros HQ Hh. apply forallb_true_Forall in Hh.
  eapply Forall_impl; [exact Hh|]. intros c. by apply (host_char_ind Q).
Qed.

End host_lemmas.

(** ** The reference parser meets the interface *)

Section reference_lemmas.
Implicit Types (h s rest : jsstring) (c : code_unit).

Lemma plain_host_inv h :
  plain_host h = true →
  h ≠ [] ∧ forallb is_host_char h = true
  ∧ has_punycode_label h = false ∧ ends_in_number h = false.
Proof.
  rw /plain_host !andb_true_iff !negb_true_iff bool_decide_eq_false. tauto.
Qed.

Lemma host_not_elem_of h x :
  forallb is_host_char h = true → is_host_char x = false → x ∉ h.
Proof.
  intros Hh%forallb_true_Forall Hx. eapply not_elem_of_Forall; [done|].
  simpl. by rw Hx.
Qed.

Lemma host_toLowerCase h :
  forallb is_host_char h = true → toLowerCase h = h.
Proof.
  intros Hh. apply fmap_fixed.
  by apply (host_chars_Forall (λ c, lower_unit c = c)).
Qed.

Lemma parse_host_plain h : plain_host h = true → parse_host true h = Parsed h.
Proof.
  intros (Hne & Hh & Hpuny & Hnum)%plain_host_inv. rw /parse_host.
  rw bool_decide_eq_false_2 // host_toLowerCase // Hpuny Hnum.
  rw (proj2 (existsb_false_Forall _ h)).
  { by apply (host_chars_Forall
                (λ c, negb (is_ascii c) || (c =? 37)%N = false)). }
  rw (proj2 (existsb_false_Forall _ h)) //.
  by apply (host_chars_Forall (λ c, is_forbidden_domain c = false)).
Qed.

Lemma after_host_head special rest c :
  after_host rest = true → list.head rest = Some c →
  negb (ends_authority special c) = false.
Proof.
  destruct rest as [|c' rest]; simpl; [done|]. intros Hc [= <-].
  by rw /ends_authority Hc.
Qed.

Lemma parse_authority_plain h rest :
  plain_host h = true → after_host rest = true →
  parse_authority true (h ++ rest) = Parsed h.
Proof.
  intros Hplain Hrest. pose proof Hplain as (Hne & Hh & _)%plain_host_inv.
  destruct (take_while_app_stop (λ c, negb (ends_authority true c)) h rest)
    as [Hauth _].
  { by apply (host_chars_Forall
                (λ c, negb (ends_authority true c) = true)). }
  { intros c. by apply after_host_head. }
  destruct (take_while_app_stop (λ c, negb (c =? 58)%N) h []) as [Ht Hd].
  { by apply (host_chars_Forall (λ c, negb (c =? 58)%N = true)). }
  { done. }
  rw app_nil_r in Ht Hd.
  assert (startsWith h (lit "[") = false) as Hbr.
  { apply not_true_iff_false. intros [l ->]%startsWith_spec.
    by eapply host_not_elem_of; [done| |left]. }
  rw /parse_authority Hauth /strip_credentials.
  rw bool_decide_eq_false_2; [by apply host_not_elem_of|].
  rw Hbr Ht Hd !bool_decide_eq_false_2; try by apply host_not_elem_of.
  by apply parse_host_plain.
Qed.

Lemma https_block_clear h :
  plain_host h = true → ends_clear is_c0_or_space (lit "https://" ++ h).
Proof.
  intros (Hne & Hh & _)%plain_host_inv. apply ends_clear_app; [done| |].
  - by split; intros c [= <-].
  - pose proof (host_chars_Forall (λ c, is_c0_or_space c = false) h
                  eq_refl Hh) as Hall.
    rw Forall_forall in Hall. split; intros c Hc; apply Hall.
    + by apply head_Some_elem_of.
    + by apply last_Some_elem_of.
Qed.

Lemma after_host_cons c rest :
  after_host (c :: rest) = true →
  is_c0_or_space c = false ∧ is_tab_or_newline c = false.
Proof.
  simpl. intros Hc%bool_decide_eq_true_1. revert Hc.
  change (lit "/?#") with [47; 63; 35]%N.
  rw !elem_of_cons elem_of_nil. by intros [->|[->|[->|[]]]].
Qed.

(** Stripping and filtering leave the scheme and a plain host in place,
    and what follows them still starts a path, a query or a fragment. *)
Lemma clean_https h rest :
  plain_host h = true → after_host rest = true →
  ∃ rest', filter (λ c, is_tab_or_newline c = false)
             (strip is_c0_or_space (lit "https://" ++ h ++ rest))
           = lit "https://" ++ h ++ rest'
           ∧ after_host rest' = true.
Proof.
  intros Hplain Hrest. pose proof Hplain as (Hne & Hh & _)%plain_host_inv.
  pose proof (https_block_clear h Hplain) as Hclear.
  assert (Hf : filter (λ c, is_tab_or_newline c = false) h = h).
  { by apply filter_all, (host_chars_Forall _). }
  destruct rest as [|c rest].
  - exists []. by rw !app_nil_r strip_fixed // list.filter_app Hf.
  - destruct (after_host_cons c rest Hrest) as [Hsp Htab].
    exists (c :: filter (λ c, is_tab_or_newline c = false)
                   (drop_while_end is_c0_or_space rest)).
    split; [|exact Hrest].
    rw (_ : lit "https://" ++ h ++ c :: rest
            = ((lit "https://" ++ h) ++ [c]) ++ rest).
    { by rw -!app_assoc. }
    rw strip_app_clear; [by destruct h| |].
    + apply ends_clear_app; [by destruct h|done|].
      by split; intros c' [= <-].
    + rw !list.filter_app Hf (filter_cons_True _ c []) // filter_nil.
      by rw -!app_assoc.
Qed.

Lemma parse_url_https h rest :
  plain_host h = true → after_host rest = true →
  parse_url (lit "https://" ++ h ++ rest) = Parsed h.
Proof.
  intros Hplain Hrest.
  destruct (clean_https h rest) as (rest' & Heq & Hrest'); [done..|].
  rw /parse_url Heq. change (parse_scheme (lit "https://" ++ h ++ rest'))
    with (Some (lit "https", [47; 47]%N ++ h ++ rest')).
  change (str_eq (lit "https") (lit "file")) with false.
  change (bool_decide (lit "https" ∈ special_schemes)) with true.
  cbv iota beta. rw (_ : drop_while is_slash ([47; 47]%N ++ h ++ rest')
                        = h ++ rest').
  { pose proof Hplain as (Hne & Hh & _)%plain_host_inv.
    destruct h as [|c h]; [done|]. simpl in Hh.
    apply andb_true_iff in Hh as [Hc _].
    change (drop_while is_slash ((c :: h) ++ rest') = (c :: h) ++ rest').
    apply drop_while_fixed. intros c' [= <-].
    by apply (host_char_ind (λ c, is_slash c = false)). }
  by apply parse_authority_plain.
Qed.

Lemma parse_scheme_no_colon s : 58%N ∉ s → parse_scheme s = None.
Proof.
  intros Hs. rw /parse_scheme. destruct s as [|c s]; [done|].
  destruct (is_alpha c); [|done].
  destruct (drop_while is_scheme_char (c :: s)) as [|c' r] eqn:Hd; [done|].
  destruct (N.eqb_spec c' 58) as [->|]; [|done]. destruct Hs.
  apply (elem_of_suffix (drop_while is_scheme_char (c :: s)));
    [|apply drop_while_suffix]. rw Hd. by left.
Qed.

Lemma parse_url_no_colon s : 58%N ∉ s → parse_url s = Failure.
Proof.
  intros Hs. rw /parse_url parse_scheme_no_colon; [|done].
  intros [_ Hin]%list_elem_of_filter. destruct Hs.
  eapply infix_of_elem_of; [apply strip_infix|done].
Qed.

Lemma reference_hostname_no_colon s : 58%N ∉ s → reference_hostname s = None.
Proof. intros Hs. by rw /reference_hostname parse_url_no_colon. Qed.

Lemma reference_hostname_https h rest :
  plain_host h = true → after_host rest = true →
  reference_hostname (lit "https://" ++ h ++ rest) = Some h.
Proof. intros Hh Hr. by rw /reference_hostname parse_url_https. Qed.

End reference_lemmas.

#[export] Instance reference_parser : UrlParser := {|
  url_hostname := reference_hostname;
  url_hostname_no_colon := reference_hostname_no_colon;
  url_hostname_https := reference_hostname_https;
|}.
