(* ===== verification/Regex.v ===== *)
(** * Regular expressions

    [src/aws-portal-constants.js] tests an address with
    [url.match(/https:\/\/[a-z0-9\-]*\.awsapps\.com\/start/)] and records
    patterns for host labels as strings.  This file gives the fragment of
    JavaScript's regular expressions those use: characters, character
    classes of ranges, concatenation, alternation, [*], [?] and [{n}],
    without flags, so on code units and case-sensitive.

    [matches] is the language of an expression.  [matchb] decides it with
    Brzozowski derivatives, and [searchb] decides whether some substring of
    a string matches, which is when [String.prototype.match] returns an
    array instead of [null].  The engine belongs to the JavaScript runtime:
    it is modelled from ECMAScript. *)

From Corelib Require Import ssreflect_rw.
From stdpp Require Import strings.
From S2P Require Import Prelude JsString.

Inductive regex : Type :=
| Void
| Eps
| Chr (c : code_unit)
| Class (ranges : list (code_unit * code_unit))
| Cat (r1 r2 : regex)
| Alt (r1 r2 : regex)
| Star (r : regex).

(** [c] lies in one of the ranges of a class. *)
Definition in_ranges (ranges : list (code_unit * code_unit)) (c : code_unit)
  : bool :=
  existsb (λ '(lo, hi), (lo <=? c)%N && (c <=? hi)%N) ranges.

(** The expression of a literal string. *)
Definition Lit (s : jsstring) : regex := foldr (λ c r, Cat (Chr c) r) Eps s.

(** [r?] *)
Definition Opt (r : regex) : regex := Alt r Eps.

(** [r{n}] *)
Fixpoint Rep (n : nat) (r : regex) : regex :=
  match n with
  | O => Eps
  | S n => Cat r (Rep n r)
  end.

(** The strings an expression matches in full. *)
Inductive matches : regex → jsstring → Prop :=
| matches_eps : matches Eps []
| matches_chr c : matches (Chr c) [c]
| matches_class ranges c :
    in_ranges ranges c = true → matches (Class ranges) [c]
| matches_cat r1 r2 s1 s2 :
    matches r1 s1 → matches r2 s2 → matches (Cat r1 r2) (s1 ++ s2)
| matches_alt_l r1 r2 s : matches r1 s → matches (Alt r1 r2) s
| matches_alt_r r1 r2 s : matches r2 s → matches (Alt r1 r2) s
| matches_star_nil r : matches (Star r) []
| matches_star_cons r s1 s2 :
    matches r s1 → matches (Star r) s2 → matches (Star r) (s1 ++ s2).

(** The expression matches the empty string. *)
Fixpoint nullable (r : regex) : bool :=
  match r with
  | Void | Chr _ | Class _ => false
  | Eps | Star _ => true
  | Cat r1 r2 => nullable r1 && nullable r2
  | Alt r1 r2 => nullable r1 || nullable r2
  end.

(** The derivative: what may follow [c] in a match. *)
Fixpoint deriv (c : code_unit) (r : regex) : regex :=
  match r with
  | Void | Eps => Void
  | Chr c' => if (c' =? c)%N then Eps else Void
  | Class ranges => if in_ranges ranges c then Eps else Void
  | Cat r1 r2 =>
      if nullable r1 then Alt (Cat (deriv c r1) r2) (deriv c r2)
      else Cat (deriv c r1) r2
  | Alt r1 r2 => Alt (deriv c r1) (deriv c r2)
  | Star r' => Cat (deriv c r') (Star r')
  end.

(** The whole of [s] matches [r]. *)
Fixpoint matchb (r : regex) (s : jsstring) : bool :=
  match s with
  | [] => nullable r
  | c :: s' => matchb (deriv c r) s'
  end.

(** Some prefix of [s] matches [r]. *)
Fixpoint prefix_matchb (r : regex) (s : jsstring) : bool :=
  nullable r
  || match s with
     | [] => false
     | c :: s' => prefix_matchb (deriv c r) s'
     end.

(** Some substring of [s] matches [r]: [s.match(r)] is not [null]. *)
Fixpoint searchb (r : regex) (s : jsstring) : bool :=
  prefix_matchb r s
  || match s with
     | [] => false
     | _ :: s' => searchb r s'
     end.

(** ** Lemmas *)

Section regex_lemmas.
Implicit Types (r : regex) (s t : jsstring) (c : code_unit).

Lemma matches_void_inv s : ¬ matches Void s.
Proof. by inversion 1. Qed.

Lemma matches_eps_inv s : matches Eps s → s = [].
Proof. by inversion 1. Qed.

Lemma matches_chr_inv c s : matches (Chr c) s → s = [c].
Proof. by inversion 1. Qed.

Lemma matches_class_inv ranges s :
  matches (Class ranges) s → ∃ c, s = [c] ∧ in_ranges ranges c = true.
Proof. inversion 1; subst. by eexists. Qed.

Lemma matches_cat_inv r1 r2 s :
  matches (Cat r1 r2) s → ∃ s1 s2, s = s1 ++ s2 ∧ matches r1 s1 ∧ matches r2 s2.
Proof. inversion 1; subst. by eexists _, _. Qed.

Lemma matches_alt_inv r1 r2 s :
  matches (Alt r1 r2) s → matches r1 s ∨ matches r2 s.
Proof. inversion 1; subst; auto. Qed.

(** A non-empty match of a star starts with a non-empty match of its body. *)
Lemma matches_star_cons_inv r c s :
  matches (Star r) (c :: s) →
  ∃ s1 s2, s = s1 ++ s2 ∧ matches r (c :: s1) ∧ matches (Star r) s2.
Proof.
  intros H. remember (Star r) as r' eqn:Hr. remember (c :: s) as t eqn:Ht.
  induction H as [| | | | | | |r0 s1 s2 H1 _ H2 IH]; try done.
  injection Hr as ->. destruct s1 as [|c' s1]; simpl in Ht.
  - by apply IH.
  - injection Ht as -> <-. by exists s1, s2.
Qed.

Lemma nullable_spec r : nullable r = true ↔ matches r [].
Proof.
  induction r as [| | | |r1 IH1 r2 IH2|r1 IH1 r2 IH2|r IH]; simpl.
  - split; [done|]. by intros ?%matches_void_inv.
  - split; [constructor|done].
  - split; [done|]. by intros ?%matches_chr_inv.
  - split; [done|]. by intros (? & ? & _)%matches_class_inv.
  - rw andb_true_iff IH1 IH2. split.
    + intros [H1 H2]. by apply (matches_cat _ _ [] []).
    + intros (s1 & s2 & [-> ->]%eq_sym%app_eq_nil & H1 & H2)%matches_cat_inv.
      done.
  - rw orb_true_iff IH1 IH2. split.
    + intros [?|?]; [by apply matches_alt_l | by apply matches_alt_r].
    + apply matches_alt_inv.
  - split; [constructor|done].
Qed.

Lemma matches_cat_iff r1 r2 s :
  matches (Cat r1 r2) s ↔ ∃ s1 s2, s = s1 ++ s2 ∧ matches r1 s1 ∧ matches r2 s2.
Proof.
  split; [apply matches_cat_inv|]. intros (s1 & s2 & -> & ? & ?).
  by constructor.
Qed.

Lemma matches_alt_iff r1 r2 s :
  matches (Alt r1 r2) s ↔ matches r1 s ∨ matches r2 s.
Proof.
  split; [apply matches_alt_inv|].
  intros [?|?]; [by apply matches_alt_l | by apply matches_alt_r].
Qed.

(** A match of a concatenation that starts with [c]: [c] starts the match
    of the second part, the first matching the empty string, or [c] starts
    the match of the first part. *)
Lemma matches_cat_cons r1 r2 c s :
  matches (Cat r1 r2) (c :: s) ↔
  (matches r1 [] ∧ matches r2 (c :: s))
  ∨ ∃ s1 s2, s = s1 ++ s2 ∧ matches r1 (c :: s1) ∧ matches r2 s2.
Proof.
  rw matches_cat_iff. split.
  - intros ([|c' s1] & s2 & Heq & H1 & H2); simpl in Heq; subst; [by left|].
    injection Heq as -> ->. right. by exists s1, s2.
  - intros [[H1 H2]|(s1 & s2 & -> & H1 & H2)];
      [by exists [], (c :: s) | by exists (c :: s1), s2].
Qed.

Lemma deriv_chr c c' s : matches (deriv c (Chr c')) s ↔ matches (Chr c') (c :: s).
Proof.
  simpl. destruct (N.eqb_spec c' c) as [->|Hc]; split.
  - intros ->%matches_eps_inv. constructor.
  - intros [= ->]%matches_chr_inv. constructor.
  - by intros ?%matches_void_inv.
  - intros [= ? ?]%matches_chr_inv. done.
Qed.

Lemma deriv_class c ranges s :
  matches (deriv c (Class ranges)) s ↔ matches (Class ranges) (c :: s).
Proof.
  simpl. destruct (in_ranges ranges c) eqn:Hc; split.
  - intros ->%matches_eps_inv. by constructor.
  - intros (? & [= <- ->] & _)%matches_class_inv. constructor.
  - by intros ?%matches_void_inv.
  - intros (? & [= <- ->] & ?)%matches_class_inv. congruence.
Qed.

Lemma deriv_cat r1 r2 c s :
  (∀ s, matches (deriv c r1) s ↔ matches r1 (c :: s)) →
  (∀ s, matches (deriv c r2) s ↔ matches r2 (c :: s)) →
  matches (deriv c (Cat r1 r2)) s ↔ matches (Cat r1 r2) (c :: s).
Proof.
  intros IH1 IH2. rw matches_cat_cons -nullable_spec /=.
  assert (matches (Cat (deriv c r1) r2) s ↔
          ∃ s1 s2, s = s1 ++ s2 ∧ matches r1 (c :: s1) ∧ matches r2 s2)
    as Hcat by (rw matches_cat_iff; by setoid_rewrite IH1).
  destruct (nullable r1).
  - rw matches_alt_iff Hcat IH2. split; [intros [?|?] | intros [[_ ?]|?]]; auto.
  - rw Hcat. split; [auto | by intros [[? _]|?]].
Qed.

Lemma deriv_star r c s :
  (∀ s, matches (deriv c r) s ↔ matches r (c :: s)) →
  matches (deriv c (Star r)) s ↔ matches (Star r) (c :: s).
Proof.
  intros IH. simpl. split.
  - intros (s1 & s2 & -> & H1%IH & H2)%matches_cat_inv.
    by apply (matches_star_cons _ (c :: s1) s2).
  - intros (s1 & s2 & -> & H1 & H2)%matches_star_cons_inv.
    constructor; [by apply IH | done].
Qed.

Lemma deriv_spec r c s : matches (deriv c r) s ↔ matches r (c :: s).
Proof.
  revert s. induction r as [| | | |r1 IH1 r2 IH2|r1 IH1 r2 IH2|r IH]; intros s.
  - split; by intros ?%matches_void_inv.
  - split; [by intros ?%matches_void_inv | by intros ?%matches_eps_inv].
  - apply deriv_chr.
  - apply deriv_class.
  - by apply deriv_cat.
  - by rw /= !matches_alt_iff IH1 IH2.
  - by apply deriv_star.
Qed.

Lemma matchb_spec r s : matchb r s = true ↔ matches r s.
Proof.
  revert r. induction s as [|c s IH]; intros r; simpl.
  - apply nullable_spec.
  - by rw IH deriv_spec.
Qed.

Lemma prefix_matchb_spec r s :
  prefix_matchb r s = true ↔ ∃ m q, s = m ++ q ∧ matches r m.
Proof.
  revert r. induction s as [|c s IH]; intros r; simpl.
  - rw orb_false_r nullable_spec. split.
    + intros ?. by exists [], [].
    + by intros (m & q & [-> ->]%eq_sym%app_eq_nil & ?).
  - rw orb_true_iff nullable_spec IH. split.
    + intros [?|(m & q & -> & ?%deriv_spec)]; [by exists [], (c :: s)|].
      by exists (c :: m), q.
    + intros ([|c' m] & q & Heq & Hm); [by left|]. right.
      injection Heq as -> ->. exists m, q. by rw deriv_spec.
Qed.

Lemma searchb_nil r : searchb r [] = prefix_matchb r [].
Proof. apply orb_false_r. Qed.

Lemma searchb_cons r c s :
  searchb r (c :: s) = prefix_matchb r (c :: s) || searchb r s.
Proof. done. Qed.

Lemma searchb_spec r s :
  searchb r s = true ↔ ∃ p m q, s = p ++ m ++ q ∧ matches r m.
Proof.
  induction s as [|c s IH].
  - rw searchb_nil prefix_matchb_spec. split.
    + intros (m & q & ? & ?). by exists [], m, q.
    + intros (p & m & q & Heq & ?). symmetry in Heq.
      apply app_eq_nil in Heq as [-> Heq]. by exists m, q.
  - rw searchb_cons orb_true_iff prefix_matchb_spec IH. split.
    + intros [(m & q & ? & ?)|(p & m & q & -> & ?)];
        [by exists [], m, q | by exists (c :: p), m, q].
    + intros ([|c' p] & m & q & Heq & Hm); [left; by exists m, q|].
      right. injection Heq as -> ->. by exists p, m, q.
Qed.

Lemma matches_Lit s t : matches (Lit s) t ↔ t = s.
Proof.
  revert t. induction s as [|c s IH]; intros t; simpl.
  - split; [apply matches_eps_inv | intros ->; constructor].
  - split.
    + by intros (? & ? & -> & ->%matches_chr_inv & ->%IH)%matches_cat_inv.
    + intros ->. apply (matches_cat _ _ [c] s); [constructor | by apply IH].
Qed.

Lemma matches_star_class ranges s :
  matches (Star (Class ranges)) s ↔ Forall (λ c, in_ranges ranges c = true) s.
Proof.
  split.
  - induction s as [|c s IH]; [done|].
    intros (s1 & s2 & -> & (c' & Hc & ?)%matches_class_inv & ?)
      %matches_star_cons_inv.
    injection Hc as <- ->. constructor; [done|]. by apply IH.
  - induction 1 as [|c s Hc Hs IH]; [constructor|].
    apply (matches_star_cons _ [c] s); [by constructor | done].
Qed.

Lemma matches_Rep_class n ranges s :
  matches (Rep n (Class ranges)) s ↔
  length s = n ∧ Forall (λ c, in_ranges ranges c = true) s.
Proof.
  revert s. induction n as [|n IH]; intros s; simpl.
  - split.
    + by intros ->%matches_eps_inv.
    + intros [->%nil_length_inv _]. constructor.
  - split.
    + intros (? & s2 & -> & (c & -> & Hc)%matches_class_inv & [<- ?]%IH)
        %matches_cat_inv.
      split; [done | by constructor].
    + destruct s as [|c s]; [by intros [[=] _]|].
      intros [[= Hlen] [Hc Hs]%Forall_cons].
      apply (matches_cat _ _ [c] s); [by constructor | by apply IH].
Qed.

End regex_lemmas.
