(* ===== verification/Utilities.v ===== *)
(** * The address resolver of [src/aws-utilities.js]

    The constants of the module as object literals, and one definition per
    function: [isValidAWSPortalURL], [getAWSPortalURL],
    [normalizeAWSPortalURL] (with its two rewriting steps, [addProtocol] and
    [addStartPath]), [isMainAWSPortal], [getAWSPortalDomain],
    [buildAWSPortalURL], [validateAWSPortalConfig] and
    [navigateToAWSPortal].  An argument is an [option]: [None] is the
    argument left out.  The two functions that parse a URL are stated over
    any [UrlParser]; the browser window that navigation changes is a record
    passed in and returned.

    The theorems give each function's result on every branch, the
    identities that relate construction, normalisation, validation and host
    extraction, and the inputs on which the code and its documentation
    part ways. *)

From Corelib Require Import ssreflect_rw.
From stdpp Require Import strings.
From S2P Require Import Prelude JsString JsValue Url.

(** ** Constants *)

Definition AWS_IDENTITY_CENTER : jsval := VObj [
  prop "MAIN_PORTAL" (str "https://internal.awsapps.com/start");
  prop "PORTAL_ENDPOINT" (str "https://internal.awsapps.com/start");
  prop "PRIMARY_URL" (str "https://internal.awsapps.com/start");
  prop "DEFAULT_ROUTE" (str "https://internal.awsapps.com/start");
  prop "HOME_PAGE" (str "https://internal.awsapps.com/start");
  prop "ENTRY_POINT" (str "https://internal.awsapps.com/start");
  prop "SSO_PORTAL" (str "https://internal.awsapps.com/start")
].

Definition AWS_DOMAINS : jsval := VObj [
  prop "INTERNAL" (str "internal.awsapps.com");
  prop "AWSAPPS" (str "awsapps.com");
  prop "DOCS" (str "docs.aws.amazon.com");
  prop "MAIN" (str "aws.amazon.com");
  prop "CONSOLE" (str "console.aws.amazon.com")
].

Definition AWS_PORTAL_URLS : jsval := VObj [
  prop "iam_identity_center" (str "https://internal.awsapps.com/start");
  prop "main" (str "https://internal.awsapps.com/start");
  prop "sso" (str "https://internal.awsapps.com/start");
  prop "access_portal" (str "https://internal.awsapps.com/start");
  prop "applications" (str "https://internal.awsapps.com/start");
  prop "default" (str "https://internal.awsapps.com/start")
].

Definition AWS_PORTAL_METADATA : jsval := VObj [
  prop "main_portal" (VObj [
    prop "name" (str "AWS IAM Identity Center Portal");
    prop "url" (str "https://internal.awsapps.com/start");
    prop "domain" (str "internal.awsapps.com");
    prop "description" (str "Primary AWS IAM Identity Center access portal");
    prop "path" (str "/start");
    prop "protocol" (str "https");
    prop "type" (str "identity_center")
  ]);
  prop "config" (VObj [
    prop "primary_url" (str "https://internal.awsapps.com/start");
    prop "default_subdomain" (str "internal");
    prop "domain_suffix" (str "awsapps.com");
    prop "start_path" (str "/start");
    prop "protocol" (str "https")
  ]);
  prop "portal_types" (VObj [
    prop "standard" (str "https://internal.awsapps.com/start");
    prop "organization" (str "https://d-{id}.awsapps.com/start");
    prop "custom" (str "https://{subdomain}.awsapps.com/start")
  ])
].

(** ** Validation *)

(** The array [supportedDomains] of [isValidAWSPortalURL]. *)
Definition supportedDomains : list jsstring :=
  lit <$> ["internal.awsapps.com"; "awsapps.com"; "docs.aws.amazon.com";
           "aws.amazon.com"; "console.aws.amazon.com"].

(** The callback of [supportedDomains.some]. *)
Definition matchesDomain (hostname domain : jsstring) : bool :=
  str_eq hostname domain || endsWith hostname (lit "." ++ domain).

Definition isValidAWSPortalURL `{UrlParser} (url : option jsstring) : bool :=
  match url with
  | None => false
  | Some url =>
      if negb (truthy_str url) then false
      else match url_hostname url with
           | Some h =>
               let hostname := toLowerCase h in
               existsb (matchesDomain hostname) supportedDomains
           | None => false
           end
  end.

(** ** Lookup by portal type *)

(** The object [portals] of [getAWSPortalURL]. *)
Definition portals : jsval := VObj [
  prop "main" (str "https://internal.awsapps.com/start");
  prop "sso" (str "https://internal.awsapps.com/start");
  prop "iam" (str "https://internal.awsapps.com/start");
  prop "identity_center" (str "https://internal.awsapps.com/start");
  prop "access" (str "https://internal.awsapps.com/start");
  prop "portal" (str "https://internal.awsapps.com/start");
  prop "default" (str "https://internal.awsapps.com/start")
].

Definition getAWSPortalURL (type : option jsstring) : jsval :=
  let type := default (lit "main") type in
  js_or (js_get portals (toLowerCase type))
    (str "https://internal.awsapps.com/start").

(** ** Normalisation *)

(** "Add protocol if missing" *)
Definition addProtocol (normalized : jsstring) : jsstring :=
  if negb (startsWith normalized (lit "http://"))
     && negb (startsWith normalized (lit "https://"))
  then lit "https://" ++ normalized
  else normalized.

(** "Add /start path if missing for awsapps.com domains" *)
Definition addStartPath (normalized : jsstring) : jsstring :=
  if includes normalized (lit "awsapps.com")
     && negb (endsWith normalized (lit "/start"))
  then normalized ++ lit "/start"
  else normalized.

Definition normalizeAWSPortalURL (url : option jsstring) : jsstring :=
  if negb (truthy_arg url) then lit "https://internal.awsapps.com/start"
  else addStartPath (addProtocol (trim (default [] url))).

(** The guard of [addProtocol], seen from the other side. *)
Definition hasProtocol (s : jsstring) : bool :=
  startsWith s (lit "http://") || startsWith s (lit "https://").

(** The strings normalisation leaves alone: a protocol in front, no white
    space at either end, and [/start] at the end of any string that
    mentions [awsapps.com]. *)
Definition is_normal (s : jsstring) : bool :=
  hasProtocol s && bool_decide (trim s = s)
  && (negb (includes s (lit "awsapps.com")) || endsWith s (lit "/start")).

(** ** Comparison, host extraction, construction *)

Definition mainPortal : jsstring := lit "https://internal.awsapps.com/start".

Definition isMainAWSPortal (url : option jsstring) : bool :=
  match url with
  | Some url => str_eq url mainPortal
  | None => false
  end.

(** [new URL(undefined)] parses the string ["undefined"]. *)
Definition getAWSPortalDomain `{UrlParser} (url : option jsstring)
  : option jsstring :=
  url_hostname (default (lit "undefined") url).

Definition buildAWSPortalURL (subdomain : option jsstring) : jsstring :=
  lit "https://" ++ default (lit "internal") subdomain
  ++ lit ".awsapps.com/start".

(** ** The configuration self-check *)

(** The two objects the function reads are bound by [const], and their
    properties can still be assigned: the function is given the objects as
    they are when it runs. *)
Definition validateAWSPortalConfig_with (AWS_IDENTITY_CENTER AWS_DOMAINS : jsval)
  : bool :=
  let isValid := true in
  let isValid :=
    if negb (strict_eq_str (js_path AWS_IDENTITY_CENTER ["MAIN_PORTAL"])
               (lit "https://internal.awsapps.com/start"))
    then false else isValid in
  let isValid :=
    if negb (strict_eq_str (js_path AWS_IDENTITY_CENTER ["PRIMARY_URL"])
               (lit "https://internal.awsapps.com/start"))
    then false else isValid in
  let isValid :=
    if negb (strict_eq_str (js_path AWS_DOMAINS ["INTERNAL"])
               (lit "internal.awsapps.com"))
    then false else isValid in
  let testURL := getAWSPortalURL (Some (lit "main")) in
  let isValid :=
    if negb (strict_eq_str testURL (lit "https://internal.awsapps.com/start"))
    then false else isValid in
  isValid.

(** The function on the objects as the file declares them. *)
Definition validateAWSPortalConfig : bool :=
  validateAWSPortalConfig_with AWS_IDENTITY_CENTER AWS_DOMAINS.

(** ** Navigation *)

(** What navigation changes of the browser window: the address it shows
    and the tabs it was asked to open, each with its target. *)
Record window : Type := Window {
  location_href : jsstring;
  opened : list (jsstring * jsstring);
}.

(** [w] is [None] where there is no [window]. *)
Definition navigateToAWSPortal (subdomain : option jsstring)
    (newTab : option bool) (w : option window) : option window :=
  let url := buildAWSPortalURL subdomain in
  match w with
  | Some w =>
      if default false newTab
      then Some (Window (location_href w) (opened w ++ [(url, lit "_blank")]))
      else Some (Window url (opened w))
  | None => None
  end.

(** The object [window.awsPortalRef], as far as its data goes. *)
Definition awsPortalRef_main : jsstring :=
  lit "https://internal.awsapps.com/start".

(** ** The addresses the specification describes *)

(** A label of a host name: letters, digits and hyphens, and no Punycode
    prefix. *)
Definition is_label_char (c : code_unit) : bool :=
  is_lower c || is_digit c || (c =? 45)%N.

Definition plain_label (l : jsstring) : bool :=
  negb (bool_decide (l = [])) && forallb is_label_char l
  && negb (startsWith l (lit "xn--")).

(** The two names of [Object.prototype] that are written in lower case,
    the only ones a lower-cased key can reach. *)
Definition lowercase_inherited : list jsstring :=
  lit <$> ["constructor"; "__proto__"].

(** The validator's list without the entries that another entry covers. *)
Definition parentDomains : list jsstring :=
  lit <$> ["awsapps.com"; "aws.amazon.com"].

(** ** Normalisation: lemmas *)

Section normalize_lemmas.
Implicit Types (s t : jsstring) (x : option jsstring).

Lemma addProtocol_unfold s :
  addProtocol s = if hasProtocol s then s else lit "https://" ++ s.
Proof.
  rw /addProtocol /hasProtocol.
  by destruct (startsWith s (lit "http://")), (startsWith s (lit "https://")).
Qed.

Lemma hasProtocol_app s t : hasProtocol s = true → hasProtocol (s ++ t) = true.
Proof.
  rw /hasProtocol !orb_true_iff. intros [?|?]; [left|right];
    by apply startsWith_app_r.
Qed.

Lemma hasProtocol_addProtocol s : hasProtocol (addProtocol s) = true.
Proof.
  rw addProtocol_unfold. destruct (hasProtocol s) eqn:Hs; [done|].
  rw /hasProtocol startsWith_app. apply orb_true_r.
Qed.

Lemma addProtocol_fixed s : hasProtocol s = true → addProtocol s = s.
Proof. intros Hs. by rw addProtocol_unfold Hs. Qed.

Lemma hasProtocol_head s : hasProtocol s = true → list.head s = Some 104%N.
Proof.
  rw /hasProtocol orb_true_iff !startsWith_spec. by intros [[l ->]|[l ->]].
Qed.

Lemma hasProtocol_nonempty s : hasProtocol s = true → s ≠ [].
Proof. by intros ?%hasProtocol_head ->. Qed.

Lemma addStartPath_app s :
  addStartPath s = s ∨ addStartPath s = s ++ lit "/start".
Proof. rw /addStartPath. case_branch; auto. Qed.

Lemma hasProtocol_addStartPath s :
  hasProtocol s = true → hasProtocol (addStartPath s) = true.
Proof.
  intros Hs. destruct (addStartPath_app s) as [->| ->]; [done|].
  by apply hasProtocol_app.
Qed.

Lemma addStartPath_closed s :
  negb (includes (addStartPath s) (lit "awsapps.com"))
  || endsWith (addStartPath s) (lit "/start") = true.
Proof.
  rw /addStartPath. destruct (includes s _) eqn:Hi; simpl.
  - destruct (endsWith s _) eqn:He; simpl.
    + by rw Hi He.
    + rw endsWith_app. apply orb_true_r.
  - by rw Hi.
Qed.

Lemma addStartPath_fixed s :
  negb (includes s (lit "awsapps.com")) || endsWith s (lit "/start") = true →
  addStartPath s = s.
Proof.
  rw /addStartPath. destruct (includes s _), (endsWith s _); by simpl.
Qed.

Lemma addStartPath_idemp s : addStartPath (addStartPath s) = addStartPath s.
Proof. apply addStartPath_fixed, addStartPath_closed. Qed.

Lemma ends_clear_addProtocol s :
  ends_clear isWhiteSpace s → ends_clear isWhiteSpace (addProtocol s).
Proof.
  intros Hs. rw addProtocol_unfold. destruct (hasProtocol s); [done|].
  apply ends_clear_app; [done| |done]. by split; intros c [= <-].
Qed.

Lemma ends_clear_addStartPath s :
  s ≠ [] → ends_clear isWhiteSpace s →
  ends_clear isWhiteSpace (addStartPath s).
Proof.
  intros Hne Hs. destruct (addStartPath_app s) as [->| ->]; [done|].
  apply ends_clear_app; [done..|]. by split; intros c [= <-].
Qed.

Lemma normalize_unfold x :
  truthy_arg x = true →
  normalizeAWSPortalURL x = addStartPath (addProtocol (trim (default [] x))).
Proof. intros Hx. by rw /normalizeAWSPortalURL Hx. Qed.

Lemma is_normal_spec s :
  is_normal s = true ↔
  hasProtocol s = true ∧ ends_clear isWhiteSpace s
  ∧ negb (includes s (lit "awsapps.com")) || endsWith s (lit "/start") = true.
Proof.
  rw /is_normal !andb_true_iff bool_decide_eq_true /trim strip_fixed_iff.
  tauto.
Qed.

Lemma is_normal_pipeline s :
  is_normal (addStartPath (addProtocol (trim s))) = true.
Proof.
  apply is_normal_spec. split_and!.
  - apply hasProtocol_addStartPath, hasProtocol_addProtocol.
  - apply ends_clear_addStartPath.
    + apply hasProtocol_nonempty, hasProtocol_addProtocol.
    + apply ends_clear_addProtocol, trim_ends_clear.
  - apply addStartPath_closed.
Qed.

End normalize_lemmas.

(** ** Normalisation: theorems *)

Section normalize_theorems.
Implicit Types (s t : jsstring) (x : option jsstring).

Lemma normalize_normal x : is_normal (normalizeAWSPortalURL x) = true.
Proof.
  rw /normalizeAWSPortalURL. destruct (truthy_arg x); simpl.
  - apply is_normal_pipeline.
  - by vm_compute.
Qed.

Lemma normalize_fixed s :
  is_normal s = true → normalizeAWSPortalURL (Some s) = s.
Proof.
  intros (Hp & Hc & Ha)%is_normal_spec. rw normalize_unfold.
  { by apply truthy_str_spec, hasProtocol_nonempty. }
  by rw /= trim_fixed // addProtocol_fixed // addStartPath_fixed.
Qed.

(** C1: normalising twice is normalising once, for every argument, the
    absent and the empty one included. *)
Theorem normalize_idempotent x :
  normalizeAWSPortalURL (Some (normalizeAWSPortalURL x))
  = normalizeAWSPortalURL x.
Proof. apply normalize_fixed, normalize_normal. Qed.

(** C5: whatever its argument, [normalizeAWSPortalURL] returns a string
    that starts with [http://] or [https://], has no white space at either
    end, and ends with [/start] if it mentions [awsapps.com]. *)
Theorem normalize_shape x :
  let r := normalizeAWSPortalURL x in
  (startsWith r (lit "http://") = true ∨ startsWith r (lit "https://") = true)
  ∧ trim r = r
  ∧ (includes r (lit "awsapps.com") = true → endsWith r (lit "/start") = true).
Proof.
  cbv zeta. pose proof (normalize_normal x) as (Hp & Hc & Ha)%is_normal_spec.
  split_and!.
  - by apply orb_true_iff.
  - by apply trim_fixed.
  - intros Hi. by rw Hi in Ha.
Qed.

(** C12: the strings [normalizeAWSPortalURL] returns unchanged are exactly
    those in normal form. *)
Theorem normalize_fixed_iff s :
  normalizeAWSPortalURL (Some s) = s ↔ is_normal s = true.
Proof.
  split; [|apply normalize_fixed]. intros <-. apply normalize_normal.
Qed.

(** An absent or empty argument yields the main portal address. *)
Theorem normalize_default x :
  truthy_arg x = false → normalizeAWSPortalURL x = mainPortal.
Proof. intros Hx. by rw /normalizeAWSPortalURL Hx. Qed.

Lemma normalize_default_witness : normalizeAWSPortalURL (Some []) = mainPortal.
Proof. by apply normalize_default. Defined.

(** A string with a protocol keeps it: [http://] is not upgraded to
    [https://]. *)
Theorem normalize_keeps_http s :
  ends_clear isWhiteSpace s →
  normalizeAWSPortalURL (Some (lit "http://" ++ s ++ lit "/start"))
  = lit "http://" ++ s ++ lit "/start".
Proof.
  intros Hs. apply normalize_fixed, is_normal_spec. split_and!.
  - by rw /hasProtocol startsWith_app.
  - apply ends_clear_surround; [done..| |]; by split; intros c [= <-].
  - rw (app_assoc _ s) endsWith_app. apply orb_true_r.
Qed.

Lemma normalize_keeps_http_witness :
  normalizeAWSPortalURL (Some (lit "http://internal.awsapps.com/start"))
  = lit "http://internal.awsapps.com/start".
Proof.
  apply (normalize_keeps_http (lit "internal.awsapps.com")).
  by split; intros c [= <-].
Defined.

End normalize_theorems.

(** ** Construction and comparison *)

Section build_theorems.
Implicit Types (s t : jsstring) (x : option jsstring).

Lemma build_unfold x :
  buildAWSPortalURL x
  = lit "https://" ++ (default (lit "internal") x ++ lit ".awsapps.com")
    ++ lit "/start".
Proof. by rw /buildAWSPortalURL -!app_assoc. Qed.

Lemma build_some s :
  buildAWSPortalURL (Some s) = lit "https://" ++ s ++ lit ".awsapps.com/start".
Proof. done. Qed.

Lemma build_is_normal x : is_normal (buildAWSPortalURL x) = true.
Proof.
  apply is_normal_spec. rw build_unfold. split_and!.
  - rw /hasProtocol startsWith_app. apply orb_true_r.
  - apply ends_clear_surround; [done..| |]; by split; intros c [= <-].
  - rw !app_assoc endsWith_app. apply orb_true_r.
Qed.

(** C17: an address built by [buildAWSPortalURL] is already normal:
    [normalizeAWSPortalURL] returns it unchanged, whatever the subdomain. *)
Theorem normalize_build x :
  normalizeAWSPortalURL (Some (buildAWSPortalURL x)) = buildAWSPortalURL x.
Proof. apply normalize_fixed, build_is_normal. Qed.

Lemma build_inj s t :
  buildAWSPortalURL (Some s) = buildAWSPortalURL (Some t) → s = t.
Proof.
  rw !build_some. intros H%app_inv_head. by apply app_inv_tail in H.
Qed.

Lemma isMain_iff x : isMainAWSPortal x = true ↔ x = Some mainPortal.
Proof.
  destruct x as [s|]; simpl; [|by split]. rw str_eq_spec. naive_solver.
Qed.

(** C18: [buildAWSPortalURL] is injective, and [isMainAWSPortal] accepts
    the main portal address only: a built address passes the comparison
    exactly for the subdomain [internal]. *)
Theorem isMain_build s :
  isMainAWSPortal (Some (buildAWSPortalURL (Some s))) = true ↔ s = lit "internal".
Proof.
  rw isMain_iff. split; [|by intros ->].
  intros H%(inj Some). apply build_inj. exact H.
Qed.

End build_theorems.

(** ** Validation and host extraction, over any parser *)

Section url_lemmas.
Implicit Types (s t l h d : jsstring) (x : option jsstring).

Lemma label_char_host_char c : is_label_char c = true → is_host_char c = true.
Proof.
  rw /is_label_char /is_host_char !orb_true_iff.
  intros [[?|?]| ->%N.eqb_eq]; [auto..|]. by right.
Qed.

Lemma plain_label_inv l :
  plain_label l = true →
  l ≠ [] ∧ forallb is_host_char l = true ∧ (46%N ∉ l)
  ∧ startsWith l (lit "xn--") = false.
Proof.
  rw /plain_label !andb_true_iff !negb_true_iff bool_decide_eq_false.
  intros [[Hne Hl%forallb_true_Forall] Hx]. split_and!; [done| |..|done].
  - apply forallb_true_Forall. eapply Forall_impl; [done|].
    apply label_char_host_char.
  - eapply not_elem_of_Forall; [done|]. by simpl.
Qed.

Lemma labels_awsapps l :
  46%N ∉ l → labels (l ++ lit ".awsapps.com") = [l; lit "awsapps"; lit "com"].
Proof.
  intros Hl. change (lit ".awsapps.com") with (46%N :: lit "awsapps.com").
  by rw /labels split_on_app_sep.
Qed.

Lemma plain_label_host l :
  plain_label l = true → plain_host (l ++ lit ".awsapps.com") = true.
Proof.
  intros (Hne & Hl & Hdot & Hx)%plain_label_inv.
  rw /plain_host /has_punycode_label /ends_in_number /last_label.
  rw labels_awsapps // forallb_app Hl /= host_toLowerCase // Hx.
  rw bool_decide_eq_false_2; [by destruct l|done].
Qed.

Lemma matchesDomain_spec h d :
  matchesDomain h d = true ↔ h = d ∨ (lit "." ++ d) `suffix_of` h.
Proof. by rw /matchesDomain orb_true_iff str_eq_spec endsWith_spec. Qed.

Lemma matchesDomain_sub h d d' :
  (lit "." ++ d) `suffix_of` d' →
  matchesDomain h d' = true → matchesDomain h d = true.
Proof.
  rw /matchesDomain !orb_true_iff str_eq_spec !endsWith_spec.
  intros Hd [->|Hh]; right; [done|]. etrans; [done|].
  etrans; [|done]. by apply suffix_app_r.
Qed.

(** Every entry of [supportedDomains] is covered by a parent domain. *)
Lemma supported_covered h d :
  d ∈ supportedDomains → matchesDomain h d = true →
  ∃ p, p ∈ parentDomains ∧ matchesDomain h p = true.
Proof.
  rw /supportedDomains /parentDomains /= !elem_of_cons elem_of_nil.
  intros [->|[->|[->|[->|[->|[]]]]]] Hm.
  - exists (lit "awsapps.com"). split; [by left|].
    eapply matchesDomain_sub; [|done]. by apply (bool_decide_unpack _).
  - exists (lit "awsapps.com"). split; [by left | done].
  - exists (lit "aws.amazon.com"). split; [by right; left|].
    eapply matchesDomain_sub; [|done]. by apply (bool_decide_unpack _).
  - exists (lit "aws.amazon.com"). split; [by right; left | done].
  - exists (lit "aws.amazon.com"). split; [by right; left|].
    eapply matchesDomain_sub; [|done]. by apply (bool_decide_unpack _).
Qed.

Lemma parent_supported p : p ∈ parentDomains → p ∈ supportedDomains.
Proof.
  rw /supportedDomains /parentDomains /= !elem_of_cons elem_of_nil.
  intros [->|[->|[]]]; auto.
Qed.

Lemma existsb_elem_of (f : jsstring → bool) (ds : list jsstring) :
  existsb f ds = true ↔ ∃ d, d ∈ ds ∧ f d = true.
Proof.
  rw existsb_exists. by setoid_rewrite list_elem_of_In.
Qed.

End url_lemmas.

Section url_theorems.
Context `{UrlParser}.
Implicit Types (s t l h d u : jsstring) (x : option jsstring).

Lemma isValid_unfold u :
  isValidAWSPortalURL (Some u) =
  truthy_str u &&
  from_option (λ h, existsb (matchesDomain (toLowerCase h)) supportedDomains)
    false (url_hostname u).
Proof.
  rw /isValidAWSPortalURL. destruct (truthy_str u); [|done].
  by destruct (url_hostname u).
Qed.

Lemma isValid_intro u h p :
  u ≠ [] → url_hostname u = Some h → p ∈ parentDomains →
  matchesDomain (toLowerCase h) p = true →
  isValidAWSPortalURL (Some u) = true.
Proof.
  intros Hu Hh Hp Hm. rw isValid_unfold Hh andb_true_iff truthy_str_spec.
  split; [done|]. apply existsb_elem_of. exists p.
  by split; [apply parent_supported|].
Qed.

(** C2: [isValidAWSPortalURL] accepts exactly the non-empty strings that
    parse as a URL whose lower-cased host name is [awsapps.com] or
    [aws.amazon.com] or ends with a dot and one of the two: the three other
    entries of [supportedDomains] add nothing. *)
Theorem isValid_spec x :
  isValidAWSPortalURL x = true ↔
  ∃ u h p, x = Some u ∧ u ≠ [] ∧ url_hostname u = Some h
    ∧ p ∈ [lit "awsapps.com"; lit "aws.amazon.com"]
    ∧ (toLowerCase h = p ∨ (lit "." ++ p) `suffix_of` toLowerCase h).
Proof.
  destruct x as [u|]; [|split; [done|by intros (?&?&?&?&_)]]. split.
  - rw isValid_unfold andb_true_iff truthy_str_spec. intros [Hu Hm].
    destruct (url_hostname u) as [h|] eqn:Hh; [|done].
    apply existsb_elem_of in Hm as (d & Hd & Hm).
    destruct (supported_covered _ d Hd Hm) as (p & Hp & Hpm%matchesDomain_spec).
    by exists u, h, p.
  - intros (? & h & p & [= <-] & Hu & Hh & Hp & Hm%matchesDomain_spec).
    by apply (isValid_intro u h p).
Qed.

(** C29: a string without a colon is never a valid portal address, whatever
    it mentions. *)
Theorem isValid_no_colon u : 58%N ∉ u → isValidAWSPortalURL (Some u) = false.
Proof.
  intros Hu. rw isValid_unfold url_hostname_no_colon //. apply andb_false_r.
Qed.

(** [getAWSPortalDomain] returns [null] for a string without a colon,
    and for an absent argument, which the constructor reads as the string
    [undefined]. *)
Theorem getDomain_no_colon x :
  58%N ∉ default (lit "undefined") x → getAWSPortalDomain x = None.
Proof. apply url_hostname_no_colon. Qed.

Lemma build_host l :
  plain_label l = true →
  getAWSPortalDomain (Some (buildAWSPortalURL (Some l)))
  = Some (l ++ lit ".awsapps.com").
Proof.
  intros Hl. rw /getAWSPortalDomain /= (build_unfold (Some l)).
  by apply url_hostname_https; [apply plain_label_host|].
Qed.

Lemma build_valid l :
  plain_label l = true →
  isValidAWSPortalURL (Some (buildAWSPortalURL (Some l))) = true.
Proof.
  intros Hl. pose proof (plain_label_host l Hl) as (_ & Hh & _)%plain_host_inv.
  apply (isValid_intro _ (l ++ lit ".awsapps.com") (lit "awsapps.com"));
    [by rw build_some|by apply (build_host l)|by left|].
  rw host_toLowerCase // /matchesDomain endsWith_app. apply orb_true_r.
Qed.

End url_theorems.

Lemma isValid_no_colon_witness :
  isValidAWSPortalURL (Some (lit "internal.awsapps.com/start")) = false.
Proof. apply isValid_no_colon. by apply (bool_decide_unpack _). Defined.

Lemma getDomain_no_colon_witness : getAWSPortalDomain None = None.
Proof. apply getDomain_no_colon. by apply (bool_decide_unpack _). Defined.


(** ** Lookup by portal type, configuration check, navigation *)

Section lookup_theorems.
Implicit Types (s t k : jsstring) (x : option jsstring).

Lemma portals_own k v :
  get_own (own_props portals) k = Some v →
  v = VStr mainPortal ∧ k ∉ lowercase_inherited.
Proof.
  intros Hin%get_own_Some.
  assert (Forall (λ kv, strict_eq_str kv.2 mainPortal = true
                        ∧ kv.1 ∉ lowercase_inherited) (own_props portals))
    as Hall by by apply (bool_decide_unpack _).
  rw Forall_forall in Hall. destruct (Hall _ Hin) as [Hv Hk].
  by apply strict_eq_str_spec in Hv.
Qed.

Lemma lowercase_inherited_spec k :
  toLowerCase k = k →
  k ∈ object_prototype_names ↔ k ∈ lowercase_inherited.
Proof.
  intros Hk. split.
  - rw /object_prototype_names /= !elem_of_cons elem_of_nil.
    intros Hin; destruct_or!; try done; subst k;
      first [by apply (bool_decide_unpack _) | by vm_compute in Hk].
  - intros Hin.
    assert (Forall (λ k, k ∈ object_prototype_names) lowercase_inherited)
      as Hall by by apply (bool_decide_unpack _).
    by eapply Forall_forall in Hall.
Qed.

Lemma getAWSPortalURL_cases x :
  getAWSPortalURL x =
  let key := toLowerCase (default (lit "main") x) in
  if bool_decide (key ∈ lowercase_inherited) then VBuiltin key
  else VStr mainPortal.
Proof.
  rw /getAWSPortalURL. cbv zeta. set (key := toLowerCase _).
  assert (toLowerCase key = key) as Hkey by apply toLowerCase_idemp.
  change portals with (VObj (own_props portals)).
  destruct (get_own (own_props portals) key) as [v|] eqn:Hown.
  - rw (js_get_own _ _ _ Hown). apply portals_own in Hown as [-> Hk].
    by rw bool_decide_eq_false_2.
  - case_bool_decide as Hp.
    + rw js_get_inherited //. by apply lowercase_inherited_spec.
    + rw js_get_undefined //. by rw lowercase_inherited_spec.
Qed.

(** C9: for every type, known or not, whose lower-cased name is not
    [constructor] or [__proto__], and for no type at all, [getAWSPortalURL]
    returns the main portal address. *)
Theorem getAWSPortalURL_main x :
  toLowerCase (default (lit "main") x) ∉ lowercase_inherited →
  getAWSPortalURL x = VStr mainPortal.
Proof. intros Hx. rw getAWSPortalURL_cases. cbv zeta. by rw bool_decide_eq_false_2. Qed.

Lemma getAWSPortalURL_main_witness :
  getAWSPortalURL (Some (lit "SSO")) = VStr mainPortal.
Proof. apply getAWSPortalURL_main. by apply (bool_decide_unpack _). Defined.

(** C14: for a type whose lower-cased name is [constructor] or [__proto__],
    a property that every object inherits, [getAWSPortalURL] returns the
    inherited value, which is not a string, against its documentation. *)
Theorem getAWSPortalURL_inherited x :
  let key := toLowerCase (default (lit "main") x) in
  key ∈ lowercase_inherited →
  getAWSPortalURL x = VBuiltin key ∧ is_string (getAWSPortalURL x) = false.
Proof.
  cbv zeta. intros Hx. rw getAWSPortalURL_cases. cbv zeta.
  by rw bool_decide_eq_true_2.
Qed.

Lemma getAWSPortalURL_inherited_witness :
  getAWSPortalURL (Some (lit "Constructor")) = VBuiltin (lit "constructor")
  ∧ is_string (getAWSPortalURL (Some (lit "Constructor"))) = false.
Proof.
  apply (getAWSPortalURL_inherited (Some (lit "Constructor"))).
  by apply (bool_decide_unpack _).
Defined.

(** C36: the configuration self-check accepts exactly the objects whose
    [MAIN_PORTAL], [PRIMARY_URL] and [INTERNAL] are the three expected
    strings: its fourth check, of [getAWSPortalURL('main')], passes
    whatever the objects hold.  The objects of the file pass. *)
Theorem validateAWSPortalConfig_spec (ic d : jsval) :
  (validateAWSPortalConfig_with ic d = true
   ↔ js_get ic (lit "MAIN_PORTAL") = VStr mainPortal
     ∧ js_get ic (lit "PRIMARY_URL") = VStr mainPortal
     ∧ js_get d (lit "INTERNAL") = str "internal.awsapps.com")
  ∧ validateAWSPortalConfig = true.
Proof.
  split; [|done]. rw /validateAWSPortalConfig_with !js_path_cons !js_path_nil.
  rw -!strict_eq_str_spec.
  by destruct (strict_eq_str (js_get ic _) _), (strict_eq_str (js_get ic _) _),
    (strict_eq_str (js_get d _) _); split; try done; intros (? & ? & ?).
Qed.

End lookup_theorems.

(** ** Bare host names, navigation, and the resolver as a whole *)

Section bare_host.
Implicit Types (s t l h : jsstring).

Lemma host_ends_clear h :
  forallb is_host_char h = true → ends_clear isWhiteSpace h.
Proof.
  intros Hh. pose proof (host_chars_Forall (λ c, isWhiteSpace c = false) h
                           eq_refl Hh) as Hall.
  split; intros c Hc;
    [exact (Forall_head _ _ _ Hall Hc) | exact (Forall_last _ _ _ Hall Hc)].
Qed.

Lemma host_no_protocol h :
  forallb is_host_char h = true → hasProtocol h = false.
Proof.
  intros Hh. apply not_true_iff_false.
  rw /hasProtocol orb_true_iff !startsWith_spec.
  assert (58%N ∉ h) as Hc by by apply host_not_elem_of.
  intros [[l ->]|[l ->]]; apply Hc, elem_of_app; left;
    by apply (bool_decide_unpack _).
Qed.

Lemma host_no_start h :
  forallb is_host_char h = true → 6 ≤ length h →
  endsWith (lit "https://" ++ h) (lit "/start") = false.
Proof.
  intros Hh Hlen. apply not_true_iff_false. intros Hs%endsWith_spec.
  apply suffix_app_short in Hs; [|done].
  apply (host_not_elem_of h 47%N Hh eq_refl).
  eapply elem_of_suffix; [|done]. by left.
Qed.

Lemma normalize_bare_host h :
  forallb is_host_char h = true → includes h (lit "awsapps.com") = true →
  normalizeAWSPortalURL (Some h) = lit "https://" ++ h ++ lit "/start".
Proof.
  intros Hh Hinc.
  assert (11 ≤ length h) as Hlen
    by by apply includes_spec, infix_of_length in Hinc.
  rw normalize_unfold /=.
  { apply truthy_str_spec. intros ->. simpl in Hlen. lia. }
  rw trim_fixed; [by apply host_ends_clear|].
  rw addProtocol_unfold host_no_protocol // /addStartPath.
  rw (includes_app_l _ _ _ Hinc) (host_no_start h Hh); [lia|].
  by rw -app_assoc.
Qed.

End bare_host.

Section resolver.
Context `{UrlParser}.
Implicit Types (s t l h : jsstring) (w : window).

(** C6: the resolver's functions agree on the addresses of organisations:
    for a plain label, normalising the bare host gives the built address,
    which validation accepts and whose host is the bare host again. *)
Theorem resolver_roundtrip l :
  plain_label l = true →
  let url := normalizeAWSPortalURL (Some (l ++ lit ".awsapps.com")) in
  url = buildAWSPortalURL (Some l)
  ∧ isValidAWSPortalURL (Some url) = true
  ∧ getAWSPortalDomain (Some url) = Some (l ++ lit ".awsapps.com").
Proof.
  intros Hl. cbv zeta.
  pose proof (plain_label_host l Hl) as (_ & Hh & _)%plain_host_inv.
  rw normalize_bare_host // ?includes_app_l //.
  rw -(build_unfold (Some l)). split_and!; [done|..].
  - by apply build_valid.
  - by apply build_host.
Qed.

(** C35: navigation to a plain label in a new tab leaves the address of
    the window alone and opens one tab more, with the target [_blank], at
    an address that validation accepts and whose host is the label under
    [awsapps.com]. *)
Theorem navigate_new_tab l w :
  plain_label l = true →
  ∃ w' url, navigateToAWSPortal (Some l) (Some true) (Some w) = Some w'
    ∧ location_href w' = location_href w
    ∧ opened w' = opened w ++ [(url, lit "_blank")]
    ∧ isValidAWSPortalURL (Some url) = true
    ∧ getAWSPortalDomain (Some url) = Some (l ++ lit ".awsapps.com").
Proof.
  intros Hl. eexists _, _. split_and!; [done..| |].
  - by apply build_valid.
  - by apply build_host.
Qed.

(** With the default arguments navigation ends on the main portal. *)
Theorem navigate_default_main w :
  location_href <$> navigateToAWSPortal None None (Some w) = Some mainPortal.
Proof. reflexivity. Qed.

(** C22: navigation to a plain label in the same tab ends on an address
    that validation accepts and whose host is the label under
    [awsapps.com]. *)
Theorem navigate_valid l w :
  plain_label l = true →
  ∃ w', navigateToAWSPortal (Some l) None (Some w) = Some w'
    ∧ isValidAWSPortalURL (Some (location_href w')) = true
    ∧ getAWSPortalDomain (Some (location_href w'))
      = Some (l ++ lit ".awsapps.com")
    ∧ opened w' = opened w.
Proof.
  intros Hl. eexists. split; [done|]. simpl. split_and!; [..|done].
  - by apply build_valid.
  - by apply build_host.
Qed.

End resolver.

Lemma resolver_roundtrip_witness :
  let url := normalizeAWSPortalURL (Some (lit "myorg" ++ lit ".awsapps.com")) in
  url = buildAWSPortalURL (Some (lit "myorg"))
  ∧ isValidAWSPortalURL (Some url) = true
  ∧ getAWSPortalDomain (Some url) = Some (lit "myorg" ++ lit ".awsapps.com").
Proof. by apply (resolver_roundtrip (lit "myorg")). Defined.

Lemma navigate_new_tab_witness :
  ∃ w' url,
    navigateToAWSPortal (Some (lit "myorg")) (Some true) (Some (Window [] []))
    = Some w'
    ∧ location_href w' = location_href (Window [] [])
    ∧ opened w' = opened (Window [] []) ++ [(url, lit "_blank")]
    ∧ isValidAWSPortalURL (Some url) = true
    ∧ getAWSPortalDomain (Some url) = Some (lit "myorg" ++ lit ".awsapps.com").
Proof. by apply (navigate_new_tab (lit "myorg")). Defined.

Lemma navigate_valid_witness :
  ∃ w', navigateToAWSPortal (Some (lit "myorg")) None (Some (Window [] []))
        = Some w'
    ∧ isValidAWSPortalURL (Some (location_href w')) = true
    ∧ getAWSPortalDomain (Some (location_href w'))
      = Some (lit "myorg" ++ lit ".awsapps.com")
    ∧ opened w' = opened (Window [] []).
Proof. by apply (navigate_valid (lit "myorg")). Defined.

(** ** The examples of the specification, and where the code departs from
    its documentation *)

Section examples.

(** The examples the specification gives for normalisation, host
    extraction and comparison hold, the parser being the reference one. *)
Theorem spec_examples :
  buildAWSPortalURL None = lit "https://internal.awsapps.com/start"
  ∧ buildAWSPortalURL (Some (lit "myorg"))
    = lit "https://myorg.awsapps.com/start"
  ∧ normalizeAWSPortalURL (Some (lit "internal.awsapps.com/start"))
    = lit "https://internal.awsapps.com/start"
  ∧ normalizeAWSPortalURL (Some (lit ""))
    = lit "https://internal.awsapps.com/start"
  ∧ normalizeAWSPortalURL (Some (lit "d-12345678ab.awsapps.com"))
    = lit "https://d-12345678ab.awsapps.com/start"
  ∧ getAWSPortalDomain (Some (lit "https://internal.awsapps.com/start"))
    = Some (lit "internal.awsapps.com")
  ∧ getAWSPortalDomain (Some (lit "not a url")) = None
  ∧ isMainAWSPortal (Some (lit "https://internal.awsapps.com/start")) = true
  ∧ isMainAWSPortal (Some (lit "https://internal.awsapps.com/start/"))
    = false.
Proof. by vm_compute. Qed.

(** Validation looks at the host only: an [http] address and an
    address of an unknown scheme are accepted. *)
Theorem isValid_any_scheme :
  isValidAWSPortalURL (Some (lit "http://internal.awsapps.com/start")) = true
  ∧ isValidAWSPortalURL (Some (lit "gopher://x.awsapps.com")) = true.
Proof. by vm_compute. Qed.

End examples.

(** ** Where the resolver leaves the addresses of the portal *)

Section departures.
Context `{UrlParser}.
Implicit Types (s t h rest u : jsstring) (w : window).

Lemma host_valid_iff u h :
  u ≠ [] → plain_host h = true → url_hostname u = Some h →
  isValidAWSPortalURL (Some u) = existsb (matchesDomain h) supportedDomains.
Proof.
  intros Hu (_ & Hh & _)%plain_host_inv Hp.
  rw isValid_unfold Hp (proj2 (truthy_str_spec u) Hu). cbn [from_option andb].
  by rw host_toLowerCase.
Qed.

Lemma after_host_app rest t :
  rest ≠ [] → after_host rest = true → after_host (rest ++ t) = true.
Proof. by destruct rest. Qed.

(** A trimmed address with a protocol goes to the step that appends the
    path as it is. *)
Lemma normalize_with_protocol u :
  hasProtocol u = true → trim u = u →
  normalizeAWSPortalURL (Some u) = addStartPath u.
Proof.
  intros Hp Ht. rw normalize_unfold /=.
  { by apply truthy_str_spec, hasProtocol_nonempty. }
  by rw Ht addProtocol_fixed.
Qed.

(** C31: [/start] is appended to the end of the whole string: an address
    with a protocol and without white space at its ends that mentions
    [awsapps.com] anywhere and does not end in [/start] gets [/start]
    after whatever it ends in, a path, a query or a fragment. *)
Theorem normalize_appends_after_path u :
  hasProtocol u = true → trim u = u →
  includes u (lit "awsapps.com") = true → endsWith u (lit "/start") = false →
  normalizeAWSPortalURL (Some u) = u ++ lit "/start".
Proof.
  intros Hp Ht Hi He. by rw normalize_with_protocol // /addStartPath Hi He.
Qed.

(** C32: normalisation does not look at the host: an [https] address of
    any host that mentions [awsapps.com] after the host gets [/start]
    appended and keeps its host, so that the result is a valid portal
    address only if the host it had is one. *)
Theorem normalize_foreign_host h rest :
  let u := lit "https://" ++ h ++ rest in
  plain_host h = true → after_host rest = true → trim u = u →
  includes rest (lit "awsapps.com") = true → endsWith u (lit "/start") = false →
  normalizeAWSPortalURL (Some u) = u ++ lit "/start"
  ∧ getAWSPortalDomain (Some (u ++ lit "/start")) = Some h
  ∧ isValidAWSPortalURL (Some (u ++ lit "/start"))
    = existsb (matchesDomain h) supportedDomains.
Proof.
  intros u Hh Hr Ht Hi He.
  assert (rest ≠ []) as Hne by by intros ->.
  assert (url_hostname (u ++ lit "/start") = Some h) as Hu.
  { rw /u -!app_assoc. apply url_hostname_https; [done|].
    by apply after_host_app. }
  split_and!; [|done|by apply host_valid_iff].
  rw normalize_with_protocol // /addStartPath He andb_true_r.
  by rw (includes_app_l (h ++ rest)) ?includes_app_l.
Qed.

(** C33: a subdomain is interpolated as it is: when it holds a host
    followed by a slash, a question mark or a hash, navigation goes to
    that host, and the address is a valid portal address only if that
    host is one. *)
Theorem navigate_foreign_host h rest w :
  plain_host h = true → after_host rest = true → rest ≠ [] →
  ∃ w', navigateToAWSPortal (Some (h ++ rest)) None (Some w) = Some w'
    ∧ location_href w'
      = lit "https://" ++ h ++ rest ++ lit ".awsapps.com/start"
    ∧ getAWSPortalDomain (Some (location_href w')) = Some h
    ∧ isValidAWSPortalURL (Some (location_href w'))
      = existsb (matchesDomain h) supportedDomains.
Proof.
  intros Hh Hr Hne. eexists. split; [done|]. cbn [location_href].
  rw build_some -!app_assoc.
  assert (url_hostname
            (lit "https://" ++ h ++ rest ++ lit ".awsapps.com/start")
          = Some h) as Hu
    by by apply url_hostname_https; [|apply after_host_app].
  split_and!; [done..|]. by apply host_valid_iff.
Qed.

End departures.

Lemma normalize_appends_after_path_witness :
  normalizeAWSPortalURL (Some (lit "https://internal.awsapps.com/start?x=1"))
  = lit "https://internal.awsapps.com/start?x=1" ++ lit "/start".
Proof. by apply normalize_appends_after_path. Defined.

Lemma normalize_foreign_host_witness :
  let u := lit "https://" ++ lit "example.org" ++ lit "/?ref=awsapps.com" in
  normalizeAWSPortalURL (Some u) = u ++ lit "/start"
  ∧ getAWSPortalDomain (Some (u ++ lit "/start")) = Some (lit "example.org")
  ∧ isValidAWSPortalURL (Some (u ++ lit "/start"))
    = existsb (matchesDomain (lit "example.org")) supportedDomains.
Proof.
  by apply (normalize_foreign_host (lit "example.org")
              (lit "/?ref=awsapps.com")).
Defined.

Lemma navigate_foreign_host_witness :
  ∃ w', navigateToAWSPortal (Some (lit "example.org" ++ lit "/#")) None
          (Some (Window [] [])) = Some w'
    ∧ location_href w'
      = lit "https://" ++ lit "example.org" ++ lit "/#"
        ++ lit ".awsapps.com/start"
    ∧ getAWSPortalDomain (Some (location_href w')) = Some (lit "example.org")
    ∧ isValidAWSPortalURL (Some (location_href w'))
      = existsb (matchesDomain (lit "example.org")) supportedDomains.
Proof. by apply (navigate_foreign_host (lit "example.org") (lit "/#")). Defined.
