(* ===== verification/Constants.v ===== *)
(** * The constants of [src/aws-portal-constants.js]

    Each constant object of the module is an object literal with its
    properties in source order, and the three functions of
    [PORTAL_VALIDATORS] are definitions; the object itself holds them by
    name.  [isValidPortalURL] returns [true], a match array or [null]; the
    model gives the truthiness of what it returns.

    The theorems say which strings the validators accept, how they relate
    to the resolver of [src/aws-utilities.js], and that the constants agree
    with each other. *)

From Corelib Require Import ssreflect_rw.
From stdpp Require Import strings.
From S2P Require Import Prelude JsString JsValue Url Regex Utilities.

(** ** Constant objects *)

Definition PORTAL_URLS : jsval := VObj [
  prop "MAIN" (str "https://internal.awsapps.com/start");
  prop "STANDARD" (str "https://internal.awsapps.com/start");
  prop "PRIMARY" (str "https://internal.awsapps.com/start");
  prop "DEFAULT" (str "https://internal.awsapps.com/start");
  prop "ENTRY" (str "https://internal.awsapps.com/start");
  prop "HOME" (str "https://internal.awsapps.com/start");
  prop "ACCESS" (str "https://internal.awsapps.com/start");
  prop "ROOT" (str "https://internal.awsapps.com/start");
  prop "ENDPOINT" (str "https://internal.awsapps.com/start");
  prop "REDIRECT" (str "https://internal.awsapps.com/start");
  prop "LOGIN" (str "https://internal.awsapps.com/start");
  prop "SSO" (str "https://internal.awsapps.com/start");
  prop "IDENTITY_CENTER" (str "https://internal.awsapps.com/start");
  prop "START" (str "https://internal.awsapps.com/start");
  prop "BASE" (str "https://internal.awsapps.com");
  prop "PROTOCOL_BASE" (str "https://internal.awsapps.com")
].

Definition DOMAIN_CONSTANTS : jsval := VObj [
  prop "INTERNAL_DOMAIN" (str "internal.awsapps.com");
  prop "AWSAPPS_DOMAIN" (str "awsapps.com");
  prop "DOCS_DOMAIN" (str "docs.aws.amazon.com");
  prop "AWS_DOMAIN" (str "aws.amazon.com");
  prop "CONSOLE_DOMAIN" (str "console.aws.amazon.com");
  prop "PORTAL_HOST" (str "internal.awsapps.com");
  prop "PORTAL_HOSTNAME" (str "internal.awsapps.com")
].

Definition PATH_CONSTANTS : jsval := VObj [
  prop "START_PATH" (str "/start");
  prop "ROOT_PATH" (str "/");
  prop "HOME_PATH" (str "/start");
  prop "API_PATH" (str "/api");
  prop "ACCESS_PATH" (str "/start")
].

Definition PROTOCOL_CONSTANTS : jsval := VObj [
  prop "HTTPS" (str "https");
  prop "HTTP" (str "http");
  prop "DEFAULT" (str "https");
  prop "SECURE" (str "https")
].

Definition PORTAL_CONFIG : jsval := VObj [
  prop "name" (str "AWS IAM Identity Center Portal");
  prop "description" (str "Primary AWS IAM Identity Center access portal");
  prop "version" (str "1.0.0");
  prop "url" (str "https://internal.awsapps.com/start");
  prop "domain" (str "internal.awsapps.com");
  prop "hostname" (str "internal.awsapps.com");
  prop "protocol" (str "https");
  prop "path" (str "/start");
  prop "port" (VNum 443);
  prop "baseURL" (str "https://internal.awsapps.com");
  prop "fullURL" (str "https://internal.awsapps.com/start");
  prop "type" (str "identity_center");
  prop "environment" (str "production");
  prop "region" (str "global");
  prop "availability" (str "public")
].

Definition PORTAL_ENDPOINTS : jsval := VObj [
  prop "main" (str "https://internal.awsapps.com/start");
  prop "home" (str "https://internal.awsapps.com/start");
  prop "access" (str "https://internal.awsapps.com/start");
  prop "api" (str "https://internal.awsapps.com/api");
  prop "applications" (str "https://internal.awsapps.com/start");
  prop "users" (str "https://internal.awsapps.com/users");
  prop "groups" (str "https://internal.awsapps.com/groups");
  prop "sessions" (str "https://internal.awsapps.com/sessions");
  prop "roles" (str "https://internal.awsapps.com/roles")
].

Definition PORTAL_FEATURES : jsval := VObj [
  prop "sso_enabled" (VBool true);
  prop "mfa_enabled" (VBool true);
  prop "apps_enabled" (VBool true);
  prop "user_management_enabled" (VBool true);
  prop "group_management_enabled" (VBool true);
  prop "session_management_enabled" (VBool true);
  prop "features" (VArr [
    str "Single Sign-On (SSO) at https://internal.awsapps.com/start";
    str "Multi-Factor Authentication (MFA)";
    str "Application Management";
    str "User Management";
    str "Group Management";
    str "Session Management";
    str "Role-Based Access Control";
    str "Audit Logging"
  ])
].

Definition SUPPORTED_DOMAINS : jsval := VArr [
  str "internal.awsapps.com";
  str "awsapps.com";
  str "d-[a-z0-9]*.awsapps.com";
  str "[a-z0-9]*.awsapps.com";
  str "docs.aws.amazon.com";
  str "aws.amazon.com";
  str "console.aws.amazon.com"
].

Definition SUBDOMAIN_PATTERNS : jsval := VObj [
  prop "organization" (str "d-[a-z0-9]{16}");
  prop "custom" (str "[a-z0-9][a-z0-9-]*[a-z0-9]");
  prop "internal" (str "internal");
  prop "any" (str "[a-z0-9][a-z0-9-]*[a-z0-9]?")
].

Definition PORTAL_DOCS : jsval := VObj [
  prop "main" (str "https://docs.aws.amazon.com/singlesignon/");
  prop "getting_started"
    (str "https://docs.aws.amazon.com/singlesignon/latest/userguide/getting-started.html");
  prop "portal_url"
    (str "https://docs.aws.amazon.com/sdkref/latest/guide/access-sso.html");
  prop "user_guide"
    (str "https://docs.aws.amazon.com/singlesignon/latest/userguide/");
  prop "api_docs"
    (str "https://docs.aws.amazon.com/singlesignon/latest/APIReference/");
  prop "troubleshooting"
    (str "https://docs.aws.amazon.com/singlesignon/latest/userguide/troubleshooting.html");
  prop "faq"
    (str "https://docs.aws.amazon.com/singlesignon/latest/userguide/faq.html")
].

Definition PORTAL_STATUS : jsval := VObj [
  prop "SUCCESS" (VNum 200);
  prop "SUCCESS_CREATED" (VNum 201);
  prop "SUCCESS_NO_CONTENT" (VNum 204);
  prop "REDIRECT" (VNum 302);
  prop "BAD_REQUEST" (VNum 400);
  prop "UNAUTHORIZED" (VNum 401);
  prop "FORBIDDEN" (VNum 403);
  prop "NOT_FOUND" (VNum 404);
  prop "TIMEOUT" (VNum 408);
  prop "SERVER_ERROR" (VNum 500);
  prop "SERVICE_UNAVAILABLE" (VNum 503);
  prop "messages" (VObj [
    prop "200" (str "Portal is accessible");
    prop "401"
      (str "Authentication required at https://internal.awsapps.com/start");
    prop "403" (str "Access forbidden to portal");
    prop "404" (str "Portal endpoint not found");
    prop "500" (str "Portal server error");
    prop "503" (str "Portal service unavailable")
  ])
].

Definition PORTAL_HEADERS : jsval := VObj [
  prop "Content-Type" (str "application/json");
  prop "Accept" (str "application/json");
  prop "Accept-Language" (str "en-US,en;q=0.9");
  prop "User-Agent" (str "AWS-Portal-Client/1.0");
  prop "X-Portal-Request" (str "true");
  prop "X-AWS-Portal" (str "https://internal.awsapps.com/start")
].

Definition PORTAL_TIMING : jsval := VObj [
  prop "request_timeout" (VNum 30000);
  prop "connect_timeout" (VNum 10000);
  prop "read_timeout" (VNum 30000);
  prop "session_timeout" (VNum 3600000);
  prop "cache_duration" (VNum 3600000);
  prop "retry_delay" (VNum 5000)
].

(** ** Validators *)

(** The class [[a-z0-9\-]] of the pattern. *)
Definition label_class : list (code_unit * code_unit) :=
  [(97, 122); (48, 57); (45, 45)]%N.

(** [/https:\/\/[a-z0-9\-]*\.awsapps\.com\/start/] *)
Definition portalURLPattern : regex :=
  Cat (Lit (lit "https://"))
    (Cat (Star (Class label_class)) (Lit (lit ".awsapps.com/start"))).

(** The truthiness of [PORTAL_VALIDATORS.isValidPortalURL(url)]. *)
Definition isValidPortalURL (url : jsstring) : bool :=
  str_eq url (lit "https://internal.awsapps.com/start")
  || searchb portalURLPattern url.

Definition isValidPortalDomain (domain : jsstring) : bool :=
  str_eq domain (lit "internal.awsapps.com")
  || endsWith domain (lit ".awsapps.com").

Definition isInternalDomain (domain : jsstring) : bool :=
  str_eq domain (lit "internal.awsapps.com").

Definition PORTAL_VALIDATORS : jsval := VObj [
  prop "isValidPortalURL" (VFun (lit "isValidPortalURL"));
  prop "isValidPortalDomain" (VFun (lit "isValidPortalDomain"));
  prop "isInternalDomain" (VFun (lit "isInternalDomain"))
].

(** The object [window.AWS_PORTAL_CONSTANTS]. *)
Definition AWS_PORTAL_CONSTANTS : jsval := VObj [
  prop "urls" PORTAL_URLS;
  prop "domains" DOMAIN_CONSTANTS;
  prop "paths" PATH_CONSTANTS;
  prop "protocols" PROTOCOL_CONSTANTS;
  prop "config" PORTAL_CONFIG;
  prop "endpoints" PORTAL_ENDPOINTS;
  prop "features" PORTAL_FEATURES;
  prop "supportedDomains" SUPPORTED_DOMAINS;
  prop "subdomainPatterns" SUBDOMAIN_PATTERNS;
  prop "docs" PORTAL_DOCS;
  prop "status" PORTAL_STATUS;
  prop "headers" PORTAL_HEADERS;
  prop "timing" PORTAL_TIMING;
  prop "validators" PORTAL_VALIDATORS
].

(** A string value that the resolver's validator accepts. *)
Definition is_valid_address `{UrlParser} (v : jsval) : bool :=
  match v with
  | VStr s => isValidAWSPortalURL (Some s)
  | _ => false
  end.

(** ** The pattern of [isValidPortalURL] *)

Section validator_lemmas.
Implicit Types (s t l m p q d url : jsstring) (c : code_unit).

Lemma label_class_char c : in_ranges label_class c = is_label_char c.
Proof.
  rw /in_ranges /label_class /is_label_char /is_lower /is_digit /=.
  rw orb_false_r orb_assoc. do 2 f_equal.
  destruct (N.eqb_spec c 45) as [->|Hc]; [done|].
  apply andb_false_iff. rw !N.leb_gt. lia.
Qed.

Lemma matches_portalURLPattern m :
  matches portalURLPattern m ↔
  ∃ l, m = lit "https://" ++ l ++ lit ".awsapps.com/start"
       ∧ forallb is_label_char l = true.
Proof.
  rw /portalURLPattern. split.
  - intros (? & ? & -> & ->%matches_Lit &
            (l & ? & -> & Hl%matches_star_class & ->%matches_Lit)
              %matches_cat_inv)%matches_cat_inv.
    exists l. split; [done|]. apply forallb_true_Forall.
    eapply Forall_impl; [exact Hl|]. intros c Hc. by rw -label_class_char.
  - intros (l & -> & Hl%forallb_true_Forall).
    apply matches_cat; [by apply matches_Lit|].
    apply matches_cat; [|by apply matches_Lit]. apply matches_star_class.
    eapply Forall_impl; [exact Hl|]. intros c Hc. by rw label_class_char.
Qed.

Lemma search_portalURLPattern url :
  searchb portalURLPattern url = true ↔
  ∃ p l q, url = p ++ (lit "https://" ++ l ++ lit ".awsapps.com/start") ++ q
           ∧ forallb is_label_char l = true.
Proof.
  rw searchb_spec. split.
  - intros (p & m & q & -> & (l & -> & Hl)%matches_portalURLPattern).
    by exists p, l, q.
  - intros (p & l & q & -> & Hl). eexists p, _, q. split; [done|].
    apply matches_portalURLPattern. by exists l.
Qed.

(** Two strings that agree up to the first occurrence of a mark. *)
Lemma app_mark_inj {A} (c : A) (a a' x y : list A) :
  c ∉ a → c ∉ a' → a ++ c :: x = a' ++ c :: y → a = a' ∧ x = y.
Proof.
  revert a'. induction a as [|d a IH]; intros [|d' a'] Ha Ha' Heq;
    simplify_eq/=; [done|by apply not_elem_of_cons in Ha' as [? _]
                   |by apply not_elem_of_cons in Ha as [? _]|].
  apply not_elem_of_cons in Ha as [_ Ha], Ha' as [_ Ha'].
  by destruct (IH a') as [-> ->].
Qed.

Lemma label_no_dot l : forallb is_label_char l = true → 46%N ∉ l.
Proof.
  intros Hl%forallb_true_Forall Hin.
  by apply (Forall_forall (λ c, is_label_char c = true) l) in Hin.
Qed.

(** In a string with one colon only, that of [https://], the pattern can
    match at the start only. *)
Lemma search_one_colon t :
  58%N ∉ t →
  isValidPortalURL (lit "https://" ++ t) = true ↔
  ∃ l q, t = l ++ lit ".awsapps.com/start" ++ q
         ∧ forallb is_label_char l = true.
Proof.
  intros Ht. rw /isValidPortalURL orb_true_iff str_eq_spec
    search_portalURLPattern. split.
  - intros [Heq|(p & l & q & Heq & Hl)].
    { exists (lit "internal"), []. split; [|done].
      apply (app_inv_head (lit "https://")). by rw Heq. }
    exists l, q. split; [|done].
    assert ((lit "https://" ++ t) !! (length p + 5) = Some 58%N) as Hc.
    { rw Heq lookup_app_r; [lia|]. by replace (length p + 5 - length p) with 5 by lia. }
    destruct p as [|? [|? [|? p]]]; [|done..|].
    + apply (app_inv_head (lit "https://")). by rw Heq -!app_assoc.
    + rw lookup_app_r in Hc; [simpl; lia|]. by apply list_elem_of_lookup_2 in Hc.
  - intros (l & q & -> & Hl). right. exists [], l, q. by rw -!app_assoc.
Qed.

End validator_lemmas.

(** ** Validators: theorems *)

Section validator_theorems.
Implicit Types (s t l m p q d url : jsstring) (c : code_unit).

(** C7: [isValidPortalURL] accepts exactly the strings that contain,
    anywhere, [https://], a possibly empty run of lower-case letters,
    digits and hyphens, and [.awsapps.com/start]: the pattern is not
    anchored, and the comparison with the main portal adds nothing. *)
Theorem isValidPortalURL_spec url :
  isValidPortalURL url = true ↔
  ∃ p l q, url = p ++ (lit "https://" ++ l ++ lit ".awsapps.com/start") ++ q
           ∧ forallb is_label_char l = true.
Proof.
  rw /isValidPortalURL orb_true_iff str_eq_spec search_portalURLPattern.
  split; [|by right]. intros [->|?]; [|done].
  exists [], (lit "internal"), []. by split.
Qed.

(** Every address that [buildAWSPortalURL] builds from letters, digits
    and hyphens passes [isValidPortalURL], the empty subdomain included. *)
Theorem isValidPortalURL_build l :
  forallb is_label_char l = true →
  isValidPortalURL (buildAWSPortalURL (Some l)) = true.
Proof.
  intros Hl. rw /isValidPortalURL (proj2 (search_portalURLPattern _)).
  - exists [], l, []. by rw app_nil_r.
  - apply orb_true_r.
Qed.

Lemma isValidPortalURL_build_witness :
  isValidPortalURL (buildAWSPortalURL (Some [])) = true.
Proof. by apply isValidPortalURL_build. Defined.

(** C24: [isValidPortalDomain] is the test of the suffix [.awsapps.com]: the
    comparison with [internal.awsapps.com] adds nothing, and the bare
    domain [awsapps.com] is rejected. *)
Theorem isValidPortalDomain_spec d :
  isValidPortalDomain d = endsWith d (lit ".awsapps.com").
Proof.
  rw /isValidPortalDomain. destruct (endsWith d _) eqn:Hd.
  - apply orb_true_r.
  - rw orb_false_r. apply not_true_iff_false. intros ->%str_eq_spec. done.
Qed.

(** A domain that [isInternalDomain] accepts is accepted by
    [isValidPortalDomain] and, as a host name, by the resolver's
    validator. *)
Theorem isInternalDomain_valid d :
  isInternalDomain d = true →
  isValidPortalDomain d = true
  ∧ existsb (matchesDomain d) supportedDomains = true.
Proof. by intros ->%str_eq_spec. Qed.

Lemma isInternalDomain_valid_witness :
  isValidPortalDomain (lit "internal.awsapps.com") = true
  ∧ existsb (matchesDomain (lit "internal.awsapps.com")) supportedDomains
    = true.
Proof. by apply isInternalDomain_valid. Defined.

(** A host name that [isValidPortalDomain] accepts is accepted by the
    callback of the resolver's validator; the converse fails for
    [awsapps.com] and for the documentation and console domains. *)
Theorem isValidPortalDomain_supported d :
  isValidPortalDomain d = true →
  existsb (matchesDomain d) supportedDomains = true.
Proof.
  rw /isValidPortalDomain orb_true_iff str_eq_spec.
  intros Hd'. assert (endsWith d (lit ".awsapps.com") = true) as Hd
    by by destruct Hd' as [->|?].
  apply existsb_elem_of. exists (lit "awsapps.com").
  split; [by right; left|]. rw /matchesDomain Hd. apply orb_true_r.
Qed.

Lemma isValidPortalDomain_supported_witness :
  existsb (matchesDomain (lit "d-12345678ab.awsapps.com")) supportedDomains
  = true.
Proof. by apply isValidPortalDomain_supported. Defined.

(** The constants agree with each other and with the resolver: no
    object names a property twice; every address in [PORTAL_URLS],
    [PORTAL_ENDPOINTS] and [PORTAL_DOCS] passes the resolver's validator;
    the parts of [PORTAL_CONFIG] make up its [fullURL], which is the main
    portal; and the domains of [DOMAIN_CONSTANTS] are those the resolver
    supports. *)
Theorem constants_coherent :
  Forall wf_literal [PORTAL_URLS; DOMAIN_CONSTANTS; PATH_CONSTANTS;
    PROTOCOL_CONSTANTS; PORTAL_CONFIG; PORTAL_ENDPOINTS; PORTAL_FEATURES;
    SUBDOMAIN_PATTERNS; PORTAL_DOCS; PORTAL_STATUS; PORTAL_HEADERS;
    PORTAL_TIMING; PORTAL_VALIDATORS; AWS_PORTAL_CONSTANTS]
  ∧ forallb is_valid_address
      (own_values PORTAL_URLS ++ own_values PORTAL_ENDPOINTS
       ++ own_values PORTAL_DOCS) = true
  ∧ str_at PORTAL_CONFIG "fullURL"
    = str_at PORTAL_CONFIG "protocol" ++ lit "://"
      ++ str_at PORTAL_CONFIG "hostname" ++ str_at PORTAL_CONFIG "path"
  ∧ str_at PORTAL_CONFIG "baseURL"
    = str_at PORTAL_CONFIG "protocol" ++ lit "://"
      ++ str_at PORTAL_CONFIG "hostname"
  ∧ str_at PORTAL_CONFIG "url" = mainPortal
  ∧ str_at PORTAL_CONFIG "fullURL" = mainPortal
  ∧ Forall (λ d, d ∈ string_values DOMAIN_CONSTANTS) supportedDomains.
Proof.
  split_and!; try by vm_compute.
  - apply Forall_forall. intros o Ho. by apply (bool_decide_unpack _);
      revert o Ho; apply Forall_forall, (bool_decide_unpack _).
  - by apply (bool_decide_unpack _).
Qed.

End validator_theorems.

(** ** The two validators of addresses *)

Section two_validators.
Context `{UrlParser}.
Implicit Types (s t l h rest p q url : jsstring).

(** C30: the pattern of the constants and the validator of the resolver
    disagree in both directions, on whole families of addresses.  The
    pattern is searched anywhere: an address of any host that carries a
    portal address further on passes it, while the resolver judges the
    host.  The pattern asks for [/start] after the host: a portal address
    with another path, or with none, fails it, while the resolver accepts
    every address of the host. *)
Theorem validators_disagree :
  (∀ h rest l q,
     plain_host h = true → after_host rest = true → rest ≠ [] →
     forallb is_label_char l = true →
     let url := lit "https://" ++ h ++ rest
                ++ (lit "https://" ++ l ++ lit ".awsapps.com/start") ++ q in
     isValidPortalURL url = true
     ∧ isValidAWSPortalURL (Some url)
       = existsb (matchesDomain h) supportedDomains)
  ∧ (∀ l rest,
       plain_label l = true → after_host rest = true → 58%N ∉ rest →
       startsWith rest (lit "/start") = false →
       let url := lit "https://" ++ (l ++ lit ".awsapps.com") ++ rest in
       isValidAWSPortalURL (Some url) = true
       ∧ isValidPortalURL url = false).
Proof.
  split.
  - intros h rest l q Hh Hr Hne Hl url. split.
    + rw /isValidPortalURL (proj2 (search_portalURLPattern _)).
      { exists (lit "https://" ++ h ++ rest), l, q. by rw /url -!app_assoc. }
      apply orb_true_r.
    + apply host_valid_iff; [done..|].
      by apply url_hostname_https; [|apply after_host_app].
  - intros l rest Hl Hr Hc Hs url.
    pose proof (plain_label_host l Hl) as Hh. split.
    + rw (host_valid_iff url (l ++ lit ".awsapps.com")) //.
      { by apply url_hostname_https. }
      apply existsb_elem_of. exists (lit "awsapps.com").
      split; [by right; left|]. rw /matchesDomain endsWith_app.
      apply orb_true_r.
    + apply not_true_iff_false. rw /url search_one_colon.
      { apply plain_host_inv in Hh as (_ & Hh & _).
        rw not_elem_of_app. split; [|done]. by apply host_not_elem_of. }
      intros (l' & q & Heq & Hl').
      apply plain_label_inv in Hl as (_ & _ & Hdot & _).
      rw -app_assoc in Heq.
      change (lit ".awsapps.com") with (46%N :: lit "awsapps.com") in Heq.
      change (lit ".awsapps.com/start")
        with (46%N :: lit "awsapps.com/start") in Heq.
      apply (app_mark_inj 46%N) in Heq as [_ Heq];
        [|done|by apply label_no_dot].
      apply (f_equal (drop 11)) in Heq. apply not_true_iff_false in Hs.
      apply Hs, startsWith_spec. exists q. exact Heq.
Qed.

End two_validators.

Lemma validators_disagree_witness :
  (let url := lit "https://" ++ lit "example.org" ++ lit "/?u="
              ++ (lit "https://" ++ lit "x" ++ lit ".awsapps.com/start") ++ []
   in isValidPortalURL url = true
      ∧ isValidAWSPortalURL (Some url)
        = existsb (matchesDomain (lit "example.org")) supportedDomains)
  ∧ (let url := lit "https://" ++ (lit "myorg" ++ lit ".awsapps.com")
                ++ lit "/login" in
     isValidAWSPortalURL (Some url) = true ∧ isValidPortalURL url = false).
Proof.
  split.
  - by apply (proj1 validators_disagree (lit "example.org") (lit "/?u=")
                (lit "x") []).
  - apply (proj2 validators_disagree (lit "myorg") (lit "/login")); try done.
    by apply (bool_decide_unpack _).
Defined.
