(* ===== verification/Runtime.v ===== *)
(** * The browser runtime the API module calls

    [src/aws-portal-api.js] calls [fetch], reads [status] and [ok] of the
    response, awaits [response.json()], calls [JSON.stringify] (file
    [Json]) and keeps an
    array and an object that its callers share.  None of that code is in
    the repository; this file gives it as an interface and as two small
    models:

    - [Runtime]: [fetch] and [JSON.stringify] as operations the client is
      parametric in.  The answer of [fetch] may depend on the requests made
      so far.
    - [io]: computations that read and extend the list of requests made and
      that return or throw, with [try]/[catch] ([io_catch]); an [await] is a
      bind.  [io_eq] is equality of two computations on every history.
    - [heap]: the mutable arrays and objects of the request builder, by
      location, so that two references to one array are one location. *)

From Corelib Require Import ssreflect_rw.
From stdpp Require Import strings.
From S2P Require Import Prelude JsString SourceText JsValue Json.

(** What the client reads of a [Response]: [status], [ok], and the outcome
    of [json()]. *)
Record response : Type := Response {
  status : Z;
  ok : bool;
  json : result jsval jsval;
}.

(** One call of [fetch]: its address and its [init] object. *)
Record call : Type := Call {
  call_url : jsstring;
  call_init : jsval;
}.

Class Runtime : Type := {
  (** [fetch(url, init)] after the calls of the history: the response, or
      the error it rejects with. *)
  fetch : list call → jsstring → jsval → result jsval response;
  (** [JSON.stringify] *)
  stringify : jsval → jsval;
}.

(** The error of a property access on [undefined] or [null]. *)
Definition TypeError : jsval := VBuiltin (lit "TypeError").

Definition nullish (v : jsval) : bool :=
  match v with
  | VUndefined | VNull => true
  | _ => false
  end.

(** [o.k] where [o] may be [undefined] or [null]. *)
Definition js_member (o : jsval) (k : string) : result jsval jsval :=
  match o with
  | VUndefined | VNull => Throw TypeError
  | _ => Ok (js_get o (lit k))
  end.

(** A runtime whose [fetch] answers its n-th call with the n-th entry of a
    script, and rejects once the script is used up. *)
Definition scripted (script : list (result jsval response)) : Runtime :=
  {| fetch h _ _ := default (Throw TypeError) (script !! length h);
     stringify := JSON_stringify |}.

(** The runtime without a network: every [fetch] rejects. *)
Definition offline : Runtime := scripted [].

(** ** Computations over the history of requests *)

Definition io (A : Type) : Type := list call → result jsval A * list call.

Definition io_ret {A} (a : A) : io A := λ h, (Ok a, h).

Definition io_throw {A} (e : jsval) : io A := λ h, (Throw e, h).

Definition io_lift {A} (r : result jsval A) : io A := λ h, (r, h).

Definition io_bind {A B} (c : io A) (k : A → io B) : io B :=
  λ h, match c h with
       | (Ok a, h') => k a h'
       | (Throw e, h') => (Throw e, h')
       end.

(** [try { c } catch (e) { handler e }] *)
Definition io_catch {A} (c : io A) (handler : jsval → io A) : io A :=
  λ h, match c h with
       | (Ok a, h') => (Ok a, h')
       | (Throw e, h') => handler e h'
       end.

(** [await fetch(url, init)] *)
Definition do_fetch `{Runtime} (url : jsstring) (init : jsval) : io response :=
  λ h, (fetch h url init, h ++ [Call url init]).

Definition io_eq {A} (c1 c2 : io A) : Prop := ∀ h, c1 h = c2 h.

Notation "x ←io c ; k" := (io_bind c (λ x, k))
  (at level 100, c at next level, right associativity) : js_scope.
Infix "≡io" := io_eq (at level 70) : js_scope.

(** ** The heap of shared arrays and objects *)

Inductive cell : Type :=
| CArr (items : list jsval)
| CObj (props : list (jsstring * jsval)).

Definition loc : Type := nat.
Definition heap : Type := list cell.

(** A new cell: its location is the first one not in use. *)
Definition alloc (h : heap) (c : cell) : loc * heap := (length h, h ++ [c]).

(** The elements of the array at [l]; none where [l] holds no array. *)
Definition array_at (h : heap) (l : loc) : list jsval :=
  match h !! l with
  | Some (CArr items) => items
  | _ => []
  end.

(** The own properties of the object at [l]. *)
Definition object_at (h : heap) (l : loc) : list (jsstring * jsval) :=
  match h !! l with
  | Some (CObj props) => props
  | _ => []
  end.

(** [a.push(v)] for the array at [l]. *)
Definition push (h : heap) (l : loc) (v : jsval) : heap :=
  match h !! l with
  | Some (CArr items) => <[l := CArr (items ++ [v])]> h
  | _ => h
  end.

(** [o[k] = s] for the plain object at [l] and a string [s]: an own data
    property, except that [__proto__] names the accessor of
    [Object.prototype], whose setter ignores a value that is neither an
    object nor [null]. *)
Definition assign_string (h : heap) (l : loc) (k s : jsstring) : heap :=
  match h !! l with
  | Some (CObj props) =>
      if str_eq k (lit "__proto__") then h
      else <[l := CObj (set_own props k (VStr s))]> h
  | _ => h
  end.

Definition is_array (h : heap) (l : loc) : Prop := ∃ items, h !! l = Some (CArr items).
Definition is_object (h : heap) (l : loc) : Prop := ∃ props, h !! l = Some (CObj props).

(** ** Lemmas on [io] *)

Section io_lemmas.
Context {A B C : Type}.
Implicit Types (c : io A) (k : A → io B) (h : list call).

#[export] Instance io_eq_equiv : Equivalence (@io_eq A).
Proof.
  split; [done | by intros c1 c2 H h | ].
  intros c1 c2 c3 H1 H2 h. by rw H1.
Qed.

Lemma io_bind_ret_l (a : A) k : (io_bind (io_ret a) k ≡io k a)%js.
Proof. done. Qed.

Lemma io_bind_ret_r c : (io_bind c io_ret ≡io c)%js.
Proof. intros h. rw /io_bind. by destruct (c h) as [[a|e] h']. Qed.

Lemma io_bind_assoc c k (k' : B → io C) :
  (io_bind (io_bind c k) k' ≡io io_bind c (λ a, io_bind (k a) k'))%js.
Proof. intros h. rw /io_bind. by destruct (c h) as [[a|e] h']. Qed.

Lemma io_bind_throw (e : jsval) k : (io_bind (@io_throw A e) k ≡io io_throw e)%js.
Proof. done. Qed.

Lemma io_catch_ret (a : A) handler : (io_catch (io_ret a) handler ≡io io_ret a)%js.
Proof. done. Qed.

Lemma io_catch_throw (e : jsval) (handler : jsval → io A) :
  (io_catch (io_throw e) handler ≡io handler e)%js.
Proof. done. Qed.

(** Catching an error only to throw it again changes nothing. *)
Lemma io_catch_rethrow c : (io_catch c (λ e, io_throw e) ≡io c)%js.
Proof. intros h. rw /io_catch. by destruct (c h) as [[a|e] h']. Qed.

(** A handler that returns makes the computation return. *)
Lemma io_catch_total c (handler : jsval → A) h :
  is_ok (io_catch c (λ e, io_ret (handler e)) h).1 = true.
Proof. rw /io_catch. by destruct (c h) as [[a|e] h']. Qed.

#[export] Instance io_bind_proper :
  Proper (io_eq ==> pointwise_relation A io_eq ==> io_eq) (@io_bind A B).
Proof.
  intros c1 c2 Hc k1 k2 Hk h. rw /io_bind Hc.
  destruct (c2 h) as [[a|e] h']; [apply Hk | done].
Qed.

#[export] Instance io_catch_proper :
  Proper (io_eq ==> pointwise_relation jsval io_eq ==> io_eq) (@io_catch A).
Proof.
  intros c1 c2 Hc k1 k2 Hk h. rw /io_catch Hc.
  destruct (c2 h) as [[a|e] h']; [done | apply Hk].
Qed.

End io_lemmas.

Section member_lemmas.
Implicit Types (o : jsval) (k : string).

Lemma js_member_ok o k : nullish o = false → js_member o k = Ok (js_get o (lit k)).
Proof. by destruct o. Qed.

Lemma js_member_throw o k : nullish o = true → js_member o k = Throw TypeError.
Proof. by destruct o. Qed.

End member_lemmas.

(** ** Lemmas on the heap *)

Section heap_lemmas.
Implicit Types (h : heap) (l : loc) (c : cell) (v : jsval).

Lemma alloc_fresh h c : h !! (alloc h c).1 = None.
Proof. by apply lookup_ge_None_2. Qed.

Lemma alloc_lookup h c : (alloc h c).2 !! (alloc h c).1 = Some c.
Proof. apply list_lookup_middle. done. Qed.

Lemma alloc_lookup_old h c l c' :
  h !! l = Some c' → (alloc h c).2 !! l = Some c'.
Proof. apply lookup_app_l_Some. Qed.

Lemma alloc_ne h c l c' : h !! l = Some c' → l ≠ (alloc h c).1.
Proof. intros Hl ->. by rw alloc_fresh in Hl. Qed.

Lemma array_at_alloc h c l : is_array h l → array_at (alloc h c).2 l = array_at h l.
Proof. intros [items Hl]. by rw /array_at (alloc_lookup_old _ _ _ _ Hl) Hl. Qed.

Lemma object_at_alloc h c l :
  is_object h l → object_at (alloc h c).2 l = object_at h l.
Proof. intros [props Hl]. by rw /object_at (alloc_lookup_old _ _ _ _ Hl) Hl. Qed.

Lemma object_at_new h props : object_at (alloc h (CObj props)).2 (length h) = props.
Proof. by rw /object_at (alloc_lookup h (CObj props)). Qed.

Lemma array_at_new h items : array_at (alloc h (CArr items)).2 (length h) = items.
Proof. by rw /array_at (alloc_lookup h (CArr items)). Qed.

Lemma array_at_push h l v :
  is_array h l → array_at (push h l v) l = array_at h l ++ [v].
Proof.
  intros [items Hl]. rw /push /array_at Hl list_lookup_insert_eq //.
  by eapply lookup_lt_Some.
Qed.

Lemma lookup_push_ne h l l' v : l ≠ l' → push h l v !! l' = h !! l'.
Proof.
  intros Hne. rw /push. destruct (h !! l) as [[items|props]|]; [|done..].
  by rw list_lookup_insert_ne.
Qed.

Lemma object_at_push h l l' v : object_at (push h l v) l' = object_at h l'.
Proof.
  destruct (decide (l = l')) as [<-|Hne]; [|by rw /object_at lookup_push_ne].
  rw /push /object_at. destruct (h !! l) as [[items|props]|] eqn:Hl; rw ?Hl //.
  rw list_lookup_insert_eq //. by eapply lookup_lt_Some.
Qed.

Lemma length_push h l v : length (push h l v) = length h.
Proof.
  rw /push. destruct (h !! l) as [[items|props]|]; [|done..].
  by rw length_insert.
Qed.

Lemma is_array_push h l l' v : is_array h l' → is_array (push h l v) l'.
Proof.
  intros [items Hl]. destruct (decide (l = l')) as [->|Hne].
  - exists (items ++ [v]). rw /push Hl list_lookup_insert_eq //.
    by eapply lookup_lt_Some.
  - exists items. by rw lookup_push_ne.
Qed.

Lemma is_object_push h l l' v : is_object h l' → is_object (push h l v) l'.
Proof.
  intros [props Hl]. exists props. destruct (decide (l = l')) as [->|Hne].
  - by rw /push Hl.
  - by rw lookup_push_ne.
Qed.

Lemma lookup_assign_string_ne h l l' k s :
  l ≠ l' → assign_string h l k s !! l' = h !! l'.
Proof.
  intros Hne. rw /assign_string.
  destruct (h !! l) as [[items|props]|]; [done| |done].
  destruct (str_eq k _); [done|]. by rw list_lookup_insert_ne.
Qed.

Lemma object_at_assign_string h l k s :
  is_object h l →
  object_at (assign_string h l k s) l
  = if str_eq k (lit "__proto__") then object_at h l
    else set_own (object_at h l) k (VStr s).
Proof.
  intros [props Hl]. rw /assign_string /object_at Hl.
  destruct (str_eq k _); [by rw Hl|].
  rw list_lookup_insert_eq //. by eapply lookup_lt_Some.
Qed.

Lemma array_at_assign_string h l l' k s :
  array_at (assign_string h l k s) l' = array_at h l'.
Proof.
  destruct (decide (l = l')) as [<-|Hne];
    [|by rw /array_at lookup_assign_string_ne].
  rw /assign_string /array_at.
  destruct (h !! l) as [[items|props]|] eqn:Hl; rw ?Hl //.
  destruct (str_eq k _); rw ?Hl // list_lookup_insert_eq //.
  by eapply lookup_lt_Some.
Qed.

Lemma length_assign_string h l k s : length (assign_string h l k s) = length h.
Proof.
  rw /assign_string. destruct (h !! l) as [[items|props]|]; [done| |done].
  destruct (str_eq k _); [done|]. by rw length_insert.
Qed.

Lemma is_array_assign_string h l l' k s :
  is_array h l' → is_array (assign_string h l k s) l'.
Proof.
  intros [items Hl]. exists items. destruct (decide (l = l')) as [->|Hne].
  - by rw /assign_string Hl.
  - by rw lookup_assign_string_ne.
Qed.

Lemma is_object_assign_string h l l' k s :
  is_object h l' → is_object (assign_string h l k s) l'.
Proof.
  intros [props Hl]. destruct (decide (l = l')) as [->|Hne].
  - rw /assign_string /is_object Hl. destruct (str_eq k _); [by eexists|].
    eexists. rw list_lookup_insert_eq //. by eapply lookup_lt_Some.
  - exists props. by rw lookup_assign_string_ne.
Qed.

Lemma is_array_alloc h c l : is_array h l → is_array (alloc h c).2 l.
Proof. intros [items Hl]. exists items. by apply alloc_lookup_old. Qed.

Lemma is_object_alloc h c l : is_object h l → is_object (alloc h c).2 l.
Proof. intros [props Hl]. exists props. by apply alloc_lookup_old. Qed.

Lemma is_array_lt h l : is_array h l → l < length h.
Proof. intros [items Hl]. by eapply lookup_lt_Some. Qed.

Lemma is_object_lt h l : is_object h l → l < length h.
Proof. intros [props Hl]. by eapply lookup_lt_Some. Qed.

Lemma array_not_object h l : is_array h l → is_object h l → False.
Proof. intros [items Hl] [props Hl']. congruence. Qed.

End heap_lemmas.

#[export] Hint Resolve is_array_push is_object_push is_array_assign_string
  is_object_assign_string is_array_alloc is_object_alloc : js.
