(* ===== verification/Console.v ===== *)
(** * The console

    Every function of [src/aws-utilities.js] and [src/aws-portal-api.js]
    reports what it does with [console.log], [console.warn] and
    [console.error].  This file gives what the console receives and the two
    monads the logged functions are written in:

    - [entry]: one call of the console, with its level and its arguments as
      values (a style directive [%c] and its style are arguments like the
      others);
    - [to_string]: ToString, which the template literals and the operator
      [+] of the sources apply to what they interpolate, from ECMAScript.
      The text of a built-in function is the one V8 prints (the property
      [constructor] of [Object.prototype] is the function [Object], and
      [__proto__] is the prototype, an object); an error of the runtime is
      written by its name, as an error without a message is; the text of
      a function of the sources is its source text, which the model does
      not hold and writes in the form of a built-in;
    - [logged A]: a value with the entries written while it was computed,
      an instance of stdpp's [MRet] and [MBind];
    - [lio A]: a computation over the history of requests that also writes
      to the console, with [lio_catch] for [try]/[catch];
    - [erase]: the computation without its console, an [io] of
      [Runtime.v]; the lemmas [erase_bind], [erase_catch] and their like
      push it through a logged function, which is how the logged functions
      are shown to compute what the functions without a console do. *)

From Corelib Require Import ssreflect_rw.
From stdpp Require Import strings pretty.
From S2P Require Import Prelude JsString SourceText JsValue Json Runtime.

#[local] Open Scope js_scope.

(** [console.log], [console.warn], [console.error] *)
Inductive level : Type := Log | Warn | Error.

Record entry : Type := Entry {
  entry_level : level;
  entry_args : list jsval;
}.

Definition console : Type := list entry.

#[export] Instance level_eq_dec : EqDecision level.
Proof. solve_decision. Defined.

#[export] Instance entry_eq_dec : EqDecision entry.
Proof. solve_decision. Defined.

(** ToString *)
Fixpoint to_string (v : jsval) : jsstring :=
  match v with
  | VUndefined => lit "undefined"
  | VNull => lit "null"
  | VBool b => lit (if b then "true" else "false")
  | VNum n => lit (pretty n)
  | VStr s => s
  | VArr items =>
      join (lit ",") (map (λ x, if nullish x then [] else to_string x) items)
  | VObj _ => lit "[object Object]"
  | VBuiltin name =>
      if str_eq name (lit "__proto__") then lit "[object Object]"
      else if bool_decide (name ∈ object_prototype_names) then
        lit "function "
        ++ (if str_eq name (lit "constructor") then lit "Object" else name)
        ++ lit "() { [native code] }"
      else name
  | VFun name => lit "function " ++ name ++ lit "() { [native code] }"
  end.

(** An argument that may be absent, interpolated. *)
Definition display (a : option jsstring) : jsstring :=
  default (lit "undefined") a.

(** ** Values with their output *)

Definition logged (A : Type) : Type := A * console.

#[export] Instance logged_ret : MRet logged := λ A a, (a, []).

#[export] Instance logged_bind : MBind logged :=
  λ A B k m, let r := k m.1 in (r.1, m.2 ++ r.2).

(** [console.log(...args)] and its siblings *)
Definition console_log (args : list jsval) : logged () := ((), [Entry Log args]).
Definition console_warn (args : list jsval) : logged () := ((), [Entry Warn args]).
Definition console_error (args : list jsval) : logged () := ((), [Entry Error args]).

(** One call with one string, the commonest. *)
Definition log (s : jsstring) : logged () := console_log [VStr s].
Definition warn (s : jsstring) : logged () := console_warn [VStr s].
Definition error (s : jsstring) : logged () := console_error [VStr s].

(** [for (const x of l) body(x)] *)
Definition for_each {A} (l : list A) (body : A → logged ()) : logged () :=
  foldr (λ x rest, body x;; rest) (mret ()) l.

(** The entries of a level. *)
Definition at_level (l : level) (out : console) : console :=
  filter (λ e, entry_level e = l) out.

(** The strings written alone, in order. *)
Definition lines (out : console) : list jsstring :=
  omap (λ e, match entry_args e with [VStr s] => Some s | _ => None end) out.

(** ** Computations with requests and output *)

Definition lio (A : Type) : Type :=
  list call → logged (result jsval A * list call).

#[export] Instance lio_ret : MRet lio := λ A a h, ((Ok a, h), []).

(** The computation [k] runs where [c] returns; what it writes follows
    what [c] wrote. *)
#[export] Instance lio_bind : MBind lio :=
  λ A B k c h,
    let r := c h in
    (match r.1 with
     | (Ok a, h') => (k a h').1
     | (Throw e, h') => (Throw e, h')
     end,
     r.2 ++ match r.1 with
            | (Ok a, h') => (k a h').2
            | (Throw e, h') => []
            end).

Definition lio_throw {A} (e : jsval) : lio A := λ h, ((Throw e, h), []).

(** A computation that only writes. *)
Definition lio_log {A} (m : logged A) : lio A := λ h, ((Ok m.1, h), m.2).

(** A computation that writes nothing. *)
Definition lio_quiet {A} (c : io A) : lio A := λ h, (c h, []).

(** [try { c } catch (e) { handler e }] *)
Definition lio_catch {A} (c : lio A) (handler : jsval → lio A) : lio A :=
  λ h, let r := c h in
       (match r.1 with
        | (Ok a, h') => (Ok a, h')
        | (Throw e, h') => (handler e h').1
        end,
        r.2 ++ match r.1 with
               | (Ok a, h') => []
               | (Throw e, h') => (handler e h').2
               end).

(** The computation without its console. *)
Definition erase {A} (c : lio A) : io A := λ h, (c h).1.

(** What the computation writes, after the requests of [h]. *)
Definition output {A} (c : lio A) (h : list call) : console := (c h).2.

Arguments log : simpl never.
Arguments warn : simpl never.
Arguments error : simpl never.

(** ** Lemmas *)

Section logged_lemmas.
Context {A B C : Type}.
Implicit Types (m : logged A) (k : A → logged B) (out : console).

Lemma logged_bind_value m k : (m ≫= k).1 = (k m.1).1.
Proof. done. Qed.

Lemma logged_bind_output m k : (m ≫= k).2 = m.2 ++ (k m.1).2.
Proof. done. Qed.

Lemma logged_left_id (a : A) k : mret a ≫= k = k a.
Proof. rw /mbind /mret /logged_bind /logged_ret /=. by destruct (k a). Qed.

Lemma logged_right_id m : m ≫= mret = m.
Proof.
  destruct m as [a out]. rw /mbind /logged_bind /=. by rw app_nil_r.
Qed.

Lemma logged_assoc m k (k' : B → logged C) :
  (m ≫= k) ≫= k' = m ≫= (λ a, k a ≫= k').
Proof. rw /mbind /logged_bind /=. by rw app_assoc. Qed.

Lemma at_level_app l out out' :
  at_level l (out ++ out') = at_level l out ++ at_level l out'.
Proof. apply filter_app. Qed.

Lemma lines_app out out' : lines (out ++ out') = lines out ++ lines out'.
Proof. apply omap_app. Qed.

End logged_lemmas.

Section lio_lemmas.
Context {A B : Type}.
Implicit Types (c : lio A) (k : A → lio B) (h : list call).

(** [erase] commutes with the operations of the monad, by computation. *)
Lemma erase_ret (a : A) : erase (mret a) = io_ret a.
Proof. done. Qed.

Lemma erase_throw e : erase (@lio_throw A e) = io_throw e.
Proof. done. Qed.

Lemma erase_log (m : logged A) : erase (lio_log m) = io_ret m.1.
Proof. done. Qed.

Lemma erase_quiet (c : io A) : erase (lio_quiet c) = c.
Proof. done. Qed.

Lemma erase_bind c k : erase (c ≫= k) = (a ←io erase c; erase (k a)).
Proof. done. Qed.

Lemma erase_catch c handler :
  erase (lio_catch c handler) = io_catch (erase c) (λ e, erase (handler e)).
Proof. done. Qed.

(** The output of a sequence is the output of its parts, as far as the
    sequence runs. *)
Lemma output_bind c k h :
  output (c ≫= k) h
  = output c h ++ match erase c h with
                  | (Ok a, h') => output (k a) h'
                  | (Throw _, _) => []
                  end.
Proof. done. Qed.

Lemma output_catch c handler h :
  output (lio_catch c handler) h
  = output c h ++ match erase c h with
                  | (Ok _, _) => []
                  | (Throw e, h') => output (handler e) h'
                  end.
Proof. done. Qed.

Lemma output_bind_log (m : logged A) k h :
  output (lio_log m ≫= k) h = m.2 ++ output (k m.1) h.
Proof. done. Qed.

Lemma output_bind_quiet (c : io A) k h :
  output (lio_quiet c ≫= k) h
  = match c h with
    | (Ok a, h') => output (k a) h'
    | (Throw _, _) => []
    end.
Proof. done. Qed.

Lemma output_log (m : logged A) h : output (lio_log m) h = m.2.
Proof. done. Qed.

Lemma output_quiet (c : io A) h : output (lio_quiet c) h = [].
Proof. done. Qed.

Lemma output_ret (a : A) h : output (mret a) h = [].
Proof. done. Qed.

Lemma output_throw e h : output (@lio_throw A e) h = [].
Proof. done. Qed.

End lio_lemmas.

Create Rewrite HintDb console.
#[export] Hint Rewrite @output_bind @output_catch @output_log @output_quiet
  @output_ret @output_throw @logged_bind_value @logged_bind_output
  @app_nil_r : console.

(** Unfolds the calls of the console in the goal, down to their entries. *)
Ltac unfold_console :=
  rw /mbind /mret /logged_bind /logged_ret /log /warn /error
    /console_log /console_warn /console_error; cbn [fst snd app].
