(* ===== verification/UtilitiesLog.v ===== *)
(** * The resolver with its console

    The functions of [src/aws-utilities.js] once more, now with every call
    of the console they make, in the order they make it: a function of
    [Module LoggedUtilities] returns the value of the function of the same
    name in [Utilities.v] together with the entries it writes.  A function
    that calls another one writes what the other one writes
    ([validateAWSPortalConfig] calls [getAWSPortalURL],
    [navigateToAWSPortal] calls [buildAWSPortalURL]).

    The theorems show that the logged functions compute the values of
    [Utilities.v] (so every theorem of that file is about these functions
    too), at which level each outcome is reported, and that what the
    console says of a result is the result. *)

From Corelib Require Import ssreflect_rw.
From stdpp Require Import strings.
From S2P Require Import Prelude JsString SourceText JsValue Url Utilities.
From S2P Require Import Json Runtime Console.

Module LoggedUtilities.

Definition isValidAWSPortalURL `{UrlParser} (url : option jsstring)
  : logged bool :=
  if negb (truthy_arg url) then
    warn (lit "No URL provided for validation. Expected format: https://internal.awsapps.com/start");;
    mret false
  else
    match url_hostname (display url) with
    | Some h =>
        let hostname := toLowerCase h in
        let isValid := existsb (matchesDomain hostname) supportedDomains in
        (if isValid then
           log (text "✓ Valid AWS portal URL: " ++ display url);;
           log (lit "Primary portal: https://internal.awsapps.com/start")
         else
           warn (text "✗ Invalid AWS portal URL: " ++ display url);;
           warn (lit "Supported domains include: https://internal.awsapps.com/start"));;
        mret isValid
    | None =>
        error (lit "Error validating URL: " ++ display url);;
        error (lit "AWS portal format: https://internal.awsapps.com/start");;
        mret false
    end.

Definition getAWSPortalURL (type : option jsstring) : logged jsval :=
  let type := default (lit "main") type in
  let url := js_or (js_get portals (toLowerCase type))
               (str "https://internal.awsapps.com/start") in
  log (lit "AWS Portal URL requested (" ++ type ++ lit "): " ++ to_string url);;
  log (lit "Primary AWS portal: https://internal.awsapps.com/start");;
  mret url.

Definition normalizeAWSPortalURL (url : option jsstring) : logged jsstring :=
  if negb (truthy_arg url) then
    warn (lit "No URL provided for normalization. Using default: https://internal.awsapps.com/start");;
    mret (lit "https://internal.awsapps.com/start")
  else
    let normalized := trim (display url) in
    let normalized := addProtocol normalized in
    let normalized := addStartPath normalized in
    log (lit "Original URL: " ++ display url);;
    log (lit "Normalized URL: " ++ normalized);;
    log (lit "Standard AWS portal: https://internal.awsapps.com/start");;
    mret normalized.

Definition isMainAWSPortal (url : option jsstring) : logged bool :=
  let mainPortal := lit "https://internal.awsapps.com/start" in
  let isMain := match url with
                | Some url => str_eq url mainPortal
                | None => false
                end in
  (if isMain then
     log (text "✓ This is the main AWS portal: " ++ mainPortal)
   else
     log (lit "URL: " ++ display url);;
     log (lit "Main AWS portal: " ++ mainPortal));;
  mret isMain.

(** The result is [None] for [null]. *)
Definition getAWSPortalDomain `{UrlParser} (url : option jsstring)
  : logged (option jsstring) :=
  match url_hostname (display url) with
  | Some domain =>
      log (lit "Portal URL: " ++ display url);;
      log (lit "Extracted domain: " ++ domain);;
      log (lit "Primary domain: internal.awsapps.com");;
      log (lit "Full portal URL: https://internal.awsapps.com/start");;
      mret (Some domain)
  | None =>
      error (lit "Error extracting domain from: " ++ display url);;
      error (lit "Expected format: https://internal.awsapps.com/start");;
      mret None
  end.

Definition buildAWSPortalURL (subdomain : option jsstring) : logged jsstring :=
  let subdomain := default (lit "internal") subdomain in
  let url := lit "https://" ++ subdomain ++ lit ".awsapps.com/start" in
  log (lit "Building AWS portal URL with subdomain: " ++ subdomain);;
  log (lit "Result: " ++ url);;
  log (lit "Default portal: https://internal.awsapps.com/start");;
  mret url.

Definition logAWSPortalInfo : logged () :=
  console_log [str "%c=== AWS IAM Identity Center Portal Information ===";
               str "font-weight: bold; color: #FF9900; font-size: 14px;"];;
  console_log [str "%cMain Portal: https://internal.awsapps.com/start";
               str "color: #FF9900; font-family: monospace;"];;
  log [];;
  log (lit "Available Portal Endpoints:");;
  log (text "  • https://internal.awsapps.com/start (Standard portal)");;
  log (text "  • https://d-{id}.awsapps.com/start (Organization instances)");;
  log (text "  • https://{subdomain}.awsapps.com/start (Custom subdomains)");;
  log [];;
  log (lit "Primary Domain: internal.awsapps.com");;
  log (lit "Portal Path: /start");;
  log (lit "Protocol: https");;
  log [];;
  log (lit "Configuration Object:");;
  log (lit "  AWS_IDENTITY_CENTER.MAIN_PORTAL = " ++ [34%N]
       ++ lit "https://internal.awsapps.com/start" ++ [34%N]);;
  log (lit "  AWS_IDENTITY_CENTER.PRIMARY_URL = " ++ [34%N]
       ++ lit "https://internal.awsapps.com/start" ++ [34%N]);;
  log (lit "  AWS_DOMAINS.INTERNAL = " ++ [34%N]
       ++ lit "internal.awsapps.com" ++ [34%N]).

Definition validateAWSPortalConfig : logged bool :=
  log (lit "Validating AWS portal configuration...");;
  let isValid := true in
  isValid ←
    (if negb (strict_eq_str (js_path AWS_IDENTITY_CENTER ["MAIN_PORTAL"])
                (lit "https://internal.awsapps.com/start"))
     then error (text "✗ MAIN_PORTAL is incorrect. Expected: https://internal.awsapps.com/start");;
          mret false
     else log (text "✓ MAIN_PORTAL = https://internal.awsapps.com/start");;
          mret isValid);
  isValid ←
    (if negb (strict_eq_str (js_path AWS_IDENTITY_CENTER ["PRIMARY_URL"])
                (lit "https://internal.awsapps.com/start"))
     then error (text "✗ PRIMARY_URL is incorrect. Expected: https://internal.awsapps.com/start");;
          mret false
     else log (text "✓ PRIMARY_URL = https://internal.awsapps.com/start");;
          mret isValid);
  isValid ←
    (if negb (strict_eq_str (js_path AWS_DOMAINS ["INTERNAL"])
                (lit "internal.awsapps.com"))
     then error (text "✗ INTERNAL domain is incorrect. Expected: internal.awsapps.com");;
          mret false
     else log (text "✓ INTERNAL = internal.awsapps.com");;
          mret isValid);
  testURL ← getAWSPortalURL (Some (lit "main"));
  isValid ←
    (if negb (strict_eq_str testURL (lit "https://internal.awsapps.com/start"))
     then error (text "✗ getAWSPortalURL() is incorrect. Expected: https://internal.awsapps.com/start");;
          mret false
     else log (text "✓ getAWSPortalURL(main) = https://internal.awsapps.com/start");;
          mret isValid);
  (if isValid : bool then
     console_log [VStr (text "%c✓ AWS Portal Configuration is VALID");
                  str "color: #27ae60; font-weight: bold;"];;
     log (lit "Primary Portal: https://internal.awsapps.com/start")
   else
     console_log [VStr (text "%c✗ AWS Portal Configuration has ERRORS");
                  str "color: #d32f2f; font-weight: bold;"]);;
  mret isValid.

(** [w] is [None] where there is no [window]. *)
Definition navigateToAWSPortal (subdomain : option jsstring)
    (newTab : option bool) (w : option window) : logged (option window) :=
  let subdomain := default (lit "internal") subdomain in
  let newTab := default false newTab in
  url ← buildAWSPortalURL (Some subdomain);
  log (lit "Navigating to AWS portal: " ++ url);;
  log (lit "Primary portal: https://internal.awsapps.com/start");;
  log (lit "Subdomain: " ++ subdomain);;
  log (lit "New tab: " ++ to_string (VBool newTab));;
  match w with
  | Some w =>
      if newTab then
        let w := Window (location_href w) (opened w ++ [(url, lit "_blank")]) in
        log (text "✓ Opened in new tab: " ++ url);;
        mret (Some w)
      else
        let w := Window url (opened w) in
        log (text "✓ Navigating to: " ++ url);;
        mret (Some w)
  | None =>
      log (lit "URL to navigate to: " ++ url);;
      mret None
  end.

(** [window.showAWSPortalHelp] *)
Definition showAWSPortalHelp : logged () :=
  console_log [str "%c=== AWS Portal Help ===";
               str "font-weight: bold; color: #FF9900; font-size: 16px;"];;
  log [];;
  log (lit "Main Portal: https://internal.awsapps.com/start");;
  log [];;
  log (lit "Available Functions:");;
  log (text "  • validateAWSPortalURL(url) - Validate an AWS portal URL");;
  log (text "  • getAWSPortalURL(type) - Get AWS portal URL");;
  log (text "  • normalizeAWSPortalURL(url) - Normalize URL format");;
  log (text "  • isMainAWSPortal(url) - Check if main portal");;
  log (text "  • getAWSPortalDomain(url) - Extract domain from URL");;
  log (text "  • buildAWSPortalURL(subdomain) - Build portal URL");;
  log (text "  • logAWSPortalInfo() - Display portal information");;
  log (text "  • validateAWSPortalConfig() - Validate configuration");;
  log (text "  • navigateToAWSPortal(subdomain, newTab) - Navigate to portal");;
  log [];;
  log (lit "Configuration Objects:");;
  log (text "  • AWS_IDENTITY_CENTER - Portal endpoints");;
  log (text "  • AWS_DOMAINS - Supported domains");;
  log (text "  • AWS_PORTAL_URLS - Portal URL collection");;
  log (text "  • AWS_PORTAL_METADATA - Portal metadata");;
  log [].

(** "Log initialization": what the file writes when it is loaded. *)
Definition initialization : logged () :=
  console_log [str "%c AWS Utilities Module Loaded";
               str "color: #FF9900; font-weight: bold;"];;
  log (lit "Primary AWS Portal: https://internal.awsapps.com/start");;
  log (lit "Type showAWSPortalHelp() or call window.showAWSPortalHelp() for help").

End LoggedUtilities.

(** ** Lemmas *)

Section logged_lemmas.
Context `{UrlParser}.
Implicit Types (url type subdomain : option jsstring) (u : jsstring).

Lemma display_Some u : display (Some u) = u.
Proof. done. Qed.

Lemma isValid_value url :
  (LoggedUtilities.isValidAWSPortalURL url).1 = isValidAWSPortalURL url.
Proof.
  rw /LoggedUtilities.isValidAWSPortalURL /isValidAWSPortalURL.
  destruct url as [u|]; [|done]. simpl.
  destruct (truthy_str u); [|done]. simpl. by destruct (url_hostname u).
Qed.

Lemma getAWSPortalURL_value type :
  (LoggedUtilities.getAWSPortalURL type).1 = getAWSPortalURL type.
Proof. done. Qed.

Lemma normalize_value url :
  (LoggedUtilities.normalizeAWSPortalURL url).1 = normalizeAWSPortalURL url.
Proof.
  rw /LoggedUtilities.normalizeAWSPortalURL /normalizeAWSPortalURL.
  destruct url as [u|]; [|done]. by destruct (truthy_arg (Some u)).
Qed.

Lemma isMain_value url :
  (LoggedUtilities.isMainAWSPortal url).1 = isMainAWSPortal url.
Proof. done. Qed.

Lemma getDomain_value url :
  (LoggedUtilities.getAWSPortalDomain url).1 = getAWSPortalDomain url.
Proof.
  rw /LoggedUtilities.getAWSPortalDomain /getAWSPortalDomain /display.
  by destruct (url_hostname _).
Qed.

Lemma build_value subdomain :
  (LoggedUtilities.buildAWSPortalURL subdomain).1 = buildAWSPortalURL subdomain.
Proof. done. Qed.

Lemma validate_value :
  LoggedUtilities.validateAWSPortalConfig.1 = validateAWSPortalConfig.
Proof. done. Qed.

Lemma navigate_value subdomain newTab w :
  (LoggedUtilities.navigateToAWSPortal subdomain newTab w).1
  = navigateToAWSPortal subdomain newTab w.
Proof.
  rw /LoggedUtilities.navigateToAWSPortal /navigateToAWSPortal.
  by destruct subdomain, w as [w|], (default false newTab).
Qed.

End logged_lemmas.

(** ** Theorems *)

Section logged_theorems.
Context `{UrlParser}.
Implicit Types (url type subdomain : option jsstring) (u : jsstring).

(** The functions with their console compute what the functions of
    the resolver compute: none of the eight lets what it writes change what
    it returns. *)
Theorem logged_resolver_values url newTab w :
  (LoggedUtilities.isValidAWSPortalURL url).1 = isValidAWSPortalURL url
  ∧ (LoggedUtilities.getAWSPortalURL url).1 = getAWSPortalURL url
  ∧ (LoggedUtilities.normalizeAWSPortalURL url).1 = normalizeAWSPortalURL url
  ∧ (LoggedUtilities.isMainAWSPortal url).1 = isMainAWSPortal url
  ∧ (LoggedUtilities.getAWSPortalDomain url).1 = getAWSPortalDomain url
  ∧ (LoggedUtilities.buildAWSPortalURL url).1 = buildAWSPortalURL url
  ∧ LoggedUtilities.validateAWSPortalConfig.1 = validateAWSPortalConfig
  ∧ (LoggedUtilities.navigateToAWSPortal url newTab w).1
    = navigateToAWSPortal url newTab w.
Proof.
  auto 10 using isValid_value, normalize_value, getDomain_value,
    navigate_value.
Qed.

(** The validator reports each outcome at one level: it always writes,
    everything it writes in one call has the same level, that level is
    [log] exactly when the address is valid and [error] exactly when the
    address does not parse. *)
Theorem isValid_levels url :
  let r := LoggedUtilities.isValidAWSPortalURL url in
  ∃ l, r.2 ≠ [] ∧ Forall (λ e, entry_level e = l) r.2
       ∧ (l = Log ↔ r.1 = true)
       ∧ (l = Error
          ↔ truthy_arg url = true ∧ url_hostname (display url) = None).
Proof.
  rw /LoggedUtilities.isValidAWSPortalURL.
  destruct (truthy_arg url); cbn [negb];
    [destruct (url_hostname (display url)) as [h|];
     [destruct (existsb (matchesDomain (toLowerCase h)) supportedDomains)|]|];
    unfold_console;
    [exists Log|exists Warn|exists Error|exists Warn];
    repeat split; try done; try (by repeat constructor); by intros [? ?].
Qed.

(** The console tells what normalisation returns: for an address that
    is given, three lines at the level [log], the second of which shows
    the result; for none, one warning. *)
Theorem normalize_reported url :
  let r := LoggedUtilities.normalizeAWSPortalURL url in
  (truthy_arg url = true →
   at_level Warn r.2 = []
   ∧ lines r.2 = [lit "Original URL: " ++ display url;
                  lit "Normalized URL: " ++ normalizeAWSPortalURL url;
                  lit "Standard AWS portal: https://internal.awsapps.com/start"])
  ∧ (truthy_arg url = false →
     r = (lit "https://internal.awsapps.com/start",
          [Entry Warn [str "No URL provided for normalization. Using default: https://internal.awsapps.com/start"]])).
Proof.
  rw /LoggedUtilities.normalizeAWSPortalURL /normalizeAWSPortalURL.
  cbv zeta. split; intros Hu; rw Hu; [|done].
  destruct url as [u|]; [|done]. unfold_console. by split.
Qed.

Lemma normalize_reported_witness :
  let url := Some (lit " d-12345.awsapps.com") in
  let r := LoggedUtilities.normalizeAWSPortalURL url in
  at_level Warn r.2 = []
  ∧ lines r.2 = [lit "Original URL: " ++ display url;
                 lit "Normalized URL: " ++ normalizeAWSPortalURL url;
                 lit "Standard AWS portal: https://internal.awsapps.com/start"].
Proof. by apply (normalize_reported (Some (lit " d-12345.awsapps.com"))). Defined.

End logged_theorems.

Section console_theorems.
Implicit Types (url type subdomain : option jsstring) (u : jsstring).

(** The self-check of the configuration passes each of its four checks
    and says so: nothing is written at the level [error], and the lines
    are those of the checks that pass, between the opening line, the two
    lines of the lookup the fourth check makes, and the closing line. *)
Theorem validateAWSPortalConfig_console :
  let out := LoggedUtilities.validateAWSPortalConfig.2 in
  at_level Error out = []
  ∧ lines out
    = [lit "Validating AWS portal configuration...";
       text "✓ MAIN_PORTAL = https://internal.awsapps.com/start";
       text "✓ PRIMARY_URL = https://internal.awsapps.com/start";
       text "✓ INTERNAL = internal.awsapps.com";
       lit "AWS Portal URL requested (main): https://internal.awsapps.com/start";
       lit "Primary AWS portal: https://internal.awsapps.com/start";
       text "✓ getAWSPortalURL(main) = https://internal.awsapps.com/start";
       lit "Primary Portal: https://internal.awsapps.com/start"].
Proof. by vm_compute. Qed.

(** What navigation writes: the lines of building the address, four
    lines of its own, and one that depends on the host and on [newTab]. *)
Lemma navigate_output subdomain newTab w :
  let url := buildAWSPortalURL subdomain in
  (LoggedUtilities.navigateToAWSPortal subdomain newTab w).2
  = (LoggedUtilities.buildAWSPortalURL subdomain).2
    ++ [Entry Log [VStr (lit "Navigating to AWS portal: " ++ url)];
        Entry Log [str "Primary portal: https://internal.awsapps.com/start"];
        Entry Log [VStr (lit "Subdomain: " ++ default (lit "internal") subdomain)];
        Entry Log [VStr (lit "New tab: "
                         ++ to_string (VBool (default false newTab)))]]
    ++ [Entry Log [VStr (match w with
                         | Some _ =>
                             if default false newTab
                             then text "✓ Opened in new tab: " ++ url
                             else text "✓ Navigating to: " ++ url
                         | None => lit "URL to navigate to: " ++ url
                         end)]].
Proof.
  cbv zeta. rw /LoggedUtilities.navigateToAWSPortal.
  by destruct subdomain, w, (default false newTab).
Qed.

(** Navigation reports where it goes: it first writes what building the
    address writes, and its last line names the address that was opened or
    assigned, which is the address the window then shows when no new tab
    was asked for. *)
Theorem navigate_reported subdomain newTab w :
  let r := LoggedUtilities.navigateToAWSPortal subdomain newTab (Some w) in
  let url := buildAWSPortalURL subdomain in
  (LoggedUtilities.buildAWSPortalURL subdomain).2 `prefix_of` r.2
  ∧ list.last (lines r.2)
    = Some (if default false newTab then text "✓ Opened in new tab: " ++ url
            else text "✓ Navigating to: " ++ url)
  ∧ (default false newTab = false → location_href <$> r.1 = Some url).
Proof.
  cbv zeta. rw navigate_output navigate_value. split_and!.
  - by eexists.
  - by rw app_assoc lines_app last_snoc.
  - intros Hn. by rw /navigateToAWSPortal Hn.
Qed.

(** Looking up a portal by a type that [Object.prototype] defines writes
    the text of a built-in function where the address should stand. *)
Theorem getAWSPortalURL_console_inherited :
  lines (LoggedUtilities.getAWSPortalURL (Some (lit "constructor"))).2
  = [lit "AWS Portal URL requested (constructor): function Object() { [native code] }";
     lit "Primary AWS portal: https://internal.awsapps.com/start"].
Proof. by vm_compute. Qed.

End console_theorems.
