(* ===== verification/Api.v ===== *)
(** * The portal API module

    [src/aws-portal-api.js]: the constant objects [AWS_PORTAL_API] and
    [AWS_PORTAL_CONFIG], the class [AWSPortalAPIClient], the class
    [PortalRequestBuilder] and the functions around them.

    - [AWSPortalAPIClient]: an instance is a [client] record of the five
      properties the constructor sets.  The [async] methods are [io]
      computations over the history of [fetch] calls; an [await] is a bind
      and a rejected promise is a thrown value.
    - [PortalRequestBuilder]: an instance is a [builder] record whose
      [requests] is the location of an array and whose [headers] is absent
      or the location of an object; every method takes and returns the
      instance with the heap.  [build] returns the locations themselves, so
      that what it returns changes with the builder afterwards, as in the
      source.
    - The endpoint, the header name and the header value are strings, as
      their JSDoc says.  *)

From Corelib Require Import ssreflect_rw.
From stdpp Require Import strings.
From S2P Require Import Prelude JsString JsValue Url Utilities Runtime.

#[local] Open Scope js_scope.

Definition AWS_PORTAL_API : jsval := VObj [
  prop "BASE_URL" (str "https://internal.awsapps.com");
  prop "MAIN_ENDPOINT" (str "https://internal.awsapps.com/start");
  prop "PORTAL_ENDPOINT" (str "https://internal.awsapps.com/start");
  prop "API_ROOT" (str "https://internal.awsapps.com/api");
  prop "HOME" (str "https://internal.awsapps.com/start");
  prop "endpoints" (VObj [
    prop "portal" (str "https://internal.awsapps.com/start");
    prop "access" (str "https://internal.awsapps.com/start");
    prop "identity_center" (str "https://internal.awsapps.com/start");
    prop "home" (str "https://internal.awsapps.com/start");
    prop "sso" (str "https://internal.awsapps.com/start");
    prop "applications" (str "https://internal.awsapps.com/start");
    prop "users" (str "/users");
    prop "groups" (str "/groups");
    prop "sessions" (str "/sessions")
  ])
].

Definition AWS_PORTAL_CONFIG : jsval := VObj [
  prop "timeout" (VNum 30000);
  prop "headers" (VObj [
    prop "Content-Type" (str "application/json");
    prop "Accept" (str "application/json")
  ]);
  prop "portal" (VObj [
    prop "url" (str "https://internal.awsapps.com/start");
    prop "domain" (str "internal.awsapps.com");
    prop "name" (str "AWS IAM Identity Center Portal")
  ]);
  prop "request" (VObj [
    prop "method" (str "GET");
    prop "timeout" (VNum 30000);
    prop "retries" (VNum 3)
  ]);
  prop "response" (VObj [
    prop "timeout" (VNum 30000);
    prop "format" (str "json")
  ])
].

Definition portal_literal : jsstring := lit "https://internal.awsapps.com/start".
Definition domain_literal : jsstring := lit "internal.awsapps.com".
Definition base_literal : jsstring := lit "https://internal.awsapps.com".

(** ** AWSPortalAPIClient *)

Module AWSPortalAPIClient.

Record client : Type := Client {
  portalURL : jsstring;
  baseURL : jsstring;
  domain : jsstring;
  config : jsval;
  timeout : jsval;
}.

Definition constructor : client :=
  {| portalURL := portal_literal;
     baseURL := base_literal;
     domain := domain_literal;
     config := AWS_PORTAL_CONFIG;
     timeout := VNum 30000 |}.

Definition getPortalURL (this : client) : jsstring := portal_literal.

Definition getPortalDomain (this : client) : jsstring := domain_literal.

Definition buildEndpointURL (this : client) (endpoint : jsstring) : jsstring :=
  let baseURL := base_literal in
  baseURL ++ endpoint.

(** The object [requestConfig] of [makeRequest], with [body] when
    [options.body] is truthy.  The property accesses are in the order of the
    source; the first one on [undefined] or [null] throws. *)
Definition requestConfig `{Runtime} (this : client) (options : jsval)
  : result jsval jsval :=
  method ←r js_member options "method";
  defaults ←r js_member (config this) "headers";
  headers ←r js_member options "headers";
  timeout' ←r js_member options "timeout";
  body ←r js_member options "body";
  Ok (VObj ([prop "method" (js_or method (str "GET"));
             prop "headers" (VObj (assign (assign [] (spread defaults))
                                          (spread headers)));
             prop "timeout" (js_or timeout' (timeout this))]
            ++ if truthy body then [prop "body" (stringify body)] else [])).

(** [options] takes its default [{}] when the argument is [undefined]. *)
Definition makeRequest `{Runtime} (this : client) (endpoint : jsstring)
    (options : jsval) : io response :=
  let options := match options with VUndefined => VObj [] | _ => options end in
  let url := buildEndpointURL this endpoint in
  requestConfig ←io io_lift (requestConfig this options);
  io_catch (do_fetch url requestConfig) (λ error, io_throw error).

Definition getPortalApplications `{Runtime} (this : client) : io jsval :=
  io_catch
    (response ←io makeRequest this (lit "/applications") VUndefined;
     data ←io io_lift (json response);
     io_ret data)
    (λ error, io_throw error).

Definition getPortalUsers `{Runtime} (this : client) : io jsval :=
  io_catch
    (response ←io makeRequest this (lit "/users") VUndefined;
     data ←io io_lift (json response);
     io_ret data)
    (λ error, io_throw error).

Definition getPortalSessions `{Runtime} (this : client) : io jsval :=
  io_catch
    (response ←io makeRequest this (lit "/sessions") VUndefined;
     data ←io io_lift (json response);
     io_ret data)
    (λ error, io_throw error).

Definition validatePortalAccessibility `{Runtime} (this : client) : io bool :=
  io_catch
    (response ←io do_fetch portal_literal
                    (VObj [prop "method" (str "HEAD");
                           prop "timeout" (VNum 10000)]);
     let isAccessible := ok response in
     io_ret isAccessible)
    (λ error, io_ret false).

Definition getPortalMetadata (this : client) : jsval := VObj [
  prop "portal_url" (str "https://internal.awsapps.com/start");
  prop "domain" (str "internal.awsapps.com");
  prop "name" (str "AWS IAM Identity Center Portal");
  prop "description"
    (str "Main AWS access portal at https://internal.awsapps.com/start");
  prop "base_url" (str "https://internal.awsapps.com");
  prop "endpoints" (js_get AWS_PORTAL_API (lit "endpoints"))
].

(** What [makeRequest] passes to [fetch] for options that are an object:
    the request configuration, written without its property accesses that
    may throw. *)
Definition init_of `{Runtime} (this : client) (options : jsval) : jsval :=
  VObj ([prop "method" (js_or (js_get options (lit "method")) (str "GET"));
         prop "headers"
           (VObj (assign (assign [] (spread (js_get (config this) (lit "headers"))))
                         (spread (js_get options (lit "headers")))));
         prop "timeout" (js_or (js_get options (lit "timeout")) (timeout this))]
        ++ if truthy (js_get options (lit "body"))
           then [prop "body" (stringify (js_get options (lit "body")))]
           else []).

(** One request for JSON without options: the call at the endpoint under
    the fixed base, then [json()] of the response. *)
Definition request_json `{Runtime} (this : client) (endpoint : jsstring)
  : io jsval :=
  λ h, let url := base_literal ++ endpoint in
       let init := init_of this (VObj []) in
       (result_bind (fetch h url init) json, h ++ [Call url init]).

End AWSPortalAPIClient.

(** ** PortalRequestBuilder *)

Module PortalRequestBuilder.

Record builder : Type := Builder {
  portalURL : jsstring;
  baseURL : jsstring;
  requests : loc;
  headers : option loc;
}.

(** What [build] returns: [requests] and [headers] are references. *)
Record built : Type := Built {
  portal : jsstring;
  domain : jsstring;
  built_requests : loc;
  built_headers : loc;
}.

Definition state : Type := builder * heap.

Definition constructor (h : heap) : state :=
  let '(requests, h) := alloc h (CArr []) in
  ({| portalURL := portal_literal;
      baseURL := base_literal;
      requests := requests;
      headers := None |}, h).

Definition get (endpoint : jsstring) (s : state) : state :=
  let '(this, h) := s in
  let url := baseURL this ++ endpoint in
  (this, push h (requests this)
           (VObj [prop "method" (str "GET");
                  prop "url" (VStr url);
                  prop "endpoint" (VStr endpoint)])).

Definition post (endpoint : jsstring) (body : jsval) (s : state) : state :=
  let '(this, h) := s in
  let url := baseURL this ++ endpoint in
  (this, push h (requests this)
           (VObj [prop "method" (str "POST");
                  prop "url" (VStr url);
                  prop "endpoint" (VStr endpoint);
                  prop "body" body])).

(** [if (!this.headers) this.headers = {}]: the location of the headers,
    which are created where the builder has none. *)
Definition ensure_headers (s : state) : loc * state :=
  let '(this, h) := s in
  match headers this with
  | Some l => (l, s)
  | None =>
      let '(l, h) := alloc h (CObj []) in
      (l, ({| portalURL := portalURL this; baseURL := baseURL this;
              requests := requests this; headers := Some l |}, h))
  end.

Definition header (key value : jsstring) (s : state) : state :=
  let '(l, (this, h)) := ensure_headers s in
  (this, assign_string h l key value).

Definition build (s : state) : built * heap :=
  let '(this, h) := s in
  let '(headers, h) :=
    match headers this with
    | Some l => (l, h)
    | None => alloc h (CObj [])
    end in
  ({| portal := portal_literal;
      domain := domain_literal;
      built_requests := requests this;
      built_headers := headers |}, h).

(** The calls of a chain [new PortalRequestBuilder().get(..).header(..)..]. *)
Inductive method : Type :=
| Get (endpoint : jsstring)
| Post (endpoint : jsstring) (body : jsval)
| Header (key value : jsstring)
| Build.

Definition call_method (m : method) (s : state) : state :=
  match m with
  | Get endpoint => get endpoint s
  | Post endpoint body => post endpoint body s
  | Header key value => header key value s
  | Build => (s.1, (build s).2)
  end.

Definition chain (ms : list method) (s : state) : state :=
  foldl (λ s m, call_method m s) s ms.

(** The states a program reaches that creates a builder and calls its
    methods. *)
Inductive reachable : state → Prop :=
| reachable_new h : reachable (constructor h)
| reachable_call m s : reachable s → reachable (call_method m s).

(** *** The contract of the builder

    What a chain of calls promises, without the heap: the requests in the
    order of the calls, each with the address under the fixed base, and the
    headers, absent until the first call of [header]. *)

Record contract : Type := Contract {
  c_requests : list jsval;
  c_headers : option (list (jsstring * jsval));
}.

Definition request_of (m : method) : list jsval :=
  match m with
  | Get endpoint =>
      [VObj [prop "method" (str "GET");
             prop "url" (VStr (base_literal ++ endpoint));
             prop "endpoint" (VStr endpoint)]]
  | Post endpoint body =>
      [VObj [prop "method" (str "POST");
             prop "url" (VStr (base_literal ++ endpoint));
             prop "endpoint" (VStr endpoint);
             prop "body" body]]
  | _ => []
  end.

Definition headers_after (m : method)
    (hs : option (list (jsstring * jsval)))
  : option (list (jsstring * jsval)) :=
  match m with
  | Header key value =>
      Some (if str_eq key (lit "__proto__") then default [] hs
            else set_own (default [] hs) key (VStr value))
  | _ => hs
  end.

Definition contract_step (m : method) (c : contract) : contract :=
  {| c_requests := c_requests c ++ request_of m;
     c_headers := headers_after m (c_headers c) |}.

Definition contract_of (ms : list method) : contract :=
  foldl (λ c m, contract_step m c) (Contract [] None) ms.

(** The contract a state of the builder stands for. *)
Definition abstraction (s : state) : contract :=
  {| c_requests := array_at s.2 (requests s.1);
     c_headers := object_at s.2 <$> headers s.1 |}.

(** A request as [get] and [post] make it: the address is the endpoint
    under the fixed base, and the method is [GET] or [POST]. *)
Definition is_request (r : jsval) : bool :=
  match js_get r (lit "url"), js_get r (lit "endpoint") with
  | VStr url, VStr endpoint =>
      str_eq url (base_literal ++ endpoint)
      && (strict_eq_str (js_get r (lit "method")) (lit "GET")
          || strict_eq_str (js_get r (lit "method")) (lit "POST"))
  | _, _ => false
  end.

(** The locations of the builder hold an array and an object, and the base
    address is the one of the constructor. *)
Definition wf (s : state) : Prop :=
  is_array s.2 (requests s.1)
  ∧ (∀ l, headers s.1 = Some l → is_object s.2 l)
  ∧ baseURL s.1 = base_literal
  ∧ portalURL s.1 = portal_literal.

End PortalRequestBuilder.

(** ** Functions of the module *)

Definition createPortalAPIClient : AWSPortalAPIClient.client :=
  AWSPortalAPIClient.constructor.

Definition getPortalAPIInfo : jsval := VObj [
  prop "portal" (str "https://internal.awsapps.com/start");
  prop "domain" (str "internal.awsapps.com");
  prop "base_url" (str "https://internal.awsapps.com");
  prop "endpoints" (js_get AWS_PORTAL_API (lit "endpoints"));
  prop "config" AWS_PORTAL_CONFIG
].

(** [results.tests] starts empty and gets [accessibility], then [metadata].
    The handler leaves [tests] as it is when the error is thrown: the one
    call that can throw precedes the first assignment. *)
Definition testPortalConnectivity `{Runtime} : io jsval :=
  let client := createPortalAPIClient in
  tests ←io io_catch
    (accessibility ←io AWSPortalAPIClient.validatePortalAccessibility client;
     let tests := set_own [] (lit "accessibility") (VBool accessibility) in
     let tests := set_own tests (lit "metadata")
                    (AWSPortalAPIClient.getPortalMetadata client) in
     io_ret tests)
    (λ error, io_ret []);
  io_ret (VObj [prop "portal" (str "https://internal.awsapps.com/start");
                prop "domain" (str "internal.awsapps.com");
                prop "tests" (VObj tests)]).

(** The client the module creates when it is loaded. *)
Definition portalAPIClient : AWSPortalAPIClient.client := createPortalAPIClient.

(** ** The client: lemmas *)

Section client_lemmas.
Context `{Runtime}.
Import AWSPortalAPIClient.
Implicit Types (this : client) (endpoint : jsstring) (options : jsval)
  (h : list call).

Lemma init_of_headers this options :
  js_get (init_of this options) (lit "headers")
  = VObj (assign (assign [] (spread (js_get (config this) (lit "headers"))))
                 (spread (js_get options (lit "headers")))).
Proof. reflexivity. Qed.

Lemma init_of_method this options :
  js_get (init_of this options) (lit "method")
  = js_or (js_get options (lit "method")) (str "GET").
Proof. reflexivity. Qed.

Lemma init_of_timeout this options :
  js_get (init_of this options) (lit "timeout")
  = js_or (js_get options (lit "timeout")) (timeout this).
Proof. reflexivity. Qed.

Lemma requestConfig_ok this options :
  nullish options = false → nullish (config this) = false →
  requestConfig this options = Ok (init_of this options).
Proof. intros Ho Hc. by rw /requestConfig !js_member_ok. Qed.

Lemma requestConfig_throw this options :
  nullish options || nullish (config this) = true →
  requestConfig this options = Throw TypeError.
Proof.
  rw /requestConfig. destruct (nullish options) eqn:Ho.
  - by rw (js_member_throw options).
  - intros Hc. by rw (js_member_ok options) // (js_member_throw (config this)).
Qed.

Lemma makeRequest_run this endpoint options h :
  nullish options = false → nullish (config this) = false →
  makeRequest this endpoint options h
  = (fetch h (base_literal ++ endpoint) (init_of this options),
     h ++ [Call (base_literal ++ endpoint) (init_of this options)]).
Proof.
  intros Ho Hc. rw /makeRequest.
  replace (match options with VUndefined => _ | _ => options end)
    with options by by destruct options.
  rw /io_bind /io_lift requestConfig_ok // /io_catch /do_fetch.
  by destruct (fetch _ _ _).
Qed.

Lemma makeRequest_default this endpoint h :
  nullish (config this) = false →
  makeRequest this endpoint VUndefined h
  = (fetch h (base_literal ++ endpoint) (init_of this (VObj [])),
     h ++ [Call (base_literal ++ endpoint) (init_of this (VObj []))]).
Proof.
  intros Hc. rw /makeRequest /io_bind /io_lift requestConfig_ok //.
  rw /io_catch /do_fetch. by destruct (fetch _ _ _).
Qed.

Lemma request_json_run this endpoint :
  nullish (config this) = false →
  (io_catch
     (response ←io makeRequest this endpoint VUndefined;
      data ←io io_lift (json response);
      io_ret data)
     (λ error, io_throw error) ≡io request_json this endpoint)%js.
Proof.
  intros Hc h. rw /io_catch /io_bind makeRequest_default // /request_json.
  destruct (fetch _ _ _) as [r|e]; simpl; [|done].
  rw /io_lift. by destruct (json r).
Qed.

Lemma validatePortalAccessibility_run this h :
  validatePortalAccessibility this h
  = (Ok (match fetch h mainPortal
                 (VObj [prop "method" (str "HEAD");
                        prop "timeout" (VNum 10000)]) with
         | Ok response => ok response
         | Throw _ => false
         end),
     h ++ [Call mainPortal
             (VObj [prop "method" (str "HEAD"); prop "timeout" (VNum 10000)])]).
Proof.
  rw /validatePortalAccessibility /io_catch /io_bind /do_fetch.
  change portal_literal with mainPortal. by destruct (fetch _ _ _).
Qed.

End client_lemmas.

(** ** The client: theorems *)

Section client_theorems.
Context `{Runtime}.
Import AWSPortalAPIClient.
Implicit Types (this : client) (endpoint : jsstring) (options : jsval)
  (h : list call).

(** C4: [makeRequest] with options that are not [null], on a client whose
    [config] is set, calls [fetch] exactly once, at the fixed base followed
    by the endpoint and with the request configuration; what [fetch]
    returns or throws is what [makeRequest] returns or throws.  An absent
    [options] is the empty object. *)
Theorem makeRequest_spec this endpoint options h :
  options ≠ VNull → nullish (config this) = false →
  let options' := match options with VUndefined => VObj [] | _ => options end in
  makeRequest this endpoint options h
  = (fetch h (base_literal ++ endpoint) (init_of this options'),
     h ++ [Call (base_literal ++ endpoint) (init_of this options')]).
Proof.
  intros Ho Hc. destruct options; try done;
    by (apply makeRequest_default || apply makeRequest_run).
Qed.


(** C19: [makeRequest] with [null] for options, or on a client whose [config]
    was removed, throws a [TypeError] and calls [fetch] not at all. *)
Theorem makeRequest_null this endpoint options h :
  options = VNull ∨ nullish (config this) = true →
  makeRequest this endpoint options h = (Throw TypeError, h).
Proof.
  intros Hn. rw /makeRequest /io_bind /io_lift requestConfig_throw //.
  revert Hn. intros [->| ->]; [done|]. apply orb_true_r.
Qed.


(** C28: the address [makeRequest] calls and everything else it does is the
    same for two clients with the same [config] and [timeout]: the
    properties [baseURL], [portalURL] and [domain] of the client are never
    read. *)
Theorem makeRequest_ignores_baseURL this1 this2 endpoint options :
  config this1 = config this2 → timeout this1 = timeout this2 →
  (makeRequest this1 endpoint options ≡io makeRequest this2 endpoint options)%js.
Proof.
  intros Hc Ht h. by rw /makeRequest /buildEndpointURL /requestConfig Hc Ht.
Qed.


(** C20: in the request configuration a header of [options.headers] replaces
    the default of the same name, and a default that [options.headers] does
    not name is kept. *)
Theorem request_headers_override this (options : list (jsstring * jsval))
    (hs defaults : list (jsstring * jsval)) k :
  NoDup hs.*1 → NoDup defaults.*1 →
  js_get (config this) (lit "headers") = VObj defaults →
  get_own options (lit "headers") = Some (VObj hs) →
  get_own (own_props (js_get (init_of this (VObj options)) (lit "headers"))) k
  = match get_own hs k with
    | Some v => Some v
    | None => get_own defaults k
    end.
Proof.
  intros Hhs Hd Hc Ho. rw init_of_headers Hc (js_get_own _ _ _ Ho).
  rw [own_props _]/= !get_own_assign !get_own_reverse //.
  by destruct (get_own hs k), (get_own defaults k).
Qed.

(** C13: the three requests for JSON call [fetch] once, at the base followed
    by [/applications], [/users] and [/sessions], with the method [GET], the
    default headers and the timeout of the client; each returns what
    [json()] of the response returns and throws what [fetch] or [json()]
    throws. *)
Theorem getPortal_spec this :
  nullish (config this) = false →
  (getPortalApplications this ≡io request_json this (lit "/applications"))%js
  ∧ (getPortalUsers this ≡io request_json this (lit "/users"))%js
  ∧ (getPortalSessions this ≡io request_json this (lit "/sessions"))%js.
Proof. intros Hc. split_and!; by apply request_json_run. Qed.

(** C10: [validatePortalAccessibility] never throws: it calls [fetch] once,
    with the method [HEAD] at the main portal, and returns [ok] of the
    response, or [false] when [fetch] throws. *)
Theorem validatePortalAccessibility_spec this h :
  let init := VObj [prop "method" (str "HEAD"); prop "timeout" (VNum 10000)] in
  validatePortalAccessibility this h
  = (Ok (match fetch h mainPortal init with
         | Ok response => ok response
         | Throw _ => false
         end),
     h ++ [Call mainPortal init]).
Proof.
  apply validatePortalAccessibility_run.
Qed.

(** C16: [testPortalConnectivity] never throws and always returns both tests:
    it calls [fetch] once, and [tests] holds the accessibility of the main
    portal and the metadata of the client. *)
Theorem testPortalConnectivity_spec h :
  ∃ accessibility : bool,
    (validatePortalAccessibility createPortalAPIClient h).1 = Ok accessibility
    ∧ testPortalConnectivity h
      = (Ok (VObj [prop "portal" (VStr mainPortal);
                   prop "domain" (VStr domain_literal);
                   prop "tests"
                     (VObj [prop "accessibility" (VBool accessibility);
                            prop "metadata"
                              (getPortalMetadata createPortalAPIClient)])]),
         h ++ [Call mainPortal
                 (VObj [prop "method" (str "HEAD");
                        prop "timeout" (VNum 10000)])]).
Proof.
  rw /testPortalConnectivity /io_bind /io_catch validatePortalAccessibility_run.
  by eexists.
Qed.

(** C21: every address the client calls for an endpoint that starts a path,
    a query or a fragment has the host of the main portal, and passes the
    validator of the resolver, whatever the parser of addresses. *)
Theorem buildEndpointURL_valid `{UrlParser} this endpoint :
  after_host endpoint = true →
  getAWSPortalDomain (Some (buildEndpointURL this endpoint))
  = Some domain_literal
  ∧ isValidAWSPortalURL (Some (buildEndpointURL this endpoint)) = true.
Proof.
  intros He.
  assert (url_hostname (buildEndpointURL this endpoint) = Some domain_literal)
    as Hh by by apply (url_hostname_https domain_literal endpoint).
  split; [done|].
  by apply (isValid_intro _ domain_literal (lit "awsapps.com"));
    [| |left|].
Qed.

End client_theorems.

Lemma makeRequest_spec_witness :
  @AWSPortalAPIClient.makeRequest offline AWSPortalAPIClient.constructor
    (lit "/users") VUndefined []
  = (Throw TypeError,
     [Call (lit "https://internal.awsapps.com/users")
        (@AWSPortalAPIClient.init_of offline AWSPortalAPIClient.constructor
           (VObj []))]).
Proof.
  by apply (@makeRequest_spec offline AWSPortalAPIClient.constructor
              (lit "/users") VUndefined []).
Defined.

Lemma makeRequest_null_witness :
  @AWSPortalAPIClient.makeRequest offline AWSPortalAPIClient.constructor
    (lit "/users") VNull []
  = (Throw TypeError, []).
Proof. apply (@makeRequest_null offline). by left. Defined.

Lemma makeRequest_ignores_baseURL_witness :
  (@AWSPortalAPIClient.makeRequest offline AWSPortalAPIClient.constructor
     (lit "/users") VUndefined
   ≡io @AWSPortalAPIClient.makeRequest offline
         (AWSPortalAPIClient.Client [] (lit "https://example.org") []
            AWS_PORTAL_CONFIG (VNum 30000))
         (lit "/users") VUndefined)%js.
Proof. by apply (@makeRequest_ignores_baseURL offline). Defined.

Lemma request_headers_override_witness :
  get_own (own_props (js_get
     (@AWSPortalAPIClient.init_of offline AWSPortalAPIClient.constructor
        (VObj [prop "headers" (VObj [prop "Accept" (str "text/html")])]))
     (lit "headers"))) (lit "Accept")
  = Some (str "text/html").
Proof.
  apply (@request_headers_override offline AWSPortalAPIClient.constructor
           [prop "headers" (VObj [prop "Accept" (str "text/html")])]
           [prop "Accept" (str "text/html")]
           [prop "Content-Type" (str "application/json");
            prop "Accept" (str "application/json")] (lit "Accept"));
    try done; by apply (bool_decide_unpack _).
Defined.

Lemma getPortal_spec_witness :
  (@AWSPortalAPIClient.getPortalApplications offline
     AWSPortalAPIClient.constructor
   ≡io @AWSPortalAPIClient.request_json offline
         AWSPortalAPIClient.constructor (lit "/applications"))%js
  ∧ (@AWSPortalAPIClient.getPortalUsers offline AWSPortalAPIClient.constructor
     ≡io @AWSPortalAPIClient.request_json offline
           AWSPortalAPIClient.constructor (lit "/users"))%js
  ∧ (@AWSPortalAPIClient.getPortalSessions offline
       AWSPortalAPIClient.constructor
     ≡io @AWSPortalAPIClient.request_json offline
           AWSPortalAPIClient.constructor (lit "/sessions"))%js.
Proof. by apply (@getPortal_spec offline). Defined.

Lemma buildEndpointURL_valid_witness :
  getAWSPortalDomain
    (Some (AWSPortalAPIClient.buildEndpointURL AWSPortalAPIClient.constructor
             (lit "/users")))
  = Some domain_literal
  ∧ isValidAWSPortalURL
      (Some (AWSPortalAPIClient.buildEndpointURL AWSPortalAPIClient.constructor
               (lit "/users"))) = true.
Proof. by apply buildEndpointURL_valid. Defined.


(** ** The request builder: lemmas *)

Section builder_lemmas.
Import PortalRequestBuilder.
Implicit Types (s : state) (m : method) (ms : list method) (h : heap)
  (endpoint key value : jsstring) (body : jsval).

Lemma wf_constructor h : wf (constructor h).
Proof.
  split_and!; [|done..]. exists []. apply (alloc_lookup h (CArr [])).
Qed.

Lemma ensure_headers_spec s :
  wf s →
  let '(l, s') := ensure_headers s in
  wf s' ∧ headers s'.1 = Some l
  ∧ requests s'.1 = requests s.1
  ∧ array_at s'.2 (requests s.1) = array_at s.2 (requests s.1)
  ∧ object_at s'.2 l = default [] (object_at s.2 <$> headers s.1).
Proof.
  destruct s as [[pu bu rq [l|]] h]; intros (Ha & Ho & Hb & Hp); simpl in *.
  { by split_and!. }
  split_and!; try done.
  - split_and!; simpl; [by apply is_array_alloc| |done..].
    intros ? [= <-]. exists []. apply (alloc_lookup h (CObj [])).
  - by apply array_at_alloc.
  - apply object_at_new.
Qed.

Lemma wf_push s v : wf s → wf (s.1, push s.2 (requests s.1) v).
Proof.
  intros (Ha & Ho & Hb & Hp). split_and!; simpl; [|intros l Hl|done..].
  - by apply is_array_push.
  - by apply is_object_push, Ho.
Qed.

Lemma wf_header key value s : wf s → wf (header key value s).
Proof.
  intros Hs. rw /header. pose proof (ensure_headers_spec s Hs) as H.
  destruct (ensure_headers s) as [l [this h]].
  destruct H as ((Ha & Ho & Hb & Hp) & Hl & _). simpl in *.
  split_and!; simpl; [|intros l' Hl'|done..].
  - by apply is_array_assign_string.
  - by apply is_object_assign_string, Ho.
Qed.

Lemma wf_build s : wf s → wf (s.1, (build s).2).
Proof.
  destruct s as [[pu bu rq [l|]] h]; [done|].
  intros (Ha & Ho & Hb & Hp). split_and!; simpl in *; [|done..].
  by apply is_array_alloc.
Qed.

Lemma wf_call_method m s : wf s → wf (call_method m s).
Proof.
  destruct m as [e|e b|k v|]; simpl;
    [destruct s; apply (wf_push (_, _)) ..| apply wf_header | apply wf_build].
Qed.

Lemma abstraction_push s v :
  wf s →
  abstraction (s.1, push s.2 (requests s.1) v)
  = {| c_requests := c_requests (abstraction s) ++ [v];
       c_headers := c_headers (abstraction s) |}.
Proof.
  intros (Ha & Ho & _). rw /abstraction /=. f_equal.
  - by apply array_at_push.
  - destruct (headers s.1); [|done]. simpl. by rw object_at_push.
Qed.

Lemma abstraction_header key value s :
  wf s →
  abstraction (header key value s) = contract_step (Header key value) (abstraction s).
Proof.
  intros Hs. rw /header. pose proof (ensure_headers_spec s Hs) as H.
  destruct (ensure_headers s) as [l [this h]].
  destruct H as ((Ha & Ho & Hb & Hp) & Hl & Hr & Harr & Hobj). simpl in *.
  rw /abstraction /contract_step /= Hl /= Hr. f_equal.
  - by rw array_at_assign_string app_nil_r.
  - rw object_at_assign_string; [by apply Ho|]. by rw Hobj.
Qed.

Lemma abstraction_build s : wf s → abstraction (s.1, (build s).2) = abstraction s.
Proof.
  destruct s as [[pu bu rq [l|]] h]; [done|].
  intros (Ha & _). rw /abstraction /=. f_equal. by apply array_at_alloc.
Qed.

(** Each method of the builder does to the state what its contract says. *)
Lemma abstraction_call_method m s :
  wf s → abstraction (call_method m s) = contract_step m (abstraction s).
Proof.
  intros Hs. destruct m as [e|e b|k v|]; simpl.
  - destruct s as [this h]. rw (abstraction_push (this, h)) //.
    destruct Hs as (_ & _ & Hb & _). simpl in Hb. by rw Hb.
  - destruct s as [this h]. rw (abstraction_push (this, h)) //.
    destruct Hs as (_ & _ & Hb & _). simpl in Hb. by rw Hb.
  - by apply abstraction_header.
  - rw abstraction_build // /contract_step /abstraction /=.
    by rw app_nil_r.
Qed.

Lemma wf_chain ms s : wf s → wf (chain ms s).
Proof.
  revert s. induction ms as [|m ms IH]; intros s Hs; [done|].
  by apply IH, wf_call_method.
Qed.

Lemma abstraction_chain ms s :
  wf s →
  abstraction (chain ms s) = foldl (λ c m, contract_step m c) (abstraction s) ms.
Proof.
  revert s. induction ms as [|m ms IH]; intros s Hs; [done|].
  simpl. rw IH; [by apply wf_call_method|]. by rw abstraction_call_method.
Qed.

Lemma chain_app ms1 ms2 s : chain (ms1 ++ ms2) s = chain ms2 (chain ms1 s).
Proof. by rw /chain foldl_app. Qed.

Lemma contract_of_snoc ms m :
  contract_of (ms ++ [m]) = contract_step m (contract_of ms).
Proof. by rw /contract_of foldl_snoc. Qed.

(** The reachable states are those of the chains of calls on a new
    builder. *)
Lemma reachable_chain s :
  reachable s ↔ ∃ h ms, s = chain ms (constructor h).
Proof.
  split.
  - induction 1 as [h|m s _ (h & ms & ->)]; [by exists h, []|].
    exists h, (ms ++ [m]). by rw chain_app.
  - intros (h & ms & ->). induction ms as [|m ms IH] using rev_ind.
    + constructor.
    + rw chain_app. by constructor.
Qed.

Lemma is_request_of m : Forall (λ r, is_request r = true) (request_of m).
Proof.
  destruct m as [e|e b|k v|]; simpl; repeat constructor.
  - rw /is_request. change (str_eq (base_literal ++ e) (base_literal ++ e) && true = true).
    by rw str_eq_refl.
  - rw /is_request. change (str_eq (base_literal ++ e) (base_literal ++ e) && true = true).
    by rw str_eq_refl.
Qed.

Lemma contract_requests ms :
  Forall (λ r, is_request r = true) (c_requests (contract_of ms)).
Proof.
  induction ms as [|m ms IH] using rev_ind; [done|].
  rw contract_of_snoc /=. apply Forall_app. split; [done|apply is_request_of].
Qed.

End builder_lemmas.

Section builder_reachable.
Import PortalRequestBuilder.
Implicit Types (s : state) (m : method) (ms : list method) (h : heap)
  (endpoint key value : jsstring) (body : jsval).

Lemma reachable_is_wf s : reachable s → wf s.
Proof. induction 1; [apply wf_constructor | by apply wf_call_method]. Qed.

Lemma abstraction_new ms h : abstraction (chain ms (constructor h)) = contract_of ms.
Proof.
  rw abstraction_chain; [apply wf_constructor|].
  by rw /abstraction /constructor /= (array_at_new h []).
Qed.

Lemma builder_call_method m s :
  (call_method m s).1
  = match m, headers s.1 with
    | Header _ _, None =>
        {| portalURL := portalURL s.1; baseURL := baseURL s.1;
           requests := requests s.1; headers := Some (length s.2) |}
    | _, _ => s.1
    end.
Proof. by destruct m, s as [[pu bu rq [l|]] h]. Qed.

Lemma requests_call_method m s : requests (call_method m s).1 = requests s.1.
Proof. rw builder_call_method. by destruct m, (headers s.1). Qed.

Lemma object_at_assign_string_ne h l l' k v :
  l ≠ l' → object_at (assign_string h l k v) l' = object_at h l'.
Proof. intros Hne. by rw /object_at lookup_assign_string_ne. Qed.

End builder_reachable.

(** ** The request builder: theorems *)

Section builder_theorems.
Import PortalRequestBuilder.
Implicit Types (s : state) (m : method) (ms : list method) (h : heap)
  (endpoint key value : jsstring) (body : jsval).

(** C11: in every state a program reaches by creating a builder and calling
    its methods, [requests] is an array, [headers] is absent or an object,
    the base address is that of the constructor, and every element of
    [requests] has the method [GET] or [POST] and for address its endpoint
    under [https://internal.awsapps.com]. *)
Theorem builder_invariant s :
  reachable s →
  wf s ∧ Forall (λ r, is_request r = true) (array_at s.2 (requests s.1)).
Proof.
  intros Hs. split; [by apply reachable_is_wf|].
  apply reachable_chain in Hs as (h & ms & ->).
  change (Forall (λ r, is_request r = true)
            (c_requests (abstraction (chain ms (constructor h))))).
  rw abstraction_new. apply contract_requests.
Qed.

Lemma builder_invariant_witness :
  wf (call_method (Get (lit "/users")) (constructor []))
  ∧ Forall (λ r, is_request r = true)
      (array_at (call_method (Get (lit "/users")) (constructor [])).2
         (requests (call_method (Get (lit "/users")) (constructor [])).1)).
Proof. apply builder_invariant. do 2 constructor. Defined.

(** C3: every method of the builder does, on a reachable state, to the
    requests and headers what the contract says: the concrete builder with
    its heap simulates the contract. *)
Theorem builder_simulation m s :
  reachable s →
  abstraction (call_method m s) = contract_step m (abstraction s).
Proof. intros Hs. by apply abstraction_call_method, reachable_is_wf. Qed.

Lemma builder_simulation_witness :
  abstraction (call_method (Header (lit "Accept") (lit "text/html"))
                 (constructor []))
  = contract_step (Header (lit "Accept") (lit "text/html"))
      (abstraction (constructor [])).
Proof. apply builder_simulation. constructor. Defined.

(** C27: after a chain of calls on a new builder, whatever the heap it is
    created in, the requests are those of the calls of [get] and [post] in
    their order, and the headers those of the calls of [header], the last
    value of a name replacing the earlier ones. *)
Theorem chain_contract ms h :
  abstraction (chain ms (constructor h)) = contract_of ms.
Proof. apply abstraction_new. Qed.

(** C8: the object that [build] returns holds the array of the builder
    itself: a request added after [build] appears in what [build] had
    returned. *)
Theorem build_shares_requests m s :
  reachable s →
  array_at (call_method m (s.1, (build s).2)).2 (built_requests (build s).1)
  = array_at s.2 (requests s.1) ++ request_of m.
Proof.
  intros Hs%reachable_is_wf.
  transitivity (c_requests (abstraction (call_method m (s.1, (build s).2)))).
  - rw /abstraction /= requests_call_method.
    by destruct s as [[pu bu rq [l|]] h].
  - rw abstraction_call_method; [by apply wf_build|].
    by rw abstraction_build.
Qed.

Lemma build_shares_requests_witness :
  array_at (call_method (Get (lit "/users"))
              ((constructor []).1, (build (constructor [])).2)).2
    (built_requests (build (constructor [])).1)
  = array_at (constructor []).2 (requests (constructor []).1)
    ++ request_of (Get (lit "/users")).
Proof. apply build_shares_requests. constructor. Defined.

(** C15: the headers that [build] returns follow the builder only when
    [header] was called before [build]: then a header set afterwards
    appears in what [build] had returned; otherwise [build] returned an
    object of its own, which stays empty. *)
Theorem build_headers_alias key value s :
  reachable s →
  object_at (header key value (s.1, (build s).2)).2 (built_headers (build s).1)
  = match headers s.1 with
    | None => []
    | Some l => if str_eq key (lit "__proto__") then object_at s.2 l
                else set_own (object_at s.2 l) key (VStr value)
    end.
Proof.
  intros (Ha & Ho & _)%reachable_is_wf.
  destruct s as [[pu bu rq [l|]] h]; simpl in *.
  - rw /header /=. by apply object_at_assign_string, Ho.
  - rw /header /= object_at_assign_string_ne; [rw length_app /=; lia|].
    rw (object_at_alloc _ _ (length h)); [|apply object_at_new].
    exists []. apply (alloc_lookup h (CObj [])).
Qed.

Lemma build_headers_alias_witness :
  object_at (header (lit "Accept") (lit "text/html")
               ((constructor []).1, (build (constructor [])).2)).2
    (built_headers (build (constructor [])).1)
  = [].
Proof.
  apply (build_headers_alias (lit "Accept") (lit "text/html") (constructor [])).
  constructor.
Defined.

(** C26: a header named [__proto__] is dropped: after [header('__proto__', v)]
    the headers exist and are those from before the call, and they do not
    define [__proto__]. *)
Theorem header_proto_dropped ms value h :
  c_headers (abstraction (chain (ms ++ [Header (lit "__proto__") value])
                            (constructor h)))
  = Some (default [] (c_headers (contract_of ms))).
Proof. by rw abstraction_new contract_of_snoc. Qed.

(** C25: after [header(key, value)] on a reachable state, for a name other
    than [__proto__], the headers define [key] as [value] and every other
    name as before. *)
Theorem header_lookup key value s :
  reachable s → key ≠ lit "__proto__" →
  ∃ props,
    c_headers (abstraction (header key value s)) = Some props
    ∧ get_own props key = Some (VStr value)
    ∧ ∀ k, k ≠ key →
        get_own props k = get_own (default [] (c_headers (abstraction s))) k.
Proof.
  intros Hs%reachable_is_wf Hk. rw abstraction_header //.
  eexists. split; [done|]. rw -str_eq_spec in Hk.
  apply not_true_iff_false in Hk. rw Hk. split; [apply get_own_set_own_eq|].
  intros k Hne. by apply get_own_set_own_ne.
Qed.

Lemma header_lookup_witness :
  ∃ props,
    c_headers (abstraction (header (lit "Accept") (lit "text/html")
                              (constructor []))) = Some props
    ∧ get_own props (lit "Accept") = Some (VStr (lit "text/html"))
    ∧ ∀ k, k ≠ lit "Accept" →
        get_own props k
        = get_own (default [] (c_headers (abstraction (constructor [])))) k.
Proof. apply header_lookup; [constructor | by apply (bool_decide_unpack _)]. Defined.

(** A call of [get] and a call of [header] commute: the requests and
    the headers do not depend on the order of the two. *)
Theorem get_header_commute endpoint key value s :
  reachable s →
  abstraction (get endpoint (header key value s))
  = abstraction (header key value (get endpoint s)).
Proof.
  intros Hs.
  pose proof (reachable_call (Header key value) s Hs) as H1.
  pose proof (reachable_call (Get endpoint) s Hs) as H2.
  apply reachable_is_wf in Hs, H1, H2.
  rw (abstraction_call_method (Get endpoint) _ H1).
  rw (abstraction_call_method (Header key value) _ H2).
  rw (abstraction_call_method (Get endpoint) _ Hs).
  rw (abstraction_call_method (Header key value) _ Hs).
  rw /contract_step /=. by rw !app_nil_r.
Qed.

Lemma get_header_commute_witness :
  abstraction (get (lit "/users")
                 (header (lit "Accept") (lit "text/html") (constructor [])))
  = abstraction (header (lit "Accept") (lit "text/html")
                   (get (lit "/users") (constructor []))).
Proof. apply get_header_commute. constructor. Defined.

End builder_theorems.

(** ** The client and its tables *)

Section client_tables.
Context `{Runtime}.
Import AWSPortalAPIClient.

(** The table [AWS_PORTAL_API.endpoints] is not what the client calls:
    for applications the table holds the address of the main portal, and
    [getPortalApplications] calls [/applications] under the base; for users
    and sessions the call is the base followed by the entry of the table. *)
Theorem endpoints_table_unused h :
  js_path AWS_PORTAL_API ["endpoints"; "applications"] = VStr mainPortal
  ∧ call_url <$> (getPortalApplications constructor h).2
    = (call_url <$> h) ++ [lit "https://internal.awsapps.com/applications"]
  ∧ call_url <$> (getPortalUsers constructor h).2
    = (call_url <$> h)
      ++ [base_literal ++ str_at (js_get AWS_PORTAL_API (lit "endpoints")) "users"]
  ∧ call_url <$> (getPortalSessions constructor h).2
    = (call_url <$> h)
      ++ [base_literal
          ++ str_at (js_get AWS_PORTAL_API (lit "endpoints")) "sessions"].
Proof.
  split; [done|].
  split_and!;
    [rw /getPortalApplications | rw /getPortalUsers | rw /getPortalSessions];
    by rw (request_json_run constructor _ eq_refl h) /request_json /= fmap_app.
Qed.

(** The request configuration of a call without options on a new client
    has the method [GET], the two default headers and the timeout 30000,
    and no body; a timeout of 0 and an empty method in the options are
    replaced by the defaults. *)
Theorem request_defaults :
  init_of constructor (VObj [])
  = VObj [prop "method" (str "GET");
          prop "headers" (VObj [prop "Content-Type" (str "application/json");
                                prop "Accept" (str "application/json")]);
          prop "timeout" (VNum 30000)]
  ∧ init_of constructor (VObj [prop "timeout" (VNum 0); prop "method" (str "")])
    = init_of constructor (VObj []).
Proof. split; by vm_compute. Qed.

End client_tables.

(** C34: an endpoint is appended to the base as it is, so that it can
    continue the host name: for every endpoint that starts with a run of
    host characters, the client calls the host made of the portal's and
    of that run, and the address is a valid portal address only if that
    host is one. *)
Theorem buildEndpointURL_foreign_host `{UrlParser} this t rest :
  plain_host (domain_literal ++ t) = true → after_host rest = true →
  let url := AWSPortalAPIClient.buildEndpointURL this (t ++ rest) in
  getAWSPortalDomain (Some url) = Some (domain_literal ++ t)
  ∧ isValidAWSPortalURL (Some url)
    = existsb (matchesDomain (domain_literal ++ t)) supportedDomains.
Proof.
  intros Hh Hr url.
  assert (url_hostname url = Some (domain_literal ++ t)) as Hu.
  { rw /url /AWSPortalAPIClient.buildEndpointURL /base_literal.
    change (lit "https://internal.awsapps.com")
      with (lit "https://" ++ domain_literal).
    rw -!app_assoc (app_assoc domain_literal). by apply url_hostname_https. }
  split; [done|]. by apply host_valid_iff.
Qed.

Lemma buildEndpointURL_foreign_host_witness :
  let url := AWSPortalAPIClient.buildEndpointURL AWSPortalAPIClient.constructor
               (lit ".example.org" ++ lit "/users") in
  getAWSPortalDomain (Some url)
  = Some (domain_literal ++ lit ".example.org")
  ∧ isValidAWSPortalURL (Some url)
    = existsb (matchesDomain (domain_literal ++ lit ".example.org"))
        supportedDomains.
Proof. by apply buildEndpointURL_foreign_host. Defined.
