(* ===== verification/ApiLog.v ===== *)
(** * The portal client with its console

    The classes and functions of [src/aws-portal-api.js] once more, with
    every call of the console they make, in the order they make it:

    - [Module LoggedClient]: the methods of [AWSPortalAPIClient].  The
      synchronous ones are [logged] values, the asynchronous ones are [lio]
      computations over the history of requests.  [makeRequest] writes its
      five lines before it reads a property of its options, so they are
      written also when that read throws; its handler writes the error it
      caught and throws it again, and the handler of the method that
      called it writes once more;
    - [Module LoggedBuilder]: the methods of [PortalRequestBuilder], with
      the state changes of [Api.v]; [header] writes nothing;
    - the functions of the module, [logPortalAPIInfo] with its loop over
      the entries of [AWS_PORTAL_API.endpoints] among them, and what the
      file writes when it is loaded.

    The theorems show that the logged computations, with their console
    erased, are the computations of [Api.v]; when [makeRequest] writes an
    error; and that the handler of [testPortalConnectivity] never runs. *)

From Corelib Require Import ssreflect_rw.
From stdpp Require Import strings.
From S2P Require Import Prelude JsString SourceText JsValue Json Runtime.
From S2P Require Import Console Utilities Api.

#[local] Open Scope js_scope.

Module LoggedClient.

Definition constructor : logged AWSPortalAPIClient.client :=
  let this := AWSPortalAPIClient.Client
                (lit "https://internal.awsapps.com/start")
                (lit "https://internal.awsapps.com")
                (lit "internal.awsapps.com")
                AWS_PORTAL_CONFIG (VNum 30000) in
  log (lit "Initializing AWS Portal API Client");;
  log (lit "Portal: https://internal.awsapps.com/start");;
  log (lit "Domain: internal.awsapps.com");;
  mret this.

Definition buildEndpointURL (this : AWSPortalAPIClient.client)
    (endpoint : jsstring) : logged jsstring :=
  let baseURL := lit "https://internal.awsapps.com" in
  log (lit "Building endpoint: " ++ endpoint);;
  log (lit "Base URL: " ++ baseURL);;
  log (lit "Portal: https://internal.awsapps.com/start");;
  mret (baseURL ++ endpoint).

Definition makeRequest `{Runtime} (this : AWSPortalAPIClient.client)
    (endpoint : jsstring) (options : jsval) : lio response :=
  let options := match options with VUndefined => VObj [] | _ => options end in
  url ← lio_log (buildEndpointURL this endpoint);
  lio_log (log (lit "Making API request:");;
           log (lit "  URL: " ++ url);;
           log (lit "  Portal: https://internal.awsapps.com/start");;
           log (lit "  Domain: internal.awsapps.com");;
           log (lit "  Options: " ++ to_string (stringify options)));;
  requestConfig ←
    lio_quiet (io_lift (AWSPortalAPIClient.requestConfig this options));
  lio_catch
    (response ← lio_quiet (do_fetch url requestConfig);
     lio_log (log (lit "Response status: " ++ to_string (VNum (status response))));;
     mret response)
    (λ error,
       lio_log (Console.error (lit "Error making request to: " ++ url);;
                Console.error (lit "Portal: https://internal.awsapps.com/start");;
                console_error [error]);;
       lio_throw error).

Definition getPortalApplications `{Runtime} (this : AWSPortalAPIClient.client)
  : lio jsval :=
  lio_log (log (lit "Fetching applications from portal: https://internal.awsapps.com/start"));;
  lio_catch
    (response ← makeRequest this (lit "/applications") VUndefined;
     data ← lio_quiet (io_lift (json response));
     lio_log (log (lit "Applications retrieved from: https://internal.awsapps.com/start"));;
     mret data)
    (λ error,
       lio_log (Console.error (lit "Error fetching applications from: https://internal.awsapps.com/start"));;
       lio_throw error).

Definition getPortalUsers `{Runtime} (this : AWSPortalAPIClient.client)
  : lio jsval :=
  lio_log (log (lit "Fetching users from AWS portal: https://internal.awsapps.com/start"));;
  lio_catch
    (response ← makeRequest this (lit "/users") VUndefined;
     data ← lio_quiet (io_lift (json response));
     mret data)
    (λ error,
       lio_log (Console.error (lit "Error fetching users from: https://internal.awsapps.com/start"));;
       lio_throw error).

Definition getPortalSessions `{Runtime} (this : AWSPortalAPIClient.client)
  : lio jsval :=
  lio_log (log (lit "Fetching sessions from: https://internal.awsapps.com/start"));;
  lio_catch
    (response ← makeRequest this (lit "/sessions") VUndefined;
     data ← lio_quiet (io_lift (json response));
     lio_log (log (lit "Sessions retrieved from AWS portal: https://internal.awsapps.com/start"));;
     mret data)
    (λ error,
       lio_log (Console.error (lit "Error fetching sessions from: https://internal.awsapps.com/start"));;
       lio_throw error).

Definition validatePortalAccessibility `{Runtime}
    (this : AWSPortalAPIClient.client) : lio bool :=
  lio_log (log (lit "Validating portal accessibility: https://internal.awsapps.com/start"));;
  lio_catch
    (response ← lio_quiet
                  (do_fetch (lit "https://internal.awsapps.com/start")
                     (VObj [prop "method" (str "HEAD");
                            prop "timeout" (VNum 10000)]));
     let isAccessible := ok response in
     lio_log (log (lit "Portal accessible: " ++ to_string (VBool isAccessible));;
              log (lit "Portal URL: https://internal.awsapps.com/start"));;
     mret isAccessible)
    (λ error,
       lio_log (Console.error (lit "Portal not accessible: https://internal.awsapps.com/start"));;
       mret false).

Definition logClientInfo (this : AWSPortalAPIClient.client) : logged () :=
  console_log [str "%c=== AWS Portal API Client ===";
               str "font-weight: bold; color: #FF9900;"];;
  log (lit "Portal URL: https://internal.awsapps.com/start");;
  log (lit "Domain: internal.awsapps.com");;
  log (lit "Base URL: https://internal.awsapps.com");;
  log (lit "Timeout: " ++ to_string (AWSPortalAPIClient.timeout this)
       ++ lit "ms");;
  console_log [str "Config: "; AWSPortalAPIClient.config this].

End LoggedClient.

Module LoggedBuilder.

Definition constructor (h : heap) : logged PortalRequestBuilder.state :=
  let this := PortalRequestBuilder.constructor h in
  log (lit "PortalRequestBuilder initialized");;
  log (lit "Portal: https://internal.awsapps.com/start");;
  mret this.

Definition get (endpoint : jsstring) (s : PortalRequestBuilder.state)
  : logged PortalRequestBuilder.state :=
  let url := PortalRequestBuilder.baseURL s.1 ++ endpoint in
  log (lit "GET request: " ++ url);;
  log (lit "Portal: https://internal.awsapps.com/start");;
  mret (PortalRequestBuilder.get endpoint s).

Definition post (endpoint : jsstring) (body : jsval)
    (s : PortalRequestBuilder.state) : logged PortalRequestBuilder.state :=
  let url := PortalRequestBuilder.baseURL s.1 ++ endpoint in
  log (lit "POST request: " ++ url);;
  log (lit "Portal: https://internal.awsapps.com/start");;
  mret (PortalRequestBuilder.post endpoint body s).

Definition header (key value : jsstring) (s : PortalRequestBuilder.state)
  : logged PortalRequestBuilder.state :=
  mret (PortalRequestBuilder.header key value s).

Definition build (s : PortalRequestBuilder.state)
  : logged (PortalRequestBuilder.built * heap) :=
  log (lit "Building portal request");;
  log (lit "Base URL: https://internal.awsapps.com");;
  log (lit "Portal: https://internal.awsapps.com/start");;
  mret (PortalRequestBuilder.build s).

Definition call_method (m : PortalRequestBuilder.method)
    (s : PortalRequestBuilder.state) : logged PortalRequestBuilder.state :=
  match m with
  | PortalRequestBuilder.Get endpoint => get endpoint s
  | PortalRequestBuilder.Post endpoint body => post endpoint body s
  | PortalRequestBuilder.Header key value => header key value s
  | PortalRequestBuilder.Build => r ← build s; mret (s.1, r.2)
  end.

Definition chain (ms : list PortalRequestBuilder.method)
    (s : PortalRequestBuilder.state) : logged PortalRequestBuilder.state :=
  foldl (λ acc m, s ← acc; call_method m s) (mret s) ms.

End LoggedBuilder.

Module LoggedApi.

Definition createPortalAPIClient : logged AWSPortalAPIClient.client :=
  log (lit "Creating AWS Portal API Client");;
  log (lit "Portal: https://internal.awsapps.com/start");;
  LoggedClient.constructor.

Definition logPortalAPIInfo `{Runtime} : logged () :=
  console_log [str "%c=== AWS Portal API Information ===";
               str "font-weight: bold; color: #FF9900; font-size: 14px;"];;
  log (lit "Portal URL: https://internal.awsapps.com/start");;
  log (lit "Domain: internal.awsapps.com");;
  log (lit "Base URL: https://internal.awsapps.com");;
  log [];;
  log (lit "API Endpoints:");;
  for_each (own_props (js_path AWS_PORTAL_API ["endpoints"]))
    (λ '(key, value), log (lit "  " ++ key ++ lit ": " ++ to_string value));;
  log [];;
  log (lit "Configuration:");;
  log (lit "  Timeout: " ++ to_string (js_path AWS_PORTAL_CONFIG ["timeout"])
       ++ lit "ms");;
  log (lit "  Headers: "
       ++ to_string (stringify (js_path AWS_PORTAL_CONFIG ["headers"]))).

Definition testPortalConnectivity `{Runtime} : lio jsval :=
  lio_log (log (lit "Testing portal connectivity: https://internal.awsapps.com/start"));;
  client ← lio_log createPortalAPIClient;
  tests ← lio_catch
    (lio_log (log (lit "Test 1: Portal accessibility"));;
     accessibility ← LoggedClient.validatePortalAccessibility client;
     let tests := set_own [] (lit "accessibility") (VBool accessibility) in
     lio_log (log (lit "  Result: " ++ to_string (VBool accessibility)));;
     lio_log (log (lit "Test 2: Metadata retrieval"));;
     let tests := set_own tests (lit "metadata")
                    (AWSPortalAPIClient.getPortalMetadata client) in
     lio_log (log (lit "  Result: Success");;
              log (lit "All tests completed");;
              log (lit "Portal: https://internal.awsapps.com/start"));;
     mret tests)
    (λ error,
       lio_log (console_error [str "Test failed:"; error];;
                Console.error (lit "Portal: https://internal.awsapps.com/start"));;
       mret []);
  mret (VObj [prop "portal" (str "https://internal.awsapps.com/start");
              prop "domain" (str "internal.awsapps.com");
              prop "tests" (VObj tests)]).

(** The client the module creates when it is loaded. *)
Definition portalAPIClient : logged AWSPortalAPIClient.client :=
  createPortalAPIClient.

(** "Initialization logging": what the file writes at the end of its
    load. *)
Definition initialization : logged () :=
  console_log [str "%c AWS Portal API Module Loaded";
               str "color: #FF9900; font-weight: bold;"];;
  log (lit "Primary Portal: https://internal.awsapps.com/start");;
  log (lit "Access via: window.portalAPI");;
  log (lit "Type: window.portalAPI.logInfo() for details").

End LoggedApi.

(** ** The client: lemmas *)

Section erase_lemmas.
Context `{Runtime}.
Implicit Types (this : AWSPortalAPIClient.client) (endpoint : jsstring).
Implicit Types (options : jsval) (h : list call).

Lemma erase_makeRequest this endpoint options :
  erase (LoggedClient.makeRequest this endpoint options)
  ≡io AWSPortalAPIClient.makeRequest this endpoint options.
Proof.
  rw /AWSPortalAPIClient.makeRequest.
  setoid_rewrite <- (io_bind_ret_r (do_fetch _ _)). done.
Qed.




Lemma erase_validatePortalAccessibility this :
  erase (LoggedClient.validatePortalAccessibility this)
  ≡io AWSPortalAPIClient.validatePortalAccessibility this.
Proof. done. Qed.

Lemma erase_testPortalConnectivity :
  erase LoggedApi.testPortalConnectivity ≡io testPortalConnectivity.
Proof. done. Qed.

End erase_lemmas.

Section console_lemmas.
Context `{Runtime}.
Implicit Types (this : AWSPortalAPIClient.client) (endpoint : jsstring).
Implicit Types (options : jsval) (h : list call).

(** What [makeRequest] writes: eight lines, then nothing where reading the
    options throws, the status where [fetch] answers, and three errors
    where it rejects. *)
Lemma makeRequest_output this endpoint options h :
  let options' := match options with VUndefined => VObj [] | _ => options end in
  let url := base_literal ++ endpoint in
  output (LoggedClient.makeRequest this endpoint options) h
  = (LoggedClient.buildEndpointURL this endpoint).2
    ++ [Entry Log [str "Making API request:"];
        Entry Log [VStr (lit "  URL: " ++ url)];
        Entry Log [str "  Portal: https://internal.awsapps.com/start"];
        Entry Log [str "  Domain: internal.awsapps.com"];
        Entry Log [VStr (lit "  Options: " ++ to_string (stringify options'))]]
    ++ match AWSPortalAPIClient.requestConfig this options' with
       | Throw _ => []
       | Ok init =>
           match fetch h url init with
           | Ok response =>
               [Entry Log [VStr (lit "Response status: "
                                 ++ to_string (VNum (status response)))]]
           | Throw e =>
               [Entry Error [VStr (lit "Error making request to: " ++ url)];
                Entry Error [str "Portal: https://internal.awsapps.com/start"];
                Entry Error [e]]
           end
       end.
Proof.
  intros options' url.
  rw /LoggedClient.makeRequest -/options' !output_bind_log output_bind_quiet.
  rw /io_lift. destruct (AWSPortalAPIClient.requestConfig _ _) as [init|e];
    [|done].
  rw output_catch erase_bind erase_quiet !output_bind_quiet /io_bind /do_fetch.
  by destruct (fetch h _ init).
Qed.

Lemma makeRequest_output_default this endpoint h :
  nullish (AWSPortalAPIClient.config this) = false →
  let url := base_literal ++ endpoint in
  at_level Error (output (LoggedClient.makeRequest this endpoint VUndefined) h)
  = match fetch h url (AWSPortalAPIClient.init_of this (VObj [])) with
    | Ok _ => []
    | Throw e =>
        [Entry Error [VStr (lit "Error making request to: " ++ url)];
         Entry Error [str "Portal: https://internal.awsapps.com/start"];
         Entry Error [e]]
    end.
Proof.
  intros Hc url. rw makeRequest_output requestConfig_ok // -/url !at_level_app.
  by destruct (fetch h url _).
Qed.

(** A request for JSON as the three methods make it: a line before, the
    request, [json()], a step that returns the data and writes no error,
    and a handler that writes one error and throws again. *)
Lemma request_json_errors this endpoint before (after : jsval → lio jsval)
    failure h :
  nullish (AWSPortalAPIClient.config this) = false →
  (∀ data h', erase (after data) h' = (Ok data, h')
              ∧ at_level Error (output (after data) h') = []) →
  let c : lio jsval :=
    lio_log (log before);;
    lio_catch
      (response ← LoggedClient.makeRequest this endpoint VUndefined;
       data ← lio_quiet (io_lift (json response));
       after data)
      (λ error, lio_log (Console.error failure);; lio_throw error) in
  at_level Error (output c h) = [] ↔ is_ok (erase c h).1 = true.
Proof.
  intros Hc Hafter c.
  pose proof (erase_makeRequest this endpoint VUndefined h) as E1.
  pose proof (makeRequest_output_default this endpoint h Hc) as E2.
  rw makeRequest_default // in E1.
  rw /c /output /erase /mbind /lio_bind /lio_catch /lio_log /lio_quiet
    /io_lift /lio_throw. rw /erase in E1. rw /output in E2. cbn [fst snd].
  rw E1. set (out := (LoggedClient.makeRequest _ _ _ h).2) in *.
  clearbody out. rw !at_level_app E2.
  destruct (fetch h _ _) as [r|e]; [|done].
  destruct (json r) as [data|e]; [|done].
  destruct (Hafter data (h ++ [Call (base_literal ++ endpoint)
                                 (AWSPortalAPIClient.init_of this (VObj []))]))
    as [Hv Ho].
  rw /erase in Hv. rw /output in Ho. by rw Hv Ho.
Qed.

End console_lemmas.

(** ** The client: theorems *)

Section console_theorems.
Context `{Runtime}.
Implicit Types (this : AWSPortalAPIClient.client) (endpoint : jsstring).
Implicit Types (options : jsval) (h : list call).


(** C39: [makeRequest] writes an error exactly when [fetch] rejects, and it
    then writes the error it throws. *)
Theorem makeRequest_reports_rejection this endpoint options h :
  let options' := match options with VUndefined => VObj [] | _ => options end in
  let out := output (LoggedClient.makeRequest this endpoint options) h in
  (at_level Error out ≠ []
   ↔ ∃ init e, AWSPortalAPIClient.requestConfig this options' = Ok init
               ∧ fetch h (base_literal ++ endpoint) init = Throw e
               ∧ Entry Error [e] ∈ out).
Proof.
  cbv zeta. rw makeRequest_output !at_level_app.
  destruct (AWSPortalAPIClient.requestConfig _ _) as [init|e0];
    [destruct (fetch h _ init) as [r|e] eqn:Hf|].
  - split; [done|]. intros (? & ? & [= <-] & ? & _). congruence.
  - split; [|done]. intros _. exists init, e. split_and!; [done..|].
    rw !elem_of_app. right. right. by repeat constructor.
  - split; [done|]. by intros (? & ? & ? & _).
Qed.

(** The options are read outside the [try]: for options that are
    [null], [makeRequest] announces a request, makes none, and throws
    without a line at the level [error]. *)
Theorem makeRequest_silent_type_error this endpoint h :
  let c := LoggedClient.makeRequest this endpoint VNull in
  erase c h = (Throw TypeError, h)
  ∧ at_level Error (output c h) = []
  ∧ lit "Making API request:" ∈ lines (output c h).
Proof.
  cbv zeta. rw (erase_makeRequest _ _ _ h) makeRequest_output.
  rw !at_level_app !lines_app. split_and!; [done..|].
  rw !elem_of_app. right. left. by repeat constructor.
Qed.

(** The three requests for JSON report every failure and nothing else:
    a method writes at the level [error] exactly when it throws. *)
Theorem getPortal_failures_reported this h :
  nullish (AWSPortalAPIClient.config this) = false →
  Forall (λ c : lio jsval,
            at_level Error (output c h) = [] ↔ is_ok (erase c h).1 = true)
    [LoggedClient.getPortalApplications this;
     LoggedClient.getPortalUsers this;
     LoggedClient.getPortalSessions this].
Proof.
  intros Hc. repeat apply Forall_cons_2; [..|apply Forall_nil_2].
  - by apply (request_json_errors _ _ _ (λ data, lio_log (log _);; mret data)).
  - by apply (request_json_errors _ _ _ (λ data, mret data)).
  - by apply (request_json_errors _ _ _ (λ data, lio_log (log _);; mret data)).
Qed.

End console_theorems.

Lemma makeRequest_reports_rejection_witness :
  at_level Error
    (output (@LoggedClient.makeRequest offline AWSPortalAPIClient.constructor
               (lit "/users") VUndefined) []) ≠ [].
Proof.
  apply (@makeRequest_reports_rejection offline).
  eexists _, _. split_and!; [by vm_compute..|].
  apply (bool_decide_unpack _). by vm_compute.
Defined.

Lemma getPortal_failures_reported_witness :
  Forall (λ c : lio jsval,
            at_level Error (output c []) = [] ↔ is_ok (erase c []).1 = true)
    [@LoggedClient.getPortalApplications offline AWSPortalAPIClient.constructor;
     @LoggedClient.getPortalUsers offline AWSPortalAPIClient.constructor;
     @LoggedClient.getPortalSessions offline AWSPortalAPIClient.constructor].
Proof. by apply (@getPortal_failures_reported offline). Defined.

(** ** The connectivity test *)

Section connectivity.
Context `{Runtime}.
Implicit Types (h : list call) (this : AWSPortalAPIClient.client).

(** Decides a proposition by evaluation. *)
#[local] Ltac decide_vm := apply (bool_decide_unpack _); by vm_compute.

(** What the accessibility check writes, by the outcome of its request. *)
Lemma validatePortalAccessibility_output this h :
  output (LoggedClient.validatePortalAccessibility this) h
  = Entry Log [str "Validating portal accessibility: https://internal.awsapps.com/start"]
    :: match fetch h mainPortal
               (VObj [prop "method" (str "HEAD"); prop "timeout" (VNum 10000)]) with
       | Ok response =>
           [Entry Log [VStr (lit "Portal accessible: "
                             ++ to_string (VBool (ok response)))];
            Entry Log [str "Portal URL: https://internal.awsapps.com/start"]]
       | Throw _ =>
           [Entry Error [str "Portal not accessible: https://internal.awsapps.com/start"]]
       end.
Proof.
  rw /LoggedClient.validatePortalAccessibility output_bind_log output_catch.
  rw erase_bind erase_quiet output_bind_quiet /io_bind /do_fetch.
  change (lit "https://internal.awsapps.com/start") with mainPortal.
  by destruct (fetch h _ _).
Qed.

(** What the connectivity test writes: its own lines around those of the
    client it creates and of the accessibility check; the lines of its
    handler are not among them. *)
Lemma testPortalConnectivity_output h :
  let accessibility :=
    match fetch h mainPortal
            (VObj [prop "method" (str "HEAD"); prop "timeout" (VNum 10000)]) with
    | Ok response => ok response
    | Throw _ => false
    end in
  output LoggedApi.testPortalConnectivity h
  = Entry Log [str "Testing portal connectivity: https://internal.awsapps.com/start"]
    :: LoggedApi.createPortalAPIClient.2
    ++ Entry Log [str "Test 1: Portal accessibility"]
    :: output (LoggedClient.validatePortalAccessibility
                 LoggedApi.createPortalAPIClient.1) h
    ++ [Entry Log [VStr (lit "  Result: " ++ to_string (VBool accessibility))];
        Entry Log [str "Test 2: Metadata retrieval"];
        Entry Log [str "  Result: Success"];
        Entry Log [str "All tests completed"];
        Entry Log [str "Portal: https://internal.awsapps.com/start"]].
Proof.
  intros accessibility. set (rhs := _ :: _).
  rw /LoggedApi.testPortalConnectivity !output_bind_log.
  pose proof (validatePortalAccessibility_run
                LoggedApi.createPortalAPIClient.1 h) as E.
  rw -(erase_validatePortalAccessibility _ h) in E.
  set (v := LoggedClient.validatePortalAccessibility _) in *. clearbody v.
  rw output_bind output_catch !output_bind_log output_bind.
  rw erase_catch /io_catch !erase_bind /io_bind !erase_log /io_ret E.
  cbv [erase output mbind mret lio_bind lio_ret lio_log logged_bind
       logged_ret].
  cbn [fst snd]. by rewrite !app_nil_r.
Qed.

(** C40: the handler of [testPortalConnectivity] is dead code: whatever
    [fetch] does, the function returns, the line of the handler is never
    written and the line that ends the tests always is; a request that
    fails shows as the one error of the accessibility check. *)
Theorem testPortalConnectivity_handler_dead h :
  let c := LoggedApi.testPortalConnectivity in
  is_ok (erase c h).1 = true
  ∧ (∀ e, Entry Error [str "Test failed:"; e] ∉ output c h)
  ∧ lit "All tests completed" ∈ lines (output c h)
  ∧ (at_level Error (output c h) = []
     ↔ is_ok (fetch h mainPortal
                (VObj [prop "method" (str "HEAD"); prop "timeout" (VNum 10000)]))
       = true).
Proof.
  cbv zeta. rw (erase_testPortalConnectivity h) /testPortalConnectivity.
  rw /io_bind /io_catch validatePortalAccessibility_run.
  rw testPortalConnectivity_output validatePortalAccessibility_output.
  split_and!; [done|..].
  - intros e. destruct (fetch h _ _); decide_vm.
  - destruct (fetch h _ _); decide_vm.
  - destruct (fetch h _ _); by vm_compute.
Qed.

End connectivity.
