(* ===== verification/Modules.v ===== *)
(** * Loading the three modules

    Each source file is a script: when it is loaded its declarations are
    instantiated, then its statements run.  This file models a load on a
    host that may or may not have a [window] and a [module], and that runs
    the file as a classic script of a page or inside the function of a
    CommonJS module:

    - [declare]: GlobalDeclarationInstantiation of ECMAScript.  In a
      classic script the names bound by [const] and [class] enter the
      global scope, and a name that is bound there already is a
      [SyntaxError] that keeps the script from running at all; the
      functions the file declares become properties of the global object,
      [window], before the first statement runs.  In a CommonJS module
      the declarations are local and change nothing of the host;
    - [load_utilities]: [src/aws-utilities.js] assigns
      [window.showAWSPortalHelp] and [window.awsPortalRef] without testing
      that [window] exists;
    - [load_constants]: [src/aws-portal-constants.js] tests
      [typeof window] first;
    - [load_api]: [src/aws-portal-api.js] creates its client, which writes
      to the console, then tests [typeof window];
    - each file ends with three or four lines on the console, which a
      load that throws before does not write;
    - [load_all]: three script elements, one after the other; a script
      that throws does not keep the next one from running.

    A function or class of the sources is [VFun] with its name; the client
    instance is the object of its own properties.  A property of [window]
    is its name and value: that a declared function cannot be deleted is
    not modelled. *)

From Corelib Require Import ssreflect_rw.
From stdpp Require Import strings.
From S2P Require Import Prelude JsString SourceText JsValue Url Utilities.
From S2P Require Import Constants Runtime Console UtilitiesLog Api ApiLog.

(** How a file is run: as a classic script of a page, or as the body of a
    CommonJS module. *)
Inductive scope : Type := Script | CommonJS.

(** The host a file is loaded in: the own properties of [window], where
    there is one; the value of [module.exports], where there is a
    [module]; the names the scripts loaded so far have bound in the global
    scope, by [const] and [class] and by [function]; and what has been
    written to the console. *)
Record host : Type := Host {
  window_object : option (list (jsstring * jsval));
  module_exports : option jsval;
  scope_of : scope;
  lexical_names : list jsstring;
  var_names : list jsstring;
  written : console;
}.

(** What a load leaves: the error it threw, if any, and the host. *)
Definition loaded : Type := option jsval * host.

(** The error of a reference to a name that is not declared. *)
Definition ReferenceError : jsval := VBuiltin (lit "ReferenceError").

(** [fn]: a function or class the sources declare. *)
Definition fn (name : string) : jsval := VFun (lit name).

(** [if (typeof module !== 'undefined' && module.exports)
      module.exports = exports] *)
Definition export_to_module (exports : jsval) (m : option jsval)
  : option jsval :=
  match m with
  | Some current => if truthy current then Some exports else Some current
  | None => None
  end.

(** [window.a = v; window.b = w; ...] in order. *)
Definition assign_all (w : list (jsstring * jsval))
    (assignments : list (jsstring * jsval)) : list (jsstring * jsval) :=
  foldl (λ w kv, set_own w kv.1 kv.2) w assignments.

(** The own properties of an instance of [AWSPortalAPIClient]. *)
Definition client_object (c : AWSPortalAPIClient.client) : jsval := VObj [
  prop "portalURL" (VStr (AWSPortalAPIClient.portalURL c));
  prop "baseURL" (VStr (AWSPortalAPIClient.baseURL c));
  prop "domain" (VStr (AWSPortalAPIClient.domain c));
  prop "config" (AWSPortalAPIClient.config c);
  prop "timeout" (AWSPortalAPIClient.timeout c)
].

Definition utilities_exports : jsval := VObj [
  prop "AWS_IDENTITY_CENTER" AWS_IDENTITY_CENTER;
  prop "AWS_DOMAINS" AWS_DOMAINS;
  prop "AWS_PORTAL_URLS" AWS_PORTAL_URLS;
  prop "AWS_PORTAL_METADATA" AWS_PORTAL_METADATA;
  prop "isValidAWSPortalURL" (fn "isValidAWSPortalURL");
  prop "getAWSPortalURL" (fn "getAWSPortalURL");
  prop "normalizeAWSPortalURL" (fn "normalizeAWSPortalURL");
  prop "isMainAWSPortal" (fn "isMainAWSPortal");
  prop "getAWSPortalDomain" (fn "getAWSPortalDomain");
  prop "buildAWSPortalURL" (fn "buildAWSPortalURL");
  prop "logAWSPortalInfo" (fn "logAWSPortalInfo");
  prop "validateAWSPortalConfig" (fn "validateAWSPortalConfig");
  prop "navigateToAWSPortal" (fn "navigateToAWSPortal")
].

(** [window.awsPortalRef], given the properties of [window] at the moment
    of the assignment. *)
Definition awsPortalRef (w : list (jsstring * jsval)) : jsval := VObj [
  prop "main" (VStr awsPortalRef_main);
  prop "validate" (fn "isValidAWSPortalURL");
  prop "normalize" (fn "normalizeAWSPortalURL");
  prop "navigate" (fn "navigateToAWSPortal");
  prop "info" (fn "logAWSPortalInfo");
  prop "help" (js_get (VObj w) (lit "showAWSPortalHelp"))
].

(** The error of a declaration of a name that is bound already. *)
Definition SyntaxError : jsval := VBuiltin (lit "SyntaxError").

Definition set_window (f : list (jsstring * jsval) → list (jsstring * jsval))
    (h : host) : host :=
  {| window_object := f <$> window_object h;
     module_exports := module_exports h; scope_of := scope_of h;
     lexical_names := lexical_names h; var_names := var_names h;
     written := written h |}.

(** [if (typeof module !== 'undefined' && module.exports)
      module.exports = exports], on the host. *)
Definition set_exports (exports : jsval) (h : host) : host :=
  {| window_object := window_object h;
     module_exports := export_to_module exports (module_exports h);
     scope_of := scope_of h;
     lexical_names := lexical_names h; var_names := var_names h;
     written := written h |}.

Definition write (m : logged ()) (h : host) : host :=
  {| window_object := window_object h;
     module_exports := module_exports h; scope_of := scope_of h;
     lexical_names := lexical_names h; var_names := var_names h;
     written := written h ++ m.2 |}.

(** One of the names is among those bound already. *)
Definition collides (names bound : list jsstring) : bool :=
  existsb (λ n, bool_decide (n ∈ bound)) names.

(** GlobalDeclarationInstantiation for a file that binds the names
    [lexical] by [const] and [class] and declares the functions
    [functions]. *)
Definition declare (lexical functions : list string) (h : host)
  : result jsval host :=
  match scope_of h with
  | CommonJS => Ok h
  | Script =>
      if collides (lit <$> lexical) (lexical_names h ++ var_names h)
         || collides (lit <$> functions) (lexical_names h)
      then Throw SyntaxError
      else Ok {| window_object :=
                   (λ w, assign_all w ((λ f, (lit f, fn f)) <$> functions))
                   <$> window_object h;
                 module_exports := module_exports h;
                 scope_of := Script;
                 lexical_names := lexical_names h ++ (lit <$> lexical);
                 var_names := var_names h ++ (lit <$> functions);
                 written := written h |}
  end.

(** The declarations of [src/aws-utilities.js]. *)
Definition utilities_lexical : list string :=
  ["AWS_IDENTITY_CENTER"; "AWS_DOMAINS"; "AWS_PORTAL_URLS";
   "AWS_PORTAL_METADATA"].

Definition utilities_functions : list string :=
  ["isValidAWSPortalURL"; "getAWSPortalURL"; "normalizeAWSPortalURL";
   "isMainAWSPortal"; "getAWSPortalDomain"; "buildAWSPortalURL";
   "logAWSPortalInfo"; "validateAWSPortalConfig"; "navigateToAWSPortal"].

Definition load_utilities (h : host) : loaded :=
  match declare utilities_lexical utilities_functions h with
  | Throw e => (Some e, h)
  | Ok h =>
      match window_object h with
      | None => (Some ReferenceError, h)
      | Some _ =>
          let h := set_window
                     (λ w, let w := set_own w (lit "showAWSPortalHelp")
                                      (fn "showAWSPortalHelp") in
                           set_own w (lit "awsPortalRef") (awsPortalRef w)) h in
          let h := set_exports utilities_exports h in
          (None, write LoggedUtilities.initialization h)
      end
  end.

(** The fourteen constants, under their names. *)
Definition constants_exports : list (jsstring * jsval) := [
  prop "PORTAL_URLS" PORTAL_URLS;
  prop "DOMAIN_CONSTANTS" DOMAIN_CONSTANTS;
  prop "PATH_CONSTANTS" PATH_CONSTANTS;
  prop "PROTOCOL_CONSTANTS" PROTOCOL_CONSTANTS;
  prop "PORTAL_CONFIG" PORTAL_CONFIG;
  prop "PORTAL_ENDPOINTS" PORTAL_ENDPOINTS;
  prop "PORTAL_FEATURES" PORTAL_FEATURES;
  prop "SUPPORTED_DOMAINS" SUPPORTED_DOMAINS;
  prop "SUBDOMAIN_PATTERNS" SUBDOMAIN_PATTERNS;
  prop "PORTAL_DOCS" PORTAL_DOCS;
  prop "PORTAL_STATUS" PORTAL_STATUS;
  prop "PORTAL_HEADERS" PORTAL_HEADERS;
  prop "PORTAL_TIMING" PORTAL_TIMING;
  prop "PORTAL_VALIDATORS" PORTAL_VALIDATORS
].

(** The declarations of [src/aws-portal-constants.js]: the fourteen
    constants, and no function. *)
Definition constants_lexical : list string :=
  ["PORTAL_URLS"; "DOMAIN_CONSTANTS"; "PATH_CONSTANTS"; "PROTOCOL_CONSTANTS";
   "PORTAL_CONFIG"; "PORTAL_ENDPOINTS"; "PORTAL_FEATURES"; "SUPPORTED_DOMAINS";
   "SUBDOMAIN_PATTERNS"; "PORTAL_DOCS"; "PORTAL_STATUS"; "PORTAL_HEADERS";
   "PORTAL_TIMING"; "PORTAL_VALIDATORS"].

(** "Initialization logging" of the constants. *)
Definition constants_initialization : logged () :=
  console_log [str "%c AWS Portal Constants Module Loaded";
               str "color: #FF9900; font-weight: bold;"];;
  log (lit "Primary Portal: https://internal.awsapps.com/start");;
  log (lit "Access constants via: window.AWS_PORTAL_CONSTANTS or specific constant objects").

Definition load_constants (h : host) : loaded :=
  match declare constants_lexical [] h with
  | Throw e => (Some e, h)
  | Ok h =>
      let h := set_window
                 (λ w, assign_all w
                         (constants_exports
                          ++ [prop "AWS_PORTAL_CONSTANTS" AWS_PORTAL_CONSTANTS]))
                 h in
      let h := set_exports (VObj constants_exports) h in
      (None, write constants_initialization h)
  end.

(** [window.portalAPI] *)
Definition portalAPI : jsval := VObj [
  prop "client" (client_object portalAPIClient);
  prop "createClient" (fn "createPortalAPIClient");
  prop "getInfo" (fn "getPortalAPIInfo");
  prop "logInfo" (fn "logPortalAPIInfo");
  prop "testConnectivity" (fn "testPortalConnectivity");
  prop "requestBuilder" (fn "PortalRequestBuilder")
].

Definition api_exports : jsval := VObj [
  prop "AWS_PORTAL_API" AWS_PORTAL_API;
  prop "AWS_PORTAL_CONFIG" AWS_PORTAL_CONFIG;
  prop "AWSPortalAPIClient" (fn "AWSPortalAPIClient");
  prop "PortalRequestBuilder" (fn "PortalRequestBuilder");
  prop "createPortalAPIClient" (fn "createPortalAPIClient");
  prop "getPortalAPIInfo" (fn "getPortalAPIInfo");
  prop "logPortalAPIInfo" (fn "logPortalAPIInfo");
  prop "testPortalConnectivity" (fn "testPortalConnectivity")
].

(** The declarations of [src/aws-portal-api.js]. *)
Definition api_lexical : list string :=
  ["AWS_PORTAL_API"; "AWS_PORTAL_CONFIG"; "AWSPortalAPIClient";
   "PortalRequestBuilder"; "portalAPIClient"].

Definition api_functions : list string :=
  ["createPortalAPIClient"; "getPortalAPIInfo"; "logPortalAPIInfo";
   "testPortalConnectivity"].

Definition load_api (h : host) : loaded :=
  match declare api_lexical api_functions h with
  | Throw e => (Some e, h)
  | Ok h =>
      let h := write (LoggedApi.portalAPIClient;; mret ()) h in
      let h := set_window
                 (λ w, assign_all w
                         [prop "portalAPI" portalAPI;
                          prop "AWS_PORTAL_API" AWS_PORTAL_API;
                          prop "AWS_PORTAL_CONFIG" AWS_PORTAL_CONFIG;
                          prop "AWSPortalAPIClient" (fn "AWSPortalAPIClient");
                          prop "PortalRequestBuilder"
                            (fn "PortalRequestBuilder")]) h in
      let h := set_exports api_exports h in
      (None, write LoggedApi.initialization h)
  end.

(** A page of a browser before any of the files is loaded: a [window]
    with the given properties, no [module], classic scripts. *)
Definition browser (w : list (jsstring * jsval)) : host :=
  Host (Some w) None Script [] [] [].

(** A CommonJS host: no [window], and a [module] with empty exports. *)
Definition commonjs : host := Host None (Some (VObj [])) CommonJS [] [] [].

(** The three files loaded one after the other by three script elements:
    the errors thrown, in order, and the host at the end. *)
Definition load_all (h : host) : list (option jsval) * host :=
  let '(e1, h) := load_utilities h in
  let '(e2, h) := load_constants h in
  let '(e3, h) := load_api h in
  ([e1; e2; e3], h).

(** The names the three files define on [window]: the functions they
    declare and the properties they assign. *)
Definition window_names : list jsstring :=
  (lit <$> utilities_functions)
  ++ (lit <$> ["showAWSPortalHelp"; "awsPortalRef"])
  ++ (constants_exports.*1 ++ [lit "AWS_PORTAL_CONSTANTS"])
  ++ (lit <$> api_functions)
  ++ (lit <$> ["portalAPI"; "AWS_PORTAL_API"; "AWS_PORTAL_CONFIG";
               "AWSPortalAPIClient"; "PortalRequestBuilder"]).

(** The properties of [window] after the three files are loaded in a
    page. *)
Definition window_after (w : list (jsstring * jsval)) : list (jsstring * jsval) :=
  let w := assign_all w ((λ f, (lit f, fn f)) <$> utilities_functions) in
  let w := set_own w (lit "showAWSPortalHelp") (fn "showAWSPortalHelp") in
  let w := set_own w (lit "awsPortalRef") (awsPortalRef w) in
  let w := assign_all w (constants_exports
                         ++ [prop "AWS_PORTAL_CONSTANTS" AWS_PORTAL_CONSTANTS]) in
  let w := assign_all w ((λ f, (lit f, fn f)) <$> api_functions) in
  assign_all w [prop "portalAPI" portalAPI;
                prop "AWS_PORTAL_API" AWS_PORTAL_API;
                prop "AWS_PORTAL_CONFIG" AWS_PORTAL_CONFIG;
                prop "AWSPortalAPIClient" (fn "AWSPortalAPIClient");
                prop "PortalRequestBuilder" (fn "PortalRequestBuilder")].

(** The functions the help of the resolver lists: of a line
    ["  • name(arguments) - what it does"], the name. *)
Definition help_function (line : jsstring) : option jsstring :=
  if startsWith line (text "  • ") && bool_decide (40%N ∈ line)
  then Some (take_while (λ c, negb (c =? 40)%N) (drop 4 line))
  else None.

Definition help_functions : list jsstring :=
  omap help_function (lines LoggedUtilities.showAWSPortalHelp.2).

(** ** Lemmas *)

(** Decides a closed proposition by evaluation. *)
Ltac decide_by_eval := apply (bool_decide_unpack _); vm_compute; exact I.

Section load_lemmas.
Implicit Types (h : host) (w ws : list (jsstring * jsval)) (k : jsstring)
  (v : jsval) (names bound : list jsstring).

Lemma get_own_assign_all w ws k :
  get_own (assign_all w ws) k
  = match get_own (reverse ws) k with
    | Some v => Some v
    | None => get_own w k
    end.
Proof. apply get_own_assign. Qed.

Lemma get_own_assign_all_old w ws k :
  k ∉ ws.*1 → get_own (assign_all w ws) k = get_own w k.
Proof.
  intros Hk. rw get_own_assign_all.
  by rw (proj2 (get_own_None (reverse ws) k)); [rw fmap_reverse elem_of_reverse|].
Qed.

Lemma get_own_assign_all_new w ws k v :
  get_own (reverse ws) k = Some v → get_own (assign_all w ws) k = Some v.
Proof. intros Hk. by rw get_own_assign_all Hk. Qed.

Lemma collides_spec names bound :
  collides names bound = true ↔ ∃ n, n ∈ names ∧ n ∈ bound.
Proof.
  rw /collides existsb_exists. split; intros (n & Hn & Hb); exists n.
  - by apply list_elem_of_In in Hn; apply bool_decide_eq_true in Hb.
  - by split; [apply list_elem_of_In|apply bool_decide_eq_true].
Qed.

(** What a script that was instantiated has bound. *)
Lemma declare_Script lexical functions h h' :
  scope_of h = Script → declare lexical functions h = Ok h' →
  scope_of h' = Script
  ∧ lexical_names h' = lexical_names h ++ (lit <$> lexical)
  ∧ var_names h' = var_names h ++ (lit <$> functions).
Proof. rw /declare. intros ->. by case_match; intros [= <-]. Qed.

(** A script that binds a name by [const] or [class] is not instantiated
    twice. *)
Lemma declare_again lexical functions h n :
  scope_of h = Script → n ∈ lexical → lit n ∈ lexical_names h →
  declare lexical functions h = Throw SyntaxError.
Proof.
  intros Hs Hn Hb. rw /declare Hs (proj2 (collides_spec _ _)) //.
  exists (lit n). split; [by apply list_elem_of_fmap_2|].
  apply elem_of_app. by left.
Qed.

Lemma load_all_browser_run w :
  ∃ h, load_all (browser w) = ([None; None; None], h)
       ∧ window_object h = Some (window_after w).
Proof. eexists. split; [by vm_compute|done]. Qed.

Lemma not_window_name k (l : list jsstring) :
  Forall (λ x, x ∈ window_names) l → k ∉ window_names → k ∉ l.
Proof. intros Hl Hk Hin. apply Hk. by eapply Forall_forall in Hl. Qed.

Lemma window_after_old w k :
  k ∉ window_names → get_own (window_after w) k = get_own w k.
Proof.
  intros Hk. rw /window_after. cbv zeta.
  rewrite !get_own_assign_all_old
    by (eapply not_window_name; [decide_by_eval|done]).
  rewrite !get_own_set_own_ne by (intros <-; apply Hk; decide_by_eval).
  apply get_own_assign_all_old.
  eapply not_window_name; [decide_by_eval|done].
Qed.

Lemma window_after_ref w :
  get_own (window_after w) (lit "awsPortalRef")
  = Some (awsPortalRef
            (set_own (assign_all w ((λ f, (lit f, fn f)) <$> utilities_functions))
               (lit "showAWSPortalHelp") (fn "showAWSPortalHelp"))).
Proof.
  rw /window_after. cbv zeta.
  rewrite !get_own_assign_all_old by decide_by_eval.
  apply get_own_set_own_eq.
Qed.

Lemma window_after_constants w :
  get_own (window_after w) (lit "AWS_PORTAL_CONSTANTS")
  = Some AWS_PORTAL_CONSTANTS.
Proof.
  rw /window_after. cbv zeta.
  do 2 (rewrite get_own_assign_all_old by decide_by_eval).
  apply get_own_assign_all_new. by vm_compute.
Qed.

Lemma window_after_api w :
  get_own (window_after w) (lit "portalAPI") = Some portalAPI.
Proof.
  rw /window_after. cbv zeta. apply get_own_assign_all_new. by vm_compute.
Qed.

(** A function a file declares is a property of [window] afterwards. *)
Lemma window_after_function w (f : string) :
  f ∈ utilities_functions ++ api_functions →
  get_own (window_after w) (lit f) = Some (fn f).
Proof.
  intros Hf. rw /window_after. cbv zeta.
  apply elem_of_app in Hf as [Hf|Hf].
  - rewrite !get_own_assign_all_old
      by (revert f Hf; apply Forall_forall; decide_by_eval).
    rewrite !get_own_set_own_ne
      by (revert f Hf; apply Forall_forall; decide_by_eval).
    apply get_own_assign_all_new. revert f Hf. apply Forall_forall.
    decide_by_eval.
  - rewrite get_own_assign_all_old
      by (revert f Hf; apply Forall_forall; decide_by_eval).
    apply get_own_assign_all_new. revert f Hf. apply Forall_forall.
    decide_by_eval.
Qed.

End load_lemmas.

Section once_lemmas.
Implicit Types (h : host).

(** A file that is instantiated twice in a page throws. *)
Lemma declared_twice lexical functions h h1 h2 n :
  scope_of h = Script → declare lexical functions h = Ok h1 →
  scope_of h2 = scope_of h1 → lexical_names h2 = lexical_names h1 →
  n ∈ lexical → declare lexical functions h2 = Throw SyntaxError.
Proof.
  intros Hs Hd Hs2 Hl Hn.
  destruct (declare_Script _ _ _ _ Hs Hd) as (Hs1 & Hl1 & _).
  apply (declare_again _ _ _ n); [congruence|done|].
  rw Hl Hl1 elem_of_app. right. by apply list_elem_of_fmap_2.
Qed.

(** A load that does not throw keeps the names its declarations bound. *)
Lemma load_utilities_bound h :
  (load_utilities h).1 = None →
  ∃ h1, declare utilities_lexical utilities_functions h = Ok h1
        ∧ scope_of (load_utilities h).2 = scope_of h1
        ∧ lexical_names (load_utilities h).2 = lexical_names h1.
Proof.
  rw /load_utilities. destruct (declare _ _ h); [|done].
  destruct (window_object _); [|done]. by eexists.
Qed.

Lemma load_constants_bound h :
  (load_constants h).1 = None →
  ∃ h1, declare constants_lexical [] h = Ok h1
        ∧ scope_of (load_constants h).2 = scope_of h1
        ∧ lexical_names (load_constants h).2 = lexical_names h1.
Proof. rw /load_constants. destruct (declare _ _ h); [|done]. by eexists. Qed.

Lemma load_api_bound h :
  (load_api h).1 = None →
  ∃ h1, declare api_lexical api_functions h = Ok h1
        ∧ scope_of (load_api h).2 = scope_of h1
        ∧ lexical_names (load_api h).2 = lexical_names h1.
Proof. rw /load_api. destruct (declare _ _ h); [|done]. by eexists. Qed.

(** The names the help lists. *)
Lemma help_functions_eq :
  help_functions
  = lit "validateAWSPortalURL" ::
    (lit <$> ["getAWSPortalURL"; "normalizeAWSPortalURL"; "isMainAWSPortal";
              "getAWSPortalDomain"; "buildAWSPortalURL"; "logAWSPortalInfo";
              "validateAWSPortalConfig"; "navigateToAWSPortal"]).
Proof. by vm_compute. Qed.

End once_lemmas.

(** ** Theorems *)

Section load_theorems.
Implicit Types (h : host) (w : list (jsstring * jsval)) (m : option jsval).

(** C23: in a page that has loaded none of the files, the three scripts
    run without an error whatever [window] holds; the names they define
    on [window] are pairwise different; afterwards every function the
    files declare is a property of [window], the main portal is the same
    under [awsPortalRef], [AWS_PORTAL_CONSTANTS] and [portalAPI], and
    every property of [window] under another name is as before. *)
Theorem load_all_browser w :
  ∃ h' w', load_all (browser w) = ([None; None; None], h')
    ∧ window_object h' = Some w'
    ∧ NoDup window_names
    ∧ Forall (λ f, get_own w' (lit f) = Some (fn f))
        (utilities_functions ++ api_functions)
    ∧ js_path (VObj w') ["awsPortalRef"; "main"] = VStr mainPortal
    ∧ js_path (VObj w') ["awsPortalRef"; "help"] = fn "showAWSPortalHelp"
    ∧ js_path (VObj w') ["AWS_PORTAL_CONSTANTS"; "config"; "url"]
      = VStr mainPortal
    ∧ js_path (VObj w') ["portalAPI"; "client"; "portalURL"] = VStr mainPortal
    ∧ ∀ k, k ∉ window_names → get_own w' k = get_own w k.
Proof.
  destruct (load_all_browser_run w) as (h' & Hrun & Hw).
  exists h', (window_after w).
  split_and!; [done|done|decide_by_eval|..]; rw ?js_path_cons.
  - apply Forall_forall. intros f Hf. by apply window_after_function.
  - by rw (js_get_own _ _ _ (window_after_ref w)).
  - rw (js_get_own _ _ _ (window_after_ref w)) js_path_nil.
    rw /awsPortalRef [js_get (VObj [_;_;_;_;_;_]) _]/=.
    by rw /js_get get_own_set_own_eq.
  - by rw (js_get_own _ _ _ (window_after_constants w)).
  - by rw (js_get_own _ _ _ (window_after_api w)).
  - apply window_after_old.
Qed.

(** C37: a file can be loaded once in a page: each of the three binds
    names by [const], so that a second script element for a file that has
    run throws a [SyntaxError] before its first statement and leaves the
    page as it is, whatever was loaded before. *)
Theorem load_once h :
  scope_of h = Script →
  Forall (λ load : host → loaded,
            (load h).1 = None →
            load (load h).2 = (Some SyntaxError, (load h).2))
    [load_utilities; load_constants; load_api].
Proof.
  intros Hs. repeat apply Forall_cons_2; [..|apply Forall_nil_2].
  - intros (h1 & Hd & Hs2 & Hl)%load_utilities_bound.
    rw {1}/load_utilities.
    by rw (declared_twice _ _ h h1 _ "AWS_IDENTITY_CENTER") //; left.
  - intros (h1 & Hd & Hs2 & Hl)%load_constants_bound.
    rw {1}/load_constants.
    by rw (declared_twice _ _ h h1 _ "PORTAL_URLS") //; left.
  - intros (h1 & Hd & Hs2 & Hl)%load_api_bound.
    rw {1}/load_api.
    by rw (declared_twice _ _ h h1 _ "AWS_PORTAL_API") //; left.
Qed.

(** Without a [window], [aws-utilities.js] does not get past its first
    assignment: the load throws, exports nothing and writes nothing,
    whether the file runs as a script or as a module. *)
Theorem load_utilities_needs_window h :
  window_object h = None →
  (load_utilities h).1 ∈ [Some ReferenceError; Some SyntaxError]
  ∧ module_exports (load_utilities h).2 = module_exports h
  ∧ written (load_utilities h).2 = written h.
Proof.
  intros Hw. rw /load_utilities /declare.
  destruct (scope_of h); [destruct (_ || _)|]; rw ?Hw /=;
    (split_and!; [|done..]); rw !elem_of_cons; auto.
Qed.

(** The help of the resolver lists nine functions.  Eight of them are
    properties of [window] once the files are loaded; the first,
    [validateAWSPortalURL], is a name no file defines, and the function
    that validates, [isValidAWSPortalURL], is not listed. *)
Theorem help_names_global w :
  Forall (λ f, (get_own (window_after w) f = Some (VFun f))
               ∨ f = lit "validateAWSPortalURL") help_functions
  ∧ lit "validateAWSPortalURL" ∈ help_functions
  ∧ (lit "validateAWSPortalURL" ∉ window_names)
  ∧ (lit "isValidAWSPortalURL" ∉ help_functions).
Proof.
  rw help_functions_eq. split_and!; [|decide_by_eval..].
  apply Forall_cons_2; [by right|].
  apply Forall_fmap, Forall_forall. intros g Hg. left.
  apply window_after_function, elem_of_app. left. by right.
Qed.

End load_theorems.

Lemma load_once_witness :
  Forall (λ load : host → loaded,
            (load (browser [])).1 = None →
            load (load (browser [])).2
            = (Some SyntaxError, (load (browser [])).2))
    [load_utilities; load_constants; load_api].
Proof. by apply load_once. Defined.
